(** * The stateful session service of [6_StatefulService/app/service.py]

    A shallow embedding of the durable part of the service: the record
    store ([_save_session], [_save_stats] and their loaders), the event
    log ([_log_event], [list_events]), the counter record maintained by the
    bootstrap code and by [crash], and the session registry
    ([create_session], [get_session], [list_sessions], [update_session],
    [delete_session]).

    The volume mounted at [DATA_DIR] is the state.  Handlers are written in
    a state-and-exception monad that also records, in order, every call
    that changes the volume, so that statements about the order of writes
    and about a process stopped between two writes can be made on the
    handlers themselves.  What a handler takes from outside the volume (the
    body of the request, the identifier drawn by [uuid.uuid4], the readings
    of the clock) is an argument.

    The two routes that report, [health] and [state], read the memory of
    the process as well: the time of its start and the count of the
    requests it served, kept by [_count].  That memory is an argument of
    the two handlers, and a process is followed along a history together
    with the volume.  Requests are served one after the other. *)

From Stdlib Require Import ZArith QArith Qround Qabs Qcanon Lqa String Ascii List.
From stdpp Require Import base numbers option list gmap strings sorting.

Set Warnings "-register-all".
Close Scope Q_scope.
Close Scope Qc_scope.
Local Open Scope Z_scope.

(** ** JSON values and the Python operations applied to them *)

(** What [json.loads] produces: [None], [bool], [int], [float], [str],
    [list] and [dict].  A [dict] keeps its keys in insertion order; floats
    are idealised as rationals. *)
Inductive json : Type :=
| JNull
| JBool (b : bool)
| JInt (z : Z)
| JFloat (q : Qc)
| JStr (s : string)
| JArr (l : list json)
| JObj (d : list (string * json)).

Abbreviation dict := (list (string * json)).

Inductive exn : Type :=
| NotFound (description : string)   (* abort(404, description=...) *)
| KeyError (k : string)
| TypeError
| AttributeError
| ValueError
| JSONDecodeError
| FileNotFoundError
| OutOfModel.                       (* behaviour the embedding does not cover *)

(** The three ways a piece of code ends: it returns, it raises, or it
    leaves the interpreter through [os._exit]. *)
Inductive outcome (A : Type) : Type :=
| Ok (a : A)
| Raise (e : exn)
| Exit (code : Z).
Arguments Ok {A} a.
Arguments Raise {A} e.
Arguments Exit {A} code.

#[global] Instance outcome_ret : MRet outcome := fun A a => Ok a.

#[global] Instance outcome_bind : MBind outcome :=
  fun A B k o =>
    match o with
    | Ok a => k a
    | Raise e => Raise e
    | Exit c => Exit c
    end.

Module Py.

(** [d.get(k)] on the association list of a dict: keys are unique, the
    first match is the only one. *)
Fixpoint dict_get (k : string) (d : dict) : option json :=
  match d with
  | [] => None
  | (k', v) :: r => if decide (k' = k) then Some v else dict_get k r
  end.

(** [d[k] = v]: an existing key keeps its position, a new one goes last. *)
Fixpoint dict_set (k : string) (v : json) (d : dict) : dict :=
  match d with
  | [] => [(k, v)]
  | (k', v') :: r =>
      if decide (k' = k) then (k, v) :: r else (k', v') :: dict_set k v r
  end.

(** [{**base, **extra}]. *)
Definition dict_update (base extra : dict) : dict :=
  fold_left (fun d kv => dict_set kv.1 kv.2 d) extra base.

(** Truth value of a JSON value, as [x or {}] tests it. *)
Definition truthy (x : json) : bool :=
  match x with
  | JNull => false
  | JBool b => b
  | JInt z => negb (z =? 0)
  | JFloat q => negb (bool_decide (q = 0%Qc))
  | JStr s => negb (bool_decide (s = EmptyString))
  | JArr l => negb (bool_decide (length l = 0%nat))
  | JObj d => negb (bool_decide (length d = 0%nat))
  end.

(** [x.get(k, dflt)]: only a dict has the method. *)
Definition get (x : json) (k : string) (dflt : json) : outcome json :=
  match x with
  | JObj d => Ok (default dflt (dict_get k d))
  | _ => Raise AttributeError
  end.

(** [x[k]] with a string key. *)
Definition getitem (x : json) (k : string) : outcome json :=
  match x with
  | JObj d =>
      match dict_get k d with
      | Some v => Ok v
      | None => Raise (KeyError k)
      end
  | _ => Raise TypeError
  end.

(** [x[k] = v] with a string key. *)
Definition setitem (x : json) (k : string) (v : json) : outcome json :=
  match x with
  | JObj d => Ok (JObj (dict_set k v d))
  | _ => Raise TypeError
  end.

(** [x + 1]. *)
Definition add1 (x : json) : outcome json :=
  match x with
  | JInt z => Ok (JInt (z + 1))
  | JBool b => Ok (JInt ((if b then 1 else 0) + 1))
  | JFloat q => Ok (JFloat (q + 1)%Qc)
  | _ => Raise TypeError
  end.

Fixpoint starts_with (p s : string) : bool :=
  match p, s with
  | EmptyString, _ => true
  | String a p', String b s' => bool_decide (a = b) && starts_with p' s'
  | String _ _, EmptyString => false
  end.

(** [p in s] on two strings. *)
Fixpoint substring_of (p s : string) : bool :=
  starts_with p s ||
  match s with
  | EmptyString => false
  | String _ s' => substring_of p s'
  end.

Definition is_str (k : string) (x : json) : bool :=
  match x with
  | JStr s => bool_decide (s = k)
  | _ => false
  end.

(** [k in x] for a string [k]: key of a dict, element of a list,
    substring of a string; the other values are not containers. *)
Definition contains (k : string) (x : json) : outcome bool :=
  match x with
  | JObj d => Ok (bool_decide (is_Some (dict_get k d)))
  | JArr l => Ok (existsb (is_str k) l)
  | JStr s => Ok (substring_of k s)
  | _ => Raise TypeError
  end.

(** [l[start:]]. *)
Definition slice_from {A} (start : Z) (l : list A) : list A :=
  let n := Z.of_nat (length l) in
  let s := if start <? 0 then Z.max 0 (start + n) else Z.min start n in
  drop (Z.to_nat s) l.

Definition is_space (c : ascii) : bool :=
  let n := nat_of_ascii c in
  ((9 <=? n) && (n <=? 13) || (n =? 32))%nat.

Fixpoint lstrip (s : list ascii) : list ascii :=
  match s with
  | c :: r => if is_space c then lstrip r else s
  | [] => []
  end.

Definition strip (s : list ascii) : list ascii :=
  rev (lstrip (rev (lstrip s))).

Definition digit (c : ascii) : option Z :=
  let n := nat_of_ascii c in
  if ((48 <=? n) && (n <=? 57))%nat then Some (Z.of_nat n - 48) else None.

(** Digits of a decimal literal, where single underscores may separate
    digits; [acc] is [None] until a first digit was read, [us] tells
    that the previous character was an underscore. *)
Fixpoint digits (acc : option Z) (us : bool) (s : list ascii) : option Z :=
  match s with
  | [] => if us then None else acc
  | c :: r =>
      match digit c with
      | Some d => digits (Some (10 * default 0 acc + d)) false r
      | None =>
          if bool_decide (c = "_"%char) && bool_decide (is_Some acc) && negb us
          then digits acc true r
          else None
      end
  end.

(** The strings on which [int] is embedded: at most 4300 characters, all of
    them ASCII and none of them one of the separators 0x1c to 0x1f.
    Outside ASCII Python's [int] also reads the decimal digits and the
    white space of every script, the four separators are white space for
    some of its functions, and a literal of more than 4300 digits is
    refused by some versions and read by others. *)
Definition int_covers (s : string) : bool :=
  (Z.of_nat (String.length s) <=? 4300)
  && forallb (fun c => let n := nat_of_ascii c in
                       ((n <? 128) && negb ((28 <=? n) && (n <=? 31)))%nat)
       (list_ascii_of_string s).

(** [int(s)] on such a string: surrounding white space, an optional sign,
    decimal digits; [ValueError] for anything else. *)
Definition int (s : string) : outcome Z :=
  if int_covers s then
    let r :=
      match strip (list_ascii_of_string s) with
      | "-"%char :: r => Z.opp <$> digits None false r
      | "+"%char :: r => digits None false r
      | r => digits None false r
      end in
    match r with
    | Some z => Ok z
    | None => Raise ValueError
    end
  else Raise OutOfModel.

End Py.

(** ** The volume *)

(** The text of a file written by [json.dumps] is represented by the value
    it encodes, which [json.loads] gives back.  [Torn x] is what a write of
    [json.dumps(x)] leaves when it stops early: a proper prefix of the
    text, which does not parse (the service only ever writes dicts, whose
    text ends with its closing brace). *)
Inductive text : Type :=
| Doc (x : json)
| Torn (x : json).

(** A line of [events.jsonl]. *)
Inductive line : Type :=
| Row (entry : json)    (* json.dumps(entry) *)
| Blank                 (* only white space *)
| Partial.              (* anything that does not parse *)

(** [DATA_DIR] holds [stats.json] (and its temporary sibling), the
    directory [sessions] and the log [events.jsonl], kept as its lines. *)
Record volume : Type := Volume {
  data : gmap string text;
  sessions : gmap string text;
  events : option (list line)
}.

Inductive path : Type :=
| InData (name : string)        (* DATA_DIR / name *)
| InSessions (name : string).   (* SESSIONS_DIR / name *)

#[global] Instance path_eq_dec : EqDecision path.
Proof. solve_decision. Defined.

Module Path.

(** Index of the last dot of a name, [name.rfind('.')]. *)
Fixpoint rfind_dot (s : string) : option nat :=
  match s with
  | EmptyString => None
  | String c r =>
      match rfind_dot r with
      | Some i => Some (S i)
      | None => if bool_decide (c = "."%char) then Some 0%nat else None
      end
  end.

(** [PurePath.suffix]: the part from the last dot on, unless that dot is
    the first or the last character of the name. *)
Definition suffix (name : string) : string :=
  match rfind_dot name with
  | Some i =>
      if bool_decide (0 < i ∧ i < String.length name - 1)%nat
      then substring i (String.length name - i) name
      else EmptyString
  | None => EmptyString
  end.

(** [PurePath.with_suffix] on the last component. *)
Definition with_suffix_name (name sfx : string) : string :=
  let old := suffix name in
  if bool_decide (old = EmptyString) then name +:+ sfx
  else substring 0 (String.length name - String.length old) name +:+ sfx.

Definition with_suffix (p : path) (sfx : string) : path :=
  match p with
  | InData n => InData (with_suffix_name n sfx)
  | InSessions n => InSessions (with_suffix_name n sfx)
  end.

Definition ends_with (sfx s : string) : bool :=
  bool_decide (String.length sfx ≤ String.length s)%nat &&
  bool_decide
    (substring (String.length s - String.length sfx) (String.length sfx) s
     = sfx).

(** Whether a name matches the pattern ["*.json"]. *)
Definition glob_json (name : string) : bool := ends_with ".json" name.

End Path.

Module FS.

Definition read (p : path) (v : volume) : option text :=
  match p with
  | InData n => data v !! n
  | InSessions n => sessions v !! n
  end.

(** Make [p] hold [o]: a text, or nothing. *)
Definition store (p : path) (o : option text) (v : volume) : volume :=
  match p with
  | InData n =>
      Volume (partial_alter (fun _ => o) n (data v)) (sessions v) (events v)
  | InSessions n =>
      Volume (data v) (partial_alter (fun _ => o) n (sessions v)) (events v)
  end.

(** The calls that change the volume. *)
Inductive op : Type :=
| WriteText (p : path) (x : json)    (* p.write_text(json.dumps(x, ...)) *)
| Rename (src dst : path)            (* src.rename(dst) *)
| Unlink (p : path)                  (* p.unlink() *)
| AppendLine (entry : json).         (* open(EVENTS_FILE, "a"), one line *)

Definition append_line (l : line) (v : volume) : volume :=
  Volume (data v) (sessions v) (Some (default [] (events v) ++ [l])).

(** A call that completes; [None] when the file it needs is missing. *)
Definition apply (o : op) (v : volume) : option volume :=
  match o with
  | WriteText p x => Some (store p (Some (Doc x)) v)
  | Rename src dst =>
      match read src v with
      | Some t => Some (store dst (Some t) (store src None v))
      | None => None
      end
  | Unlink p =>
      match read p v with
      | Some _ => Some (store p None v)
      | None => None
      end
  | AppendLine e => Some (append_line (Row e) v)
  end.

(** The volume left by a [write_text] that raises: the file could not be
    opened, or it was truncated and holds part of the text. *)
Inductive write_fails (p : path) (x : json) (v : volume) : volume → Prop :=
| fails_on_open : write_fails p x v v
| fails_midway : write_fails p x v (store p (Some (Torn x)) v).

(** The volume found when a sequence of calls is cut short, by the death
    of the process or by an I/O error in a call: before a call, in the
    middle of a write or of an append, or after the last call. *)
Inductive stopped : volume → list op → volume → Prop :=
| stopped_before v ops : stopped v ops v
| stopped_in_write v p x ops v' :
    write_fails p x v v' → stopped v (WriteText p x :: ops) v'
| stopped_in_append v e ops :
    stopped v (AppendLine e :: ops) (append_line Partial v)
| stopped_after v o ops v1 v' :
    apply o v = Some v1 → stopped v1 ops v' → stopped v (o :: ops) v'.

End FS.

(** ** Handlers: state, exceptions and the trace of calls *)

Record result (A : Type) : Type := Result {
  value : outcome A;
  after : volume;
  trace : list FS.op
}.
Arguments Result {A} value after trace.
Arguments value {A} r.
Arguments after {A} r.
Arguments trace {A} r.

Definition M (A : Type) : Type := volume → result A.

#[global] Instance M_ret : MRet M :=
  fun A a v => Result (Ok a) v [].

(** A result, with the calls made before it. *)
Definition preceded {A} (tr : list FS.op) (r : result A) : result A :=
  Result (value r) (after r) (tr ++ trace r).

(** The rest of a computation, once its first part gave [r]. *)
Definition continue {A B} (k : A → M B) (r : result A) : result B :=
  match value r with
  | Ok a => preceded (trace r) (k a (after r))
  | Raise e => Result (Raise e) (after r) (trace r)
  | Exit c => Result (Exit c) (after r) (trace r)
  end.

#[global] Instance M_bind : MBind M :=
  fun A B k m v => continue k (m v).

(** A pure computation that may raise. *)
Definition lift {A} (o : outcome A) : M A :=
  fun v => Result o v [].

Definition syscall (o : FS.op) : M unit :=
  fun v =>
    match FS.apply o v with
    | Some v' => Result (Ok tt) v' [o]
    | None => Result (Raise FileNotFoundError) v []
    end.

(** [p.exists()]. *)
Definition path_exists (p : path) : M bool :=
  fun v => Result (Ok (bool_decide (is_Some (FS.read p v)))) v [].

(** [p.read_text()]. *)
Definition read_text (p : path) : M text :=
  fun v =>
    match FS.read p v with
    | Some t => Result (Ok t) v []
    | None => Result (Raise FileNotFoundError) v []
    end.

Definition json_loads (t : text) : outcome json :=
  match t with
  | Doc x => Ok x
  | Torn _ => Raise JSONDecodeError
  end.

(** [os._exit(code)]. *)
Definition os_exit {A} (code : Z) : M A :=
  fun v => Result (Exit code) v [].

(** ** The service *)

(** What a handler takes from outside the volume: the identity of the
    process, the identifier drawn by [uuid.uuid4], and the readings of the
    clock (the handler's own and the two taken inside [_log_event]). *)
Record env : Type := Env {
  CONTAINER_ID : string;
  uuid4 : string;
  now : string;
  log_ts : Qc;
  log_time : string
}.

Definition response : Type := json * Z.

(** [jsonify(...)], with the status code Flask gives by default. *)
Definition jsonify (x : json) : response := (x, 200).

Definition STATS_FILE : path := InData "stats.json".

Definition _load_stats : M json :=
  present ← path_exists STATS_FILE;
  if (present : bool) then
    t ← read_text STATS_FILE;
    lift (json_loads t)
  else
    mret (JObj [("startup_count", JInt 0); ("crash_count", JInt 0);
                ("total_sessions", JInt 0); ("total_requests", JInt 0)]).

Definition _save_stats (s : json) : M unit :=
  let tmp := Path.with_suffix STATS_FILE ".tmp" in
  syscall (FS.WriteText tmp s);;
  syscall (FS.Rename tmp STATS_FILE).

(** The entry [_log_event] builds: four fields, then the keyword
    arguments. *)
Definition log_entry (e : env) (kind : string) (extra : dict) : json :=
  JObj (Py.dict_update
          [("ts", JFloat (log_ts e)); ("time", JStr (log_time e));
           ("event", JStr kind); ("container", JStr (CONTAINER_ID e))]
          extra).

Definition _log_event (e : env) (kind : string) (extra : dict) : M unit :=
  let entry := log_entry e kind extra in
  syscall (FS.AppendLine entry).

Definition _session_path (sid : string) : path :=
  InSessions (sid +:+ ".json").

Definition _load_session (sid : string) : M json :=
  let p := _session_path sid in
  present ← path_exists p;
  if (present : bool) then
    t ← read_text p;
    lift (json_loads t)
  else
    lift (Raise (NotFound ("Session " +:+ sid +:+ " not found"))).

(** The identifier is formatted into the file name; one that is not a
    string (never stored by the service) is left out of the embedding. *)
Definition _save_session (sess : json) : M unit :=
  id ← lift (Py.getitem sess "id");
  match id with
  | JStr sid =>
      let p := _session_path sid in
      let tmp := Path.with_suffix p ".tmp" in
      syscall (FS.WriteText tmp sess);;
      syscall (FS.Rename tmp p)
  | _ => lift (Raise OutOfModel)
  end.

(** The code run when the module is loaded, once per process.  The two
    [mkdir(exist_ok=True)] before it touch no file. *)
Definition bootstrap (e : env) : M unit :=
  _stats ← _load_stats;
  c ← lift (Py.get _stats "startup_count" (JInt 0));
  c' ← lift (Py.add1 c);
  _stats ← lift (Py.setitem _stats "startup_count" c');
  _save_stats _stats;;
  sc ← lift (Py.getitem _stats "startup_count");
  cc ← lift (Py.getitem _stats "crash_count");
  _log_event e "startup" [("startup_count", sc); ("crash_count", cc)].

(** [request.get_json(silent=True) or {}]. *)
Definition body_or_empty (req : option json) : json :=
  match req with
  | Some x => if Py.truthy x then x else JObj []
  | None => JObj []
  end.

Definition create_session (e : env) (req : option json) : M response :=
  let body := body_or_empty req in
  let sid := uuid4 e in
  let now := now e in
  name ← lift (Py.get body "name" (JStr "unnamed"));
  dat ← lift (Py.get body "data" (JObj []));
  let sess :=
    JObj [("id", JStr sid); ("name", name); ("data", dat);
          ("created_at", JStr now); ("last_active", JStr now);
          ("access_count", JInt 0)] in
  _save_session sess;;
  nm ← lift (Py.getitem sess "name");
  _log_event e "session_created" [("session_id", JStr sid); ("name", nm)];;
  s ← _load_stats;
  c ← lift (Py.get s "total_sessions" (JInt 0));
  c' ← lift (Py.add1 c);
  s ← lift (Py.setitem s "total_sessions" c');
  _save_stats s;;
  mret (sess, 201).

(** A list comprehension whose body may raise. *)
Definition mapM {A B} (f : A → outcome B) : list A → outcome (list B) :=
  fix go l :=
    match l with
    | [] => Ok []
    | a :: r => b ← f a; bs ← go r; Ok (b :: bs)
    end.

(** [sorted(SESSIONS_DIR.glob("*.json"))], as names with their texts. *)
Definition glob_sorted (v : volume) : list (string * text) :=
  merge_sort (fun a b => String.le a.1 b.1)
    (filter (fun nt => Path.glob_json nt.1 = true) (map_to_list (sessions v))).

Definition glob_json_sorted : M (list (string * text)) :=
  fun v => Result (Ok (glob_sorted v)) v [].

Definition list_sessions : M response :=
  files ← glob_json_sorted;
  l ← lift (mapM (fun nt => json_loads nt.2) files);
  mret (jsonify (JObj [("sessions", JArr l);
                       ("count", JInt (Z.of_nat (length l)))])).

Definition get_session (sid : string) : M response :=
  sess ← _load_session sid;
  mret (jsonify sess).

Definition update_session (e : env) (sid : string) (req : option json)
  : M response :=
  sess ← _load_session sid;
  let body := body_or_empty req in
  has_name ← lift (Py.contains "name" body);
  sess ← (if (has_name : bool) then
            x ← lift (Py.getitem body "name");
            lift (Py.setitem sess "name" x)
          else mret sess);
  has_data ← lift (Py.contains "data" body);
  sess ← (if (has_data : bool) then
            x ← lift (Py.getitem body "data");
            lift (Py.setitem sess "data" x)
          else mret sess);
  sess ← lift (Py.setitem sess "last_active" (JStr (now e)));
  c ← lift (Py.get sess "access_count" (JInt 0));
  c' ← lift (Py.add1 c);
  sess ← lift (Py.setitem sess "access_count" c');
  _save_session sess;;
  _log_event e "session_updated" [("session_id", JStr sid)];;
  mret (jsonify sess).

Definition delete_session (e : env) (sid : string) : M response :=
  _load_session sid;;
  syscall (FS.Unlink (_session_path sid));;
  _log_event e "session_deleted" [("session_id", JStr sid)];;
  mret (jsonify (JObj [("status", JStr "deleted"); ("id", JStr sid)])).

Definition line_nonblank (l : line) : bool :=
  match l with
  | Blank => false
  | _ => true
  end.

Definition line_loads (l : line) : outcome json :=
  match l with
  | Row x => Ok x
  | _ => Raise JSONDecodeError
  end.

(** [EVENTS_FILE.exists()] and [EVENTS_FILE.read_text().splitlines()]. *)
Definition events_exist : M bool :=
  fun v => Result (Ok (bool_decide (is_Some (events v)))) v [].

Definition read_lines : M (list line) :=
  fun v =>
    match events v with
    | Some lines => Result (Ok lines) v []
    | None => Result (Raise FileNotFoundError) v []
    end.

(** [limit] is the query argument of that name, when given. *)
Definition list_events (limit : option string) : M response :=
  present ← events_exist;
  if negb present then
    mret (jsonify (JObj [("events", JArr []); ("count", JInt 0)]))
  else
    lines ← read_lines;
    evs ← lift (mapM line_loads (List.filter line_nonblank lines));
    n ← lift (match limit with
              | Some s => Py.int s
              | None => Ok 50
              end);
    mret (jsonify (JObj [("events", JArr (Py.slice_from (- n) evs));
                         ("count", JInt (Z.of_nat (length evs)))])).

Definition crash (e : env) : M response :=
  s ← _load_stats;
  c ← lift (Py.get s "crash_count" (JInt 0));
  c' ← lift (Py.add1 c);
  s ← lift (Py.setitem s "crash_count" c');
  _save_stats s;;
  cc ← lift (Py.getitem s "crash_count");
  _log_event e "crash_triggered" [("crash_count", cc)];;
  os_exit 1.

(** *** The process and the two routes that report *)

(** What the process holds in memory and loses when it stops: the time of
    its start and the count of the requests it has served. *)
Record instance : Type := Inst {
  START_TIME : Qc;
  req_count : Z
}.

(** The hook Flask runs before the handler of every request. *)
Definition _count (i : instance) : instance :=
  Inst (START_TIME i) (req_count i + 1).

(** The integer nearest to [t]; the even one of the two when [t] lies
    halfway between them. *)
Definition round_half_even (t : Q) : Z :=
  let f := Qfloor t in
  match (t - inject_Z f ?= 1 # 2)%Q with
  | Lt => f
  | Eq => if Z.even f then f else f + 1
  | Gt => f + 1
  end.

(** [round(x, 1)] on a float, idealised as a rational like every float
    here: the nearest multiple of one tenth, ties to the even one. *)
Definition round1 (x : Qc) : Qc :=
  Q2Qc (inject_Z (round_half_even (x * 10)%Q) / 10)%Q.

(** [clock] is the reading of [time.time()] taken by the handler. *)
Definition health (e : env) (i : instance) (clock : Qc) : M response :=
  mret (jsonify (JObj [("status", JStr "ok");
                       ("container", JStr (CONTAINER_ID e));
                       ("uptime", JFloat (round1 (clock - START_TIME i)%Qc))])).

(** [list(SESSIONS_DIR.glob("*.json"))]: the matching files, in the order
    the directory gives them. *)
Definition glob_json_files : M (list (string * text)) :=
  fun v =>
    Result
      (Ok (filter (fun nt => Path.glob_json nt.1 = true)
             (map_to_list (sessions v))))
      v [].

Definition state (e : env) (i : instance) (clock : Qc) : M response :=
  s ← _load_stats;
  files ← glob_json_files;
  sc ← lift (Py.getitem s "startup_count");
  cc ← lift (Py.getitem s "crash_count");
  ts ← lift (Py.getitem s "total_sessions");
  tr ← lift (Py.getitem s "total_requests");
  mret (jsonify
          (JObj [("container_id", JStr (CONTAINER_ID e));
                 ("uptime_seconds", JFloat (round1 (clock - START_TIME i)%Qc));
                 ("requests_this_instance", JInt (req_count i));
                 ("startup_count", sc);
                 ("crash_count", cc);
                 ("total_sessions", ts);
                 ("total_requests", tr);
                 ("live_sessions", JInt (Z.of_nat (length files)))])).

(** ** Runs of the service *)

(** The volume before the first start. *)
Definition fresh_volume : volume := Volume ∅ ∅ None.

(** What happens to the volume: a start of the process, or a request. *)
Inductive request : Type :=
| Boot
| Crash
| Create (req : option json)
| ListSessions
| GetSession (sid : string)
| Update (sid : string) (req : option json)
| Delete (sid : string)
| ListEvents (limit : option string).

Definition discard {A} (m : M A) : M unit :=
  fun v =>
    let r := m v in
    Result
      (match value r with
       | Ok _ => Ok tt
       | Raise e => Raise e
       | Exit c => Exit c
       end)
      (after r) (trace r).

Definition serve (e : env) (r : request) : M unit :=
  match r with
  | Boot => bootstrap e
  | Crash => discard (crash e)
  | Create req => discard (create_session e req)
  | ListSessions => discard list_sessions
  | GetSession sid => discard (get_session sid)
  | Update sid req => discard (update_session e sid req)
  | Delete sid => discard (delete_session e sid)
  | ListEvents limit => discard (list_events limit)
  end.

(** A history: each step with what it takes from outside. *)
Definition run (h : list (env * request)) (v : volume) : volume :=
  fold_left (fun v er => after (serve er.1 er.2 v)) h v.

Definition is_boot (er : env * request) : bool :=
  match er.2 with
  | Boot => true
  | _ => false
  end.

Definition is_crash (er : env * request) : bool :=
  match er.2 with
  | Crash => true
  | _ => false
  end.

(** The identifier a file name of [SESSIONS_DIR] stands for, when the name
    matches ["*.json"]: the name without its extension. *)
Definition stem_json (name : string) : option string :=
  if Path.glob_json name
  then Some (substring 0 (String.length name - 5) name)
  else None.

(** The identifiers of the session records on disk. *)
Definition session_ids (v : volume) : gset string :=
  list_to_set (omap (fun nt => stem_json nt.1) (map_to_list (sessions v))).

Definition lines (v : volume) : list line := default [] (events v).

(** The kind of a log line and the session it is about, for a line that
    is an entry with an ["event"] and a ["session_id"]. *)
Definition session_event (l : line) : option (string * string) :=
  match l with
  | Row (JObj d) =>
      match Py.dict_get "event" d, Py.dict_get "session_id" d with
      | Some (JStr kind), Some (JStr sid) => Some (kind, sid)
      | _, _ => None
      end
  | _ => None
  end.

Definition entry_is (kind sid : string) (l : line) : Prop :=
  session_event l = Some (kind, sid).

(** Replaying one line of the log on a set of identifiers. *)
Definition replay_line (s : gset string) (l : line) : gset string :=
  match session_event l with
  | Some (kind, sid) =>
      if decide (kind = "session_created") then {[sid]} ∪ s
      else if decide (kind = "session_deleted") then s ∖ {[sid]}
      else s
  | None => s
  end.

Definition replay_log (log : list line) : gset string :=
  fold_left replay_line log ∅.

(** Every file of [SESSIONS_DIR] that matches ["*.json"] holds a complete
    record, a dict whose ["id"] is the file name without the extension. *)
Definition committed (v : volume) : Prop :=
  ∀ name t, sessions v !! name = Some t → Path.glob_json name = true →
    ∃ sid d, name = sid +:+ ".json" ∧ t = Doc (JObj d)
             ∧ Py.dict_get "id" d = Some (JStr sid).

(** ** Names used in the statements *)

Definition STATS_TMP : path := InData "stats.tmp".

(** The volume once [x] was published at [p] through [tmp]. *)
Definition published (tmp p : path) (x : json) (v : volume) : volume :=
  FS.store p (Some (Doc x)) (FS.store tmp None (FS.store tmp (Some (Doc x)) v)).

Definition session_tmp (sid : string) : path :=
  Path.with_suffix (_session_path sid) ".tmp".

Definition same_directory (p q : path) : Prop :=
  match p, q with
  | InData _, InData _ => True
  | InSessions _, InSessions _ => True
  | _, _ => False
  end.

(** What is asked of a record write [m] of the value [x] at [p], started on
    the volume [v]: it makes two calls, the write of a temporary file next
    to [p] and its renaming to [p]; it returns, and [p] then holds [x];
    wherever the sequence is cut, [p] holds what it held before or [x]
    complete; and when the write of the temporary file raises, [p] holds
    what it held before. *)
Definition atomic_write (m : M unit) (tmp p : path) (x : json) (v : volume)
  : Prop :=
  same_directory tmp p ∧ tmp ≠ p
  ∧ trace (m v) = [FS.WriteText tmp x; FS.Rename tmp p]
  ∧ value (m v) = Ok tt
  ∧ FS.read p (after (m v)) = Some (Doc x)
  ∧ (∀ v', FS.stopped v (trace (m v)) v' →
       FS.read p v' = FS.read p v ∨ FS.read p v' = Some (Doc x))
  ∧ (∀ v', FS.write_fails tmp x v v' → FS.read p v' = FS.read p v).

(** The record [create_session] builds from the body of the request. *)
Definition new_session (e : env) (body : dict) : json :=
  JObj [("id", JStr (uuid4 e));
        ("name", default (JStr "unnamed") (Py.dict_get "name" body));
        ("data", default (JObj []) (Py.dict_get "data" body));
        ("created_at", JStr (now e)); ("last_active", JStr (now e));
        ("access_count", JInt 0)].

(** The counter record as [_load_stats] finds it holds these counts. *)
Definition counters (v : volume) (starts crashes total : Z) : Prop :=
  ∃ d, value (_load_stats v) = Ok (JObj d)
       ∧ Py.dict_get "startup_count" d = Some (JInt starts)
       ∧ Py.dict_get "crash_count" d = Some (JInt crashes)
       ∧ Py.dict_get "total_sessions" d = Some (JInt total).

(** A computation leaves an aspect [f] of the volume as it was. *)
Definition keeps {A X} (f : volume → X) (m : M A) : Prop :=
  ∀ v, f (after (m v)) = f v.

Definition boots (h : list (env * request)) : Z :=
  Z.of_nat (length (List.filter is_boot h)).

Definition crashes (h : list (env * request)) : Z :=
  Z.of_nat (length (List.filter is_crash h)).

(** The record [update_session] saves, computed from the one it loaded:
    the steps of the handler between [_load_session] and [_save_session]. *)
Definition updated_session (e : env) (body sess : json) : outcome json :=
  has_name ← Py.contains "name" body;
  sess ← (if (has_name : bool) then
            x ← Py.getitem body "name";
            Py.setitem sess "name" x
          else Ok sess);
  has_data ← Py.contains "data" body;
  sess ← (if (has_data : bool) then
            x ← Py.getitem body "data";
            Py.setitem sess "data" x
          else Ok sess);
  sess ← Py.setitem sess "last_active" (JStr (now e));
  c ← Py.get sess "access_count" (JInt 0);
  c' ← Py.add1 c;
  Py.setitem sess "access_count" c'.

Definition example_env : env :=
  Env "c0ffee00" "7f3c" "2024-05-01T10:00:00Z" 0 "2024-05-01T10:00:01Z".

Definition example_record : dict :=
  [("id", JStr "7f3c"); ("name", JStr "alpha"); ("data", JObj [("k", JInt 1)]);
   ("created_at", JStr "2024-05-01T10:00:00Z");
   ("last_active", JStr "2024-05-01T10:00:00Z"); ("access_count", JInt 0)].

Definition example_env' : env :=
  Env "c0ffee00" "a1b2" "2024-05-01T11:00:00Z" 0 "2024-05-01T11:00:01Z".

Definition example_stats : dict :=
  [("startup_count", JInt 1); ("crash_count", JInt 0);
   ("total_sessions", JInt 1); ("total_requests", JInt 0)].

(** A volume with one session and its log. *)
Definition example_volume : volume :=
  Volume
    {["stats.json" := Doc (JObj example_stats)]}
    {["7f3c.json" := Doc (JObj example_record)]}
    (Some [Row (log_entry example_env "startup"
                  [("startup_count", JInt 1); ("crash_count", JInt 0)]);
           Row (log_entry example_env "session_created"
                  [("session_id", JStr "7f3c"); ("name", JStr "alpha")])]).

Definition example_history : list (env * request) :=
  [(example_env, Boot);
   (example_env, Create (Some (JObj [("name", JStr "alpha")])));
   (example_env, Crash);
   (example_env, Boot);
   (example_env, Update "7f3c" (Some (JObj [("data", JInt 2)])));
   (example_env, Crash);
   (example_env, Boot)].

(** A volume with three sessions, whose identifiers and whose file names
    do not come in the same order: [a] is before [a-b] and [a-b.json] is
    before [a.json]. *)
Definition listed_volume : volume :=
  Volume ∅
    {["b.json" := Doc (JObj [("id", JStr "b"); ("name", JStr "third")]);
      "a.json" := Doc (JObj [("id", JStr "a"); ("name", JStr "second")]);
      "a-b.json" := Doc (JObj [("id", JStr "a-b"); ("name", JStr "first")])]}
    None.

(** A reading of the clock, in whole seconds. *)
Definition seconds (n : Z) : Qc := Q2Qc (inject_Z n).

(** ** Notions used in the properties *)

Definition updated_entry (e : env) (sid : string) : json :=
  log_entry e "session_updated" [("session_id", JStr sid)].

Definition deleted_entry (e : env) (sid : string) : json :=
  log_entry e "session_deleted" [("session_id", JStr sid)].

Definition created_entry (e : env) (b : dict) : json :=
  log_entry e "session_created"
    [("session_id", JStr (uuid4 e));
     ("name", default (JStr "unnamed") (Py.dict_get "name" b))].

Definition neutral (o : FS.op) : Prop :=
  match o with
  | FS.WriteText (InData _) _ => True
  | FS.Rename (InData _) (InData _) => True
  | FS.AppendLine _ => True
  | _ => False
  end.

(** All the calls of a sequence, completed one after the other. *)
Fixpoint replay (ops : list FS.op) (v : volume) : option volume :=
  match ops with
  | [] => Some v
  | o :: ops => FS.apply o v ≫= replay ops
  end.

(** A computation makes only neutral calls, and its trace accounts for the
    volume it leaves. *)
Definition quiet {A} (m : M A) : Prop :=
  ∀ v, Forall neutral (trace (m v)) ∧ replay (trace (m v)) v = Some (after (m v)).

(** What is left of [create_session] once the record is saved and logged. *)
Definition stats_tail (sess : json) : M response :=
  s ← _load_stats;
  c ← lift (Py.get s "total_sessions" (JInt 0));
  c' ← lift (Py.add1 c);
  s ← lift (Py.setitem s "total_sessions" c');
  _save_stats s;;
  mret (sess, 201).

Definition replayed (v : volume) : gset string := replay_log (lines v).

(** The shapes of the traces of the service, from a volume [v]: neutral
    calls only; a record published through its temporary file, then
    neutral calls; a record unlinked, then neutral calls. *)
Inductive shape (v : volume) : list FS.op → Prop :=
| shape_neutral ops : Forall neutral ops → shape v ops
| shape_save sid d rest :
    Py.dict_get "id" d = Some (JStr sid) → Forall neutral rest →
    shape v (FS.WriteText (session_tmp sid) (JObj d)
             :: FS.Rename (session_tmp sid) (_session_path sid) :: rest)
| shape_unlink sid rest :
    is_Some (sessions v !! (sid +:+ ".json")) → Forall neutral rest →
    shape v (FS.Unlink (_session_path sid) :: rest).

(** The records on disk are complete and are those the log accounts for. *)
Definition consistent (v : volume) : Prop :=
  committed v ∧ session_ids v = replayed v.

(** What a request does to a volume [v] whose records are complete: they
    still are, they still are those of the log if they were, and the trace
    has one of the three shapes and accounts for the volume left. *)
Definition well_served (v : volume) (r : result unit) : Prop :=
  committed (after r)
  ∧ (session_ids v = replayed v → session_ids (after r) = replayed (after r))
  ∧ shape v (trace r)
  ∧ replay (trace r) v = Some (after r).

(** An identifier is in the replayed set when the log has a
    [session_created] entry for it and no [session_deleted] entry for it
    further down. *)
Definition created_not_deleted (log : list line) (sid : string) : Prop :=
  ∃ i l, log !! i = Some l ∧ entry_is "session_created" sid l
         ∧ ∀ j l', (i < j)%nat → log !! j = Some l' →
             ¬ entry_is "session_deleted" sid l'.

(** The listing of a volume [v]: it succeeds with the list [l]. *)
Definition lists (v : volume) (l : list json) : Prop :=
  value (list_sessions v)
  = Ok (jsonify (JObj [("sessions", JArr l);
                       ("count", JInt (Z.of_nat (length l)))])).

(** The log only grows. *)
Definition grows {A} (m : M A) : Prop :=
  ∀ v, ∃ new, lines (after (m v)) = lines v ++ new.

(** The kind of an entry of the log. *)
Definition event_kind (l : line) : option json :=
  match l with
  | Row (JObj d) => Py.dict_get "event" d
  | _ => None
  end.

(** ** Notions used in the further properties *)

(** A computation that only reads: it leaves the volume as it was and
    makes no call that changes it. *)
Definition reads_only {A} (m : M A) : Prop :=
  ∀ v, after (m v) = v ∧ trace (m v) = [].

(** The counter record as [_load_stats] finds it is a dict with these four
    counts. *)
Definition stats_hold (v : volume) (starts crashes total requests : Z)
  : Prop :=
  ∃ d, value (_load_stats v) = Ok (JObj d)
       ∧ Py.dict_get "startup_count" d = Some (JInt starts)
       ∧ Py.dict_get "crash_count" d = Some (JInt crashes)
       ∧ Py.dict_get "total_sessions" d = Some (JInt total)
       ∧ Py.dict_get "total_requests" d = Some (JInt requests).

(** A creation whose body, once [or {}] was applied, is a dict. *)
Definition is_create (er : env * request) : bool :=
  match er.2 with
  | Create req =>
      match body_or_empty req with
      | JObj _ => true
      | _ => false
      end
  | _ => false
  end.

Definition creates (h : list (env * request)) : Z :=
  Z.of_nat (length (List.filter is_create h)).

(** A step that neither creates, updates nor deletes the session [sid]. *)
Definition untouched (sid : string) (er : env * request) : Prop :=
  match er.2 with
  | Create _ => uuid4 er.1 ≠ sid
  | Update s _ => s ≠ sid
  | Delete s => s ≠ sid
  | _ => True
  end.

(** The lines a sequence of calls appends to the log. *)
Definition appended (ops : list FS.op) : list line :=
  omap (fun o => match o with
                 | FS.AppendLine en => Some (Row en)
                 | _ => None
                 end) ops.

(** A computation that appends nothing to the log. *)
Definition silent {A} (m : M A) : Prop :=
  ∀ v, appended (trace (m v)) = [].

(** A line that is an entry of kind [kind] written by the process of
    [e]. *)
Definition entry_of (e : env) (kind : string) (l : line) : Prop :=
  ∃ d, l = Row (JObj d)
       ∧ Py.dict_get "ts" d = Some (JFloat (log_ts e))
       ∧ Py.dict_get "time" d = Some (JStr (log_time e))
       ∧ Py.dict_get "event" d = Some (JStr kind)
       ∧ Py.dict_get "container" d = Some (JStr (CONTAINER_ID e)).

(** A computation that appends at most one line, an entry of kind
    [kind]. *)
Definition logs {A} (e : env) (kind : string) (m : M A) : Prop :=
  ∀ v, appended (trace (m v)) = []
       ∨ ∃ l, appended (trace (m v)) = [l] ∧ entry_of e kind l.

(** The calls of a computation, completed in order, give the volume it
    leaves. *)
Definition accounted {A} (m : M A) : Prop :=
  ∀ v, replay (trace (m v)) v = Some (after (m v)).

(** The kind of the entry a start or a request appends, if it appends
    one. *)
Definition logged_kind (r : request) : option string :=
  match r with
  | Boot => Some "startup"
  | Crash => Some "crash_triggered"
  | Create _ => Some "session_created"
  | Update _ _ => Some "session_updated"
  | Delete _ => Some "session_deleted"
  | ListSessions | GetSession _ | ListEvents _ => None
  end.

(** The file of a session record and what it holds: the pair that
    [glob_sorted] gives for the record [r.2] of the identifier [r.1]. *)
Definition record_file (r : string * json) : string * text :=
  (r.1 +:+ ".json", Doc r.2).

(** The order in which [sorted] puts the files of a directory. *)
Definition name_le (a b : string * text) : Prop := String.le a.1 b.1.

(** The entries of a log: its lines that are not blank, parsed. *)
Definition entries (log : list line) : list json :=
  omap (fun l => match l with
                 | Row x => Some x
                 | _ => None
                 end) log.

(** The session a request is about. *)
Definition subject (e : env) (r : request) : option string :=
  match r with
  | Create _ => Some (uuid4 e)
  | Update sid _ => Some sid
  | Delete sid => Some sid
  | _ => None
  end.

(** A line whose replay adds or removes no other identifier than
    [who]. *)
Definition harmless (who : option string) (l : line) : Prop :=
  ∀ (ids : gset string) s,
    who ≠ Some s → (s ∈ replay_line ids l ↔ s ∈ ids).

(** A call that touches, in the sessions directory, only the file of
    [who] and its temporary sibling, and in the log only what the replay
    takes as being about [who]. *)
Definition about (who : option string) (o : FS.op) : Prop :=
  match o with
  | FS.WriteText (InData _) _ => True
  | FS.WriteText p _ => ∃ sid, who = Some sid ∧ p = session_tmp sid
  | FS.Rename (InData _) (InData _) => True
  | FS.Rename src dst =>
      ∃ sid, who = Some sid ∧ src = session_tmp sid ∧ dst = _session_path sid
  | FS.Unlink p => ∃ sid, who = Some sid ∧ p = _session_path sid
  | FS.AppendLine en => harmless who (Row en)
  end.

(** *** The process along a history *)

(** What reaches the process: a request for one of the two reports, or a
    step that the volume sees. *)
Inductive call : Type :=
| Health
| State
| Step (r : request).

(** The memory of the process when the handler is entered: a start sets
    [START_TIME] to the clock and [req_count] to 0; a request goes through
    [_count]. *)
Definition enter (clock : Qc) (c : call) (i : instance) : instance :=
  match c with
  | Step Boot => Inst clock 0
  | _ => _count i
  end.

Definition dispatch (e : env) (clock : Qc) (i : instance) (c : call)
  : M unit :=
  match c with
  | Health => discard (health e i clock)
  | State => discard (state e i clock)
  | Step r => serve e r
  end.

Record process : Type := Process {
  memory : instance;
  disk : volume
}.

Definition process_step (p : process) (x : env * Qc * call) : process :=
  let i := enter x.1.2 x.2 (memory p) in
  Process i (after (dispatch x.1.1 x.1.2 i x.2 (disk p))).

Definition process_run (h : list (env * Qc * call)) (p : process) : process :=
  fold_left process_step h p.

(** The steps of a history that the volume sees. *)
Definition volume_history (h : list (env * Qc * call)) : list (env * request) :=
  omap (fun x => match x.2 with
                 | Step r => Some (x.1.1, r)
                 | _ => None
                 end) h.

Definition is_start (x : env * Qc * call) : bool :=
  match x.2 with
  | Step Boot => true
  | _ => false
  end.

(** * Properties *)

(** ** The Python operations and the file names on examples *)

Example int_50 : Py.int " 50" = Ok 50.
Proof. reflexivity. Qed.
Example int_neg : Py.int "-3" = Ok (-3).
Proof. reflexivity. Qed.
Example int_us : Py.int "1_0" = Ok 10.
Proof. reflexivity. Qed.
Example int_bad : Py.int "ten" = Raise ValueError.
Proof. reflexivity. Qed.
Example int_sign_alone : Py.int "+" = Raise ValueError.
Proof. reflexivity. Qed.
Example int_arabic_indic_five :
  Py.int (String (ascii_of_nat 217) (String (ascii_of_nat 165) EmptyString))
  = Raise OutOfModel.
Proof. reflexivity. Qed.
Example slice_last2 : Py.slice_from (-2) [1; 2; 3] = [2; 3].
Proof. reflexivity. Qed.
Example with_suffix_stats : Path.with_suffix_name "stats.json" ".tmp" = "stats.tmp".
Proof. reflexivity. Qed.
Example with_suffix_dotted : Path.with_suffix_name "a.b.json" ".tmp" = "a.b.tmp".
Proof. reflexivity. Qed.
Example with_suffix_hidden : Path.with_suffix_name ".json" ".tmp" = ".json.tmp".
Proof. reflexivity. Qed.
Example glob_json_yes : Path.glob_json "ab.json" = true.
Proof. reflexivity. Qed.
Example glob_json_no : Path.glob_json "ab.tmp" = false.
Proof. reflexivity. Qed.

(** ** File names *)

Section names.

Implicit Types a b s sid name : string.

Lemma str_app_nil b : EmptyString +:+ b = b.
Proof. reflexivity. Qed.

Lemma str_app_cons c a b : String c a +:+ b = String c (a +:+ b).
Proof. reflexivity. Qed.

Lemma strlen_app a b :
  String.length (a +:+ b) = (String.length a + String.length b)%nat.
Proof.
  induction a as [|c a IH]; rewrite ?str_app_nil, ?str_app_cons; simpl;
    [done | by rewrite IH].
Qed.

Lemma substring_all b : substring 0 (String.length b) b = b.
Proof. induction b as [|c b IH]; simpl; [done | by rewrite IH]. Qed.

Lemma substring_app_tail a b :
  substring (String.length a) (String.length b) (a +:+ b) = b.
Proof.
  induction a as [|c a IH]; rewrite ?str_app_nil, ?str_app_cons; simpl;
    [apply substring_all | done].
Qed.

Lemma substring_app_head a b :
  substring 0 (String.length a) (a +:+ b) = a.
Proof.
  induction a as [|c a IH]; rewrite ?str_app_nil, ?str_app_cons; simpl.
  - by destruct b.
  - by rewrite IH.
Qed.

Lemma substring_split s n :
  (n ≤ String.length s)%nat →
  s = substring 0 n s +:+ substring n (String.length s - n) s.
Proof.
  revert n. induction s as [|c s IH]; intros [|n] Hn; simpl in *;
    rewrite ?str_app_nil, ?str_app_cons; try done; try lia.
  - by rewrite substring_all.
  - f_equal. apply IH. lia.
Qed.

Lemma app_inv_tail_len a a' b b' :
  a +:+ b = a' +:+ b' → String.length b = String.length b' →
  a = a' ∧ b = b'.
Proof.
  revert a'. induction a as [|c a IH]; intros [|c' a'] Heq Hlen;
    rewrite ?str_app_nil, ?str_app_cons in Heq.
  - done.
  - subst b. simpl in Hlen. rewrite strlen_app in Hlen. lia.
  - subst b'. simpl in Hlen. rewrite strlen_app in Hlen. lia.
  - injection Heq as -> Heq. destruct (IH _ Heq Hlen) as [-> ->]. done.
Qed.

Lemma ends_with_iff sfx s :
  Path.ends_with sfx s = true ↔ ∃ pre, s = pre +:+ sfx.
Proof.
  unfold Path.ends_with. rewrite andb_true_iff, !bool_decide_eq_true. split.
  - intros [Hle Hsub].
    set (k := (String.length s - String.length sfx)%nat) in *.
    exists (substring 0 k s).
    rewrite (substring_split s k) at 1 by lia. f_equal.
    replace (String.length s - k)%nat with (String.length sfx) by lia.
    done.
  - intros [pre ->]. rewrite strlen_app. split; [lia |].
    replace (String.length pre + String.length sfx - String.length sfx)%nat
      with (String.length pre) by lia.
    apply substring_app_tail.
Qed.

Lemma glob_json_iff name :
  Path.glob_json name = true ↔ ∃ sid, name = sid +:+ ".json".
Proof. apply ends_with_iff. Qed.

Lemma glob_json_session sid : Path.glob_json (sid +:+ ".json") = true.
Proof. apply glob_json_iff. by exists sid. Qed.

Lemma app_assoc_char a c b : a +:+ String c b = (a +:+ String c EmptyString) +:+ b.
Proof.
  induction a as [|c' a IH]; rewrite ?str_app_nil, ?str_app_cons;
    [done | by rewrite IH].
Qed.

Lemma glob_json_tmp s : Path.glob_json (s +:+ ".tmp") = false.
Proof.
  apply not_true_is_false. intros [sid Heq]%glob_json_iff.
  rewrite (app_assoc_char sid) in Heq.
  apply app_inv_tail_len in Heq as [_ Heq]; [done | reflexivity].
Qed.

Lemma session_name_inj sid sid' :
  sid +:+ ".json" = sid' +:+ ".json" → sid = sid'.
Proof. intros H. by apply app_inv_tail_len in H as [-> _]. Qed.

Lemma rfind_dot_json sid :
  Path.rfind_dot (sid +:+ ".json") = Some (String.length sid).
Proof.
  induction sid as [|c sid IH]; rewrite ?str_app_nil, ?str_app_cons; simpl;
    [done | by rewrite IH].
Qed.

(** The temporary sibling of a session file. *)
Lemma with_suffix_session sid :
  Path.with_suffix_name (sid +:+ ".json") ".tmp"
  = if decide (sid = EmptyString) then ".json.tmp" else sid +:+ ".tmp".
Proof.
  destruct sid as [|c sid]; [done |]. rewrite decide_False by done.
  set (s := String c sid).
  assert (Hsfx : Path.suffix (s +:+ ".json") = ".json").
  { unfold Path.suffix. rewrite rfind_dot_json, strlen_app.
    rewrite bool_decide_eq_true_2 by (subst s; simpl; lia).
    replace (String.length s + String.length ".json" - String.length s)%nat
      with (String.length ".json") by lia.
    apply substring_app_tail. }
  unfold Path.with_suffix_name. rewrite Hsfx.
  rewrite bool_decide_eq_false_2 by done. rewrite strlen_app.
  replace (String.length s + String.length ".json" - String.length ".json")%nat
    with (String.length s) by lia.
  by rewrite substring_app_head.
Qed.

Lemma glob_json_with_suffix sid :
  Path.glob_json (Path.with_suffix_name (sid +:+ ".json") ".tmp") = false.
Proof.
  rewrite with_suffix_session. case_decide.
  - reflexivity.
  - apply glob_json_tmp.
Qed.

Lemma with_suffix_session_ne sid sid' :
  Path.with_suffix_name (sid +:+ ".json") ".tmp" ≠ sid' +:+ ".json".
Proof.
  intros Heq. pose proof (glob_json_with_suffix sid) as H.
  rewrite Heq, glob_json_session in H. done.
Qed.

Lemma stem_json_session sid : stem_json (sid +:+ ".json") = Some sid.
Proof.
  unfold stem_json. rewrite glob_json_session, strlen_app. f_equal.
  replace (String.length sid + String.length ".json" - 5)%nat
    with (String.length sid) by (simpl; lia).
  apply substring_app_head.
Qed.

Lemma stem_json_Some name sid :
  stem_json name = Some sid ↔ name = sid +:+ ".json".
Proof.
  split; [| intros ->; apply stem_json_session].
  unfold stem_json. destruct (Path.glob_json name) eqn:Hg; [| done].
  apply glob_json_iff in Hg as [sid' ->]. intros H.
  pose proof (stem_json_session sid') as H'. unfold stem_json in H'.
  rewrite glob_json_session in H'. congruence.
Qed.

End names.

(** ** Dicts *)

Lemma dict_get_set_eq k x d : Py.dict_get k (Py.dict_set k x d) = Some x.
Proof.
  induction d as [|[k' x'] d IH]; simpl.
  - by rewrite decide_True.
  - destruct (decide (k' = k)) as [->|Hne]; simpl.
    + by rewrite decide_True.
    + by rewrite decide_False.
Qed.

Lemma dict_get_set_ne k k' x d :
  k ≠ k' → Py.dict_get k' (Py.dict_set k x d) = Py.dict_get k' d.
Proof.
  intros Hne. induction d as [|[k0 x0] d IH]; simpl.
  - by rewrite decide_False.
  - destruct (decide (k0 = k)) as [->|Hne0]; simpl.
    + by rewrite !decide_False.
    + by rewrite IH.
Qed.

(** ** Reads and writes of files *)

Lemma read_store_eq p o v : FS.read p (FS.store p o v) = o.
Proof. destruct p; simpl; apply lookup_partial_alter_eq. Qed.

Lemma read_store_ne p q o v : p ≠ q → FS.read q (FS.store p o v) = FS.read q v.
Proof.
  intros Hne. destruct p as [n|n], q as [m|m]; simpl; try done;
    apply lookup_partial_alter_ne; congruence.
Qed.

Lemma lines_append l v : lines (FS.append_line l v) = lines v ++ [l].
Proof. done. Qed.

Lemma lines_store p o v : lines (FS.store p o v) = lines v.
Proof. by destruct p. Qed.

Lemma with_suffix_ne_session p sid :
  Path.with_suffix (_session_path sid) ".tmp" ≠ _session_path p.
Proof.
  unfold _session_path. simpl. intros [= H].
  by apply with_suffix_session_ne in H.
Qed.

(** ** The monad *)

Lemma bind_run {A B} (m : M A) (k : A → M B) v :
  (m ≫= k) v = continue k (m v).
Proof. reflexivity. Qed.

Lemma bind_ok {A B} (m : M A) (k : A → M B) v a v1 tr :
  m v = Result (Ok a) v1 tr → (m ≫= k) v = preceded tr (k a v1).
Proof. intros H. by rewrite bind_run, H. Qed.

Lemma bind_raise {A B} (m : M A) (k : A → M B) v e v1 tr :
  m v = Result (Raise e) v1 tr → (m ≫= k) v = Result (Raise e) v1 tr.
Proof. intros H. by rewrite bind_run, H. Qed.

Lemma preceded_nil {A} (r : result A) : preceded [] r = r.
Proof. by destruct r. Qed.

Lemma preceded_preceded {A} tr tr' (r : result A) :
  preceded tr (preceded tr' r) = preceded (tr ++ tr') r.
Proof. unfold preceded. cbn [value after trace]. by rewrite app_assoc. Qed.

Lemma bind_lift {A B} (o : outcome A) (k : A → M B) v :
  (lift o ≫= k) v
  = match o with
    | Ok a => k a v
    | Raise e => Result (Raise e) v []
    | Exit c => Result (Exit c) v []
    end.
Proof.
  rewrite bind_run. unfold lift, continue. cbn [value after trace].
  destruct o; [apply preceded_nil | done | done].
Qed.

Lemma bind_lift_ok {A B} (o : outcome A) (k : A → M B) v a :
  o = Ok a → (lift o ≫= k) v = k a v.
Proof. intros ->. by rewrite bind_lift. Qed.

Lemma bind_ret {A B} (a : A) (k : A → M B) v : (mret a ≫= k) v = k a v.
Proof. apply (bind_lift (Ok a)). Qed.

Lemma bind_assoc {A B C} (m : M A) (f : A → M B) (g : B → M C) v :
  ((m ≫= f) ≫= g) v = (m ≫= (fun a => f a ≫= g)) v.
Proof.
  rewrite !bind_run. unfold continue at 2 3.
  destruct (m v) as [[a|e|c] v1 tr]; cbn [value after trace]; try done.
  rewrite bind_run. unfold continue, preceded.
  destruct (f a v1) as [[b|e|c] v2 tr2]; cbn [value after trace]; try done.
  by rewrite app_assoc.
Qed.

Lemma bind_ext {A B} (m : M A) (k k' : A → M B) v :
  (∀ a w, k a w = k' a w) → (m ≫= k) v = (m ≫= k') v.
Proof.
  intros H. rewrite !bind_run. unfold continue.
  destruct (value (m v)); try done. by rewrite H.
Qed.

(** ** The record store and the log, call by call *)

Lemma _load_stats_run v :
  _load_stats v
  = Result (match data v !! "stats.json" with
            | Some t => json_loads t
            | None =>
                Ok (JObj [("startup_count", JInt 0); ("crash_count", JInt 0);
                          ("total_sessions", JInt 0); ("total_requests", JInt 0)])
            end) v [].
Proof.
  unfold _load_stats, mbind, M_bind, continue, preceded, path_exists,
    read_text, lift, mret, M_ret.
  simpl. destruct (data v !! "stats.json") as [t|] eqn:H; simpl;
    rewrite ?H; done.
Qed.

Lemma _save_stats_run s v :
  _save_stats s v
  = Result (Ok tt) (published STATS_TMP STATS_FILE s v)
      [FS.WriteText STATS_TMP s; FS.Rename STATS_TMP STATS_FILE].
Proof.
  unfold _save_stats, mbind, M_bind, continue, preceded, syscall. simpl.
  rewrite lookup_partial_alter_eq. done.
Qed.

Lemma _log_event_run e kind extra v :
  _log_event e kind extra v
  = Result (Ok tt) (FS.append_line (Row (log_entry e kind extra)) v)
      [FS.AppendLine (log_entry e kind extra)].
Proof. done. Qed.

Lemma _load_session_run sid v :
  _load_session sid v
  = Result (match sessions v !! (sid +:+ ".json") with
            | Some t => json_loads t
            | None => Raise (NotFound ("Session " +:+ sid +:+ " not found"))
            end) v [].
Proof.
  unfold _load_session, mbind, M_bind, continue, preceded, path_exists,
    read_text, lift.
  simpl.
  destruct (sessions v !! (sid +:+ ".json")) as [t|] eqn:H; simpl;
    rewrite ?H; done.
Qed.

Lemma _save_session_run d sid v :
  Py.dict_get "id" d = Some (JStr sid) →
  _save_session (JObj d) v
  = Result (Ok tt) (published (session_tmp sid) (_session_path sid) (JObj d) v)
      [FS.WriteText (session_tmp sid) (JObj d);
       FS.Rename (session_tmp sid) (_session_path sid)].
Proof.
  intros Hid.
  unfold _save_session, mbind, M_bind, continue, preceded, lift, syscall.
  simpl.
  rewrite Hid. simpl. rewrite lookup_partial_alter_eq. done.
Qed.

(** ** C1: record writes *)

Lemma published_read tmp p x v :
  FS.read p (published tmp p x v) = Some (Doc x).
Proof. apply read_store_eq. Qed.

Lemma write_fails_read tmp p x v v' :
  tmp ≠ p → FS.write_fails tmp x v v' → FS.read p v' = FS.read p v.
Proof. intros Hne [|]; [done | by apply read_store_ne]. Qed.

Lemma stopped_publish tmp p x v v' :
  tmp ≠ p →
  FS.stopped v [FS.WriteText tmp x; FS.Rename tmp p] v' →
  FS.read p v' = FS.read p v ∨ FS.read p v' = Some (Doc x).
Proof.
  intros Hne Hst. inversion Hst as [| ? ? ? ? ? Hw | | ? ? ? v1 ? Hap Hst1]; subst.
  - by left.
  - left. by eapply write_fails_read.
  - simpl in Hap. injection Hap as <-.
    inversion Hst1 as [| | | ? ? ? v2 ? Hap2 Hst2]; subst.
    + left. by apply read_store_ne.
    + simpl in Hap2. rewrite read_store_eq in Hap2. injection Hap2 as <-.
      inversion Hst2; subst. right. apply read_store_eq.
Qed.

Lemma publish_atomic (m : M unit) tmp p x v :
  same_directory tmp p → tmp ≠ p →
  m v = Result (Ok tt) (published tmp p x v)
          [FS.WriteText tmp x; FS.Rename tmp p] →
  atomic_write m tmp p x v.
Proof.
  intros Hdir Hne Hrun. unfold atomic_write. rewrite Hrun. simpl.
  repeat split; try done.
  - apply published_read.
  - intros v'. by apply stopped_publish.
  - intros v'. by apply write_fails_read.
Qed.

(** C1. Both record writes of the store, [_save_session] for a session
    record and [_save_stats] for the counter record, write the serialized
    value to a temporary file in the directory of the destination and then
    rename it over the destination; they return, and the destination then
    holds the value; at whatever point the two calls are cut short, a read
    of the destination gives its content from before the write or the new
    value, complete; and when the write of the temporary file fails, the
    destination is unchanged. *)
Theorem record_write_atomic (d : dict) (sid : string) (s : json) (v : volume) :
  Py.dict_get "id" d = Some (JStr sid) →
  atomic_write (_save_session (JObj d))
    (session_tmp sid) (_session_path sid) (JObj d) v
  ∧ atomic_write (_save_stats s) STATS_TMP STATS_FILE s v.
Proof.
  intros Hid. split.
  - apply publish_atomic.
    + done.
    + apply with_suffix_ne_session.
    + by apply _save_session_run.
  - apply publish_atomic; [done | done |]. apply _save_stats_run.
Qed.

Lemma record_write_atomic_witness :
  Py.dict_get "id" example_record = Some (JStr "7f3c")
  ∧ atomic_write (_save_session (JObj example_record))
      (session_tmp "7f3c") (_session_path "7f3c") (JObj example_record)
      example_volume
  ∧ atomic_write (_save_stats (JObj [("startup_count", JInt 2)]))
      STATS_TMP STATS_FILE (JObj [("startup_count", JInt 2)]) example_volume.
Proof.
  split; [reflexivity |].
  exact (record_write_atomic example_record "7f3c"
           (JObj [("startup_count", JInt 2)]) example_volume eq_refl).
Defined.

(** ** What a computation leaves untouched *)

Section keeps.

Context {X : Type} (f : volume → X).

Lemma keeps_ret {A} (a : A) : keeps f (mret a).
Proof. done. Qed.

Lemma keeps_lift {A} (o : outcome A) : keeps f (lift o).
Proof. done. Qed.

Lemma keeps_bind {A B} (m : M A) (k : A → M B) :
  keeps f m → (∀ a, keeps f (k a)) → keeps f (m ≫= k).
Proof.
  intros Hm Hk v. unfold mbind, M_bind. specialize (Hm v).
  destruct (m v) as [[a|e|c] v1 tr]; simpl in *; try done.
  by rewrite Hk.
Qed.

Lemma keeps_path_exists p : keeps f (path_exists p).
Proof. done. Qed.

Lemma keeps_read_text p : keeps f (read_text p).
Proof. intros v. unfold read_text. by destruct (FS.read p v). Qed.

Lemma keeps_syscall o :
  (∀ v v', FS.apply o v = Some v' → f v' = f v) → keeps f (syscall o).
Proof.
  intros H v. unfold syscall. destruct (FS.apply o v) eqn:E; simpl; eauto.
Qed.

Lemma keeps_discard {A} (m : M A) : keeps f m → keeps f (discard m).
Proof. intros H v. apply H. Qed.

Lemma keeps_os_exit {A} c : keeps f (@os_exit A c).
Proof. done. Qed.

End keeps.

Lemma keeps_load_stats {X} (f : volume → X) : keeps f _load_stats.
Proof. intros v. by rewrite _load_stats_run. Qed.

Lemma keeps_load_session {X} (f : volume → X) sid : keeps f (_load_session sid).
Proof. intros v. by rewrite _load_session_run. Qed.

(** Steps a tactic can take through a handler. *)
Ltac keeps_step :=
  first
    [ apply keeps_ret | apply keeps_lift | apply keeps_load_stats
    | apply keeps_load_session | apply keeps_path_exists
    | apply keeps_read_text | apply keeps_os_exit
    | apply keeps_bind; [| intros ?] ].

(** *** The counter record *)

Lemma keeps_data_save_session sess : keeps data (_save_session sess).
Proof.
  unfold _save_session. apply keeps_bind; [apply keeps_lift |].
  intros [| | | | sid | |]; try apply keeps_lift.
  apply keeps_bind; [| intros _]; apply keeps_syscall; intros v v'; simpl.
  - by intros [= <-].
  - case_match; [| done]. by intros [= <-].
Qed.

Lemma keeps_data_log_event e kind extra : keeps data (_log_event e kind extra).
Proof. done. Qed.

Lemma keeps_data_update e sid req : keeps data (update_session e sid req).
Proof.
  unfold update_session.
  repeat first
    [ apply keeps_data_save_session | apply keeps_data_log_event
    | keeps_step | match goal with |- context [if ?b then _ else _] => destruct b end ].
Qed.

Lemma keeps_data_delete e sid : keeps data (delete_session e sid).
Proof.
  unfold delete_session.
  repeat first [ apply keeps_data_log_event | keeps_step ].
  apply keeps_syscall. intros v v'. simpl.
  case_match; [| done]. by intros [= <-].
Qed.

Lemma keeps_list_sessions {X} (f : volume → X) : keeps f list_sessions.
Proof.
  unfold list_sessions. repeat keeps_step. done.
Qed.

Lemma keeps_get_session {X} (f : volume → X) sid : keeps f (get_session sid).
Proof. unfold get_session. repeat keeps_step. Qed.

Lemma keeps_list_events {X} (f : volume → X) limit : keeps f (list_events limit).
Proof.
  unfold list_events. apply keeps_bind; [done |]. intros b.
  destruct (negb b); [apply keeps_ret |].
  apply keeps_bind; [| intros ?; repeat keeps_step].
  intros v. unfold read_lines. by destruct (events v).
Qed.

(** ** C2: the counter record *)

Lemma load_stats_eq v o : value (_load_stats v) = o → _load_stats v = Result o v [].
Proof. intros <-. by rewrite _load_stats_run. Qed.

Lemma load_stats_data v v' :
  data v' = data v → value (_load_stats v') = value (_load_stats v).
Proof. intros H. by rewrite !_load_stats_run, H. Qed.

Lemma counters_data v v' n k t :
  data v' = data v → counters v n k t → counters v' n k t.
Proof.
  intros H (d & Hd & ?). exists d. by rewrite (load_stats_data _ _ H).
Qed.

Lemma counters_absent v : data v !! "stats.json" = None → counters v 0 0 0.
Proof.
  intros H. eexists. rewrite _load_stats_run, H. simpl. done.
Qed.

Lemma load_stats_published tmp s v :
  tmp ≠ STATS_FILE →
  value (_load_stats (published tmp STATS_FILE s v)) = Ok s.
Proof.
  intros Hne. rewrite _load_stats_run.
  change (data ?w !! "stats.json") with (FS.read STATS_FILE w).
  by rewrite published_read.
Qed.

(** Rewriting the first step of a computation applied to a volume. *)
Ltac mstep H := erewrite bind_ok by (apply H); cbv beta.
Ltac mlift := erewrite bind_lift_ok by (simpl; reflexivity); cbv beta.

Lemma bootstrap_run e v d n k :
  value (_load_stats v) = Ok (JObj d) →
  Py.dict_get "startup_count" d = Some (JInt n) →
  Py.dict_get "crash_count" d = Some (JInt k) →
  let d' := Py.dict_set "startup_count" (JInt (n + 1)) d in
  let entry :=
    log_entry e "startup"
      [("startup_count", JInt (n + 1)); ("crash_count", JInt k)] in
  bootstrap e v
  = Result (Ok tt)
      (FS.append_line (Row entry) (published STATS_TMP STATS_FILE (JObj d') v))
      [FS.WriteText STATS_TMP (JObj d'); FS.Rename STATS_TMP STATS_FILE;
       FS.AppendLine entry].
Proof.
  intros Hload Hs Hc d' entry. unfold bootstrap.
  mstep (load_stats_eq _ _ Hload).
  simpl Py.get. rewrite Hs. simpl default. mlift. mlift. mlift.
  mstep _save_stats_run.
  simpl Py.getitem. rewrite dict_get_set_eq, dict_get_set_ne, Hc by done.
  mlift. mlift. rewrite _log_event_run. done.
Qed.

Lemma crash_run e v d k :
  value (_load_stats v) = Ok (JObj d) →
  Py.dict_get "crash_count" d = Some (JInt k) →
  let d' := Py.dict_set "crash_count" (JInt (k + 1)) d in
  let entry := log_entry e "crash_triggered" [("crash_count", JInt (k + 1))] in
  crash e v
  = Result (Exit 1)
      (FS.append_line (Row entry) (published STATS_TMP STATS_FILE (JObj d') v))
      [FS.WriteText STATS_TMP (JObj d'); FS.Rename STATS_TMP STATS_FILE;
       FS.AppendLine entry].
Proof.
  intros Hload Hc d' entry. unfold crash.
  mstep (load_stats_eq _ _ Hload).
  simpl Py.get. rewrite Hc. simpl default. mlift. mlift. mlift.
  mstep _save_stats_run.
  simpl Py.getitem. rewrite dict_get_set_eq. mlift.
  mstep _log_event_run. done.
Qed.

Lemma create_session_run e req b v s t :
  body_or_empty req = JObj b →
  value (_load_stats v) = Ok (JObj s) →
  Py.dict_get "total_sessions" s = Some (JInt t) →
  let sid := uuid4 e in
  let sess := new_session e b in
  let entry :=
    log_entry e "session_created"
      [("session_id", JStr sid);
       ("name", default (JStr "unnamed") (Py.dict_get "name" b))] in
  let v2 :=
    FS.append_line (Row entry)
      (published (session_tmp sid) (_session_path sid) sess v) in
  let s' := JObj (Py.dict_set "total_sessions" (JInt (t + 1)) s) in
  create_session e req v
  = Result (Ok (sess, 201)) (published STATS_TMP STATS_FILE s' v2)
      [FS.WriteText (session_tmp sid) sess;
       FS.Rename (session_tmp sid) (_session_path sid);
       FS.AppendLine entry;
       FS.WriteText STATS_TMP s'; FS.Rename STATS_TMP STATS_FILE].
Proof.
  intros Hb Hload Ht sid sess entry v2 s'. unfold create_session.
  rewrite Hb. mlift. mlift.
  erewrite bind_ok by (by apply (_save_session_run _ sid)); cbv beta.
  mlift. mstep _log_event_run.
  assert (Hload2 : value (_load_stats v2) = Ok (JObj s))
    by (by rewrite <- Hload; apply load_stats_data).
  mstep (load_stats_eq _ _ Hload2).
  simpl Py.get. rewrite Ht. simpl default. mlift. mlift. mlift.
  mstep _save_stats_run. done.
Qed.

Lemma create_session_not_dict e req v :
  (∀ b, body_or_empty req ≠ JObj b) →
  create_session e req v = Result (Raise AttributeError) v [].
Proof.
  intros Hb. unfold create_session.
  destruct (body_or_empty req); try done. by destruct (Hb d).
Qed.

Lemma counters_published w d n k t :
  Py.dict_get "startup_count" d = Some (JInt n) →
  Py.dict_get "crash_count" d = Some (JInt k) →
  Py.dict_get "total_sessions" d = Some (JInt t) →
  counters (published STATS_TMP STATS_FILE (JObj d) w) n k t.
Proof. intros Hn Hk Ht. exists d. by rewrite load_stats_published. Qed.

Lemma counters_append l v n k t :
  counters v n k t → counters (FS.append_line l v) n k t.
Proof. by apply counters_data. Qed.

Lemma serve_counters e r v n k t :
  counters v n k t →
  ∃ t', counters (after (serve e r v))
          (n + if is_boot (e, r) then 1 else 0)
          (k + if is_crash (e, r) then 1 else 0) t'.
Proof.
  intros (d & Hload & Hn & Hk & Ht).
  assert (Hc : counters v n k t) by (by exists d).
  destruct r as [| | req | | sid | sid req | sid | limit];
    cbn [serve is_boot is_crash snd]; rewrite ?Z.add_0_r.
  - rewrite (bootstrap_run e v d n k) by done. cbn [after]. exists t.
    apply counters_append, counters_published.
    + apply dict_get_set_eq.
    + by rewrite dict_get_set_ne.
    + by rewrite dict_get_set_ne.
  - unfold discard. rewrite (crash_run e v d k) by done. cbn [after].
    exists t. apply counters_append, counters_published.
    + by rewrite dict_get_set_ne.
    + apply dict_get_set_eq.
    + by rewrite dict_get_set_ne.
  - unfold discard.
    destruct (body_or_empty req) as [| | | | | |b] eqn:Hb;
      try (rewrite create_session_not_dict by (by rewrite Hb);
           by exists t).
    rewrite (create_session_run e req b v d t) by done. cbn [after].
    exists (t + 1). apply counters_published.
    + by rewrite dict_get_set_ne.
    + by rewrite dict_get_set_ne.
    + apply dict_get_set_eq.
  - exists t. eapply counters_data; [| exact Hc]. apply keeps_list_sessions.
  - exists t. eapply counters_data; [| exact Hc]. apply keeps_get_session.
  - exists t. eapply counters_data; [| exact Hc]. apply keeps_data_update.
  - exists t. eapply counters_data; [| exact Hc]. apply keeps_data_delete.
  - exists t. eapply counters_data; [| exact Hc]. apply keeps_list_events.
Qed.

Lemma boots_cons er h : boots (er :: h) = (if is_boot er then 1 else 0) + boots h.
Proof. unfold boots. simpl. destruct (is_boot er); simpl; lia. Qed.

Lemma crashes_cons er h :
  crashes (er :: h) = (if is_crash er then 1 else 0) + crashes h.
Proof. unfold crashes. simpl. destruct (is_crash er); simpl; lia. Qed.

Lemma run_counters h : ∀ v n k t,
  counters v n k t →
  ∃ t', counters (run h v) (n + boots h) (k + crashes h) t'.
Proof.
  induction h as [|[e r] h IH]; intros v n k t Hc.
  - exists t. unfold boots, crashes. simpl. by rewrite !Z.add_0_r.
  - destruct (serve_counters e r v n k t Hc) as [t1 H1].
    destruct (IH _ _ _ _ H1) as [t' H']. exists t'.
    rewrite boots_cons, crashes_cons, !Z.add_assoc. exact H'.
Qed.

(** C2. From a volume without counter record, where [_load_stats] takes
    the four counters as zero, any history leaves a counter record whose
    [startup_count] is the number of process starts of the history and
    whose [crash_count] is the number of its crash requests, in whatever
    order they came.  A crash request served then writes the record with
    [crash_count] one higher (temporary file, then renaming), appends a
    [crash_triggered] entry carrying the new count, and only then leaves
    the process with code 1. *)
Theorem counters_after_history
  (h : list (env * request)) (v : volume) (e : env) :
  data v !! "stats.json" = None →
  value (_load_stats v)
  = Ok (JObj [("startup_count", JInt 0); ("crash_count", JInt 0);
              ("total_sessions", JInt 0); ("total_requests", JInt 0)])
  ∧ ∃ t, counters (run h v) (boots h) (crashes h) t
    ∧ ∃ d',
        Py.dict_get "crash_count" d' = Some (JInt (crashes h + 1))
        ∧ crash e (run h v)
          = Result (Exit 1)
              (FS.append_line
                 (Row (log_entry e "crash_triggered"
                         [("crash_count", JInt (crashes h + 1))]))
                 (published STATS_TMP STATS_FILE (JObj d') (run h v)))
              [FS.WriteText STATS_TMP (JObj d');
               FS.Rename STATS_TMP STATS_FILE;
               FS.AppendLine
                 (log_entry e "crash_triggered"
                    [("crash_count", JInt (crashes h + 1))])]
        ∧ counters (after (crash e (run h v))) (boots h) (crashes h + 1) t.
Proof.
  intros Habs. pose proof (counters_absent v Habs) as H0.
  split; [by rewrite _load_stats_run, Habs |].
  destruct (run_counters h v 0 0 0 H0) as [t Ht]. rewrite !Z.add_0_l in Ht.
  exists t. split; [done |].
  destruct Ht as (d & Hload & Hn & Hk & Htot).
  exists (Py.dict_set "crash_count" (JInt (crashes h + 1)) d).
  split; [apply dict_get_set_eq |].
  rewrite (crash_run e (run h v) d (crashes h)) by done. split; [done |].
  cbn [after]. apply counters_append, counters_published.
  - by rewrite dict_get_set_ne.
  - apply dict_get_set_eq.
  - by rewrite dict_get_set_ne.
Qed.

Lemma counters_after_history_witness :
  data fresh_volume !! "stats.json" = None
  ∧ ∃ t, counters (run example_history fresh_volume) 3 2 t.
Proof.
  split; [reflexivity |].
  destruct (counters_after_history example_history fresh_volume example_env
              eq_refl) as (_ & t & Hc & _).
  exists t. exact Hc.
Defined.

(** ** The handlers of the registry, step by step *)

Lemma obind_ok {A B} (a : A) (f : A → outcome B) : (Ok a ≫= f) = f a.
Proof. reflexivity. Qed.

Lemma obind_raise {A B} e (f : A → outcome B) : (Raise e ≫= f) = Raise e.
Proof. reflexivity. Qed.

Lemma obind_exit {A B} c (f : A → outcome B) : (Exit c ≫= f) = Exit c.
Proof. reflexivity. Qed.

Ltac mnorm :=
  repeat first
    [ rewrite bind_assoc | rewrite bind_lift | rewrite bind_ret
    | rewrite obind_ok | rewrite obind_raise | rewrite obind_exit ];
  cbv beta iota.

Ltac msplit :=
  match goal with
  | |- match ?o with Ok _ => _ | Raise _ => _ | Exit _ => _ end = _ =>
      destruct o as [?|?|?]
  | |- ((if ?b then _ else _) ≫= _) _ = _ => destruct b
  end;
  mnorm; try reflexivity.

Lemma update_session_steps e sid req v :
  update_session e sid req v
  = (sess ← _load_session sid;
     sess' ← lift (updated_session e (body_or_empty req) sess);
     _save_session sess';;
     _log_event e "session_updated" [("session_id", JStr sid)];;
     mret (jsonify sess')) v.
Proof.
  unfold update_session. apply bind_ext. intros sess w.
  unfold updated_session.
  mnorm. repeat msplit.
Qed.

(** The record saved by an update keeps the identifier and the creation
    time of the one loaded. *)
Lemma updated_session_frame e body d s' :
  updated_session e body (JObj d) = Ok s' →
  ∃ d', s' = JObj d'
        ∧ Py.dict_get "id" d' = Py.dict_get "id" d
        ∧ Py.dict_get "created_at" d' = Py.dict_get "created_at" d
        ∧ Py.dict_get "last_active" d' = Some (JStr (now e)).
Proof.
  intros H. unfold updated_session, mbind, outcome_bind in H.
  destruct (Py.contains "name" body) as [[|]| |]; try done;
    [destruct (Py.getitem body "name") as [x| |]; try done;
     cbn [Py.setitem] in H |];
    (destruct (Py.contains "data" body) as [[|]| |]; try done;
     [destruct (Py.getitem body "data") as [y| |]; try done;
      cbn [Py.setitem] in H |]);
    cbn [Py.setitem Py.get] in H;
    (destruct (Py.add1 _) as [c'| |] in H; try done);
    injection H as <-; eexists; split; try reflexivity;
    rewrite ?(dict_get_set_ne "access_count") by done;
    rewrite ?dict_get_set_eq;
    repeat rewrite dict_get_set_ne by done; done.
Qed.

(** An update whose body is a dict. *)
Lemma updated_session_obj e b d :
  let d1 := match Py.dict_get "name" b with
            | Some x => Py.dict_set "name" x d
            | None => d
            end in
  let d2 := match Py.dict_get "data" b with
            | Some x => Py.dict_set "data" x d1
            | None => d1
            end in
  let d3 := Py.dict_set "last_active" (JStr (now e)) d2 in
  updated_session e (JObj b) (JObj d)
  = (c' ← Py.add1 (default (JInt 0) (Py.dict_get "access_count" d3));
     Ok (JObj (Py.dict_set "access_count" c' d3))).
Proof.
  unfold updated_session, mbind, outcome_bind. cbn [Py.contains].
  destruct (Py.dict_get "name" b) as [x|] eqn:Hn;
    destruct (Py.dict_get "data" b) as [y|] eqn:Hd;
    cbn [Py.getitem Py.setitem Py.get bool_decide decide_rel is_Some_dec
         decide];
    rewrite ?Hn, ?Hd; reflexivity.
Qed.

Lemma update_session_run e sid req v sess d' sid' :
  sessions v !! (sid +:+ ".json") = Some (Doc sess) →
  updated_session e (body_or_empty req) sess = Ok (JObj d') →
  Py.dict_get "id" d' = Some (JStr sid') →
  update_session e sid req v
  = Result (Ok (jsonify (JObj d')))
      (FS.append_line (Row (updated_entry e sid))
         (published (session_tmp sid') (_session_path sid') (JObj d') v))
      [FS.WriteText (session_tmp sid') (JObj d');
       FS.Rename (session_tmp sid') (_session_path sid');
       FS.AppendLine (updated_entry e sid)].
Proof.
  intros Hs Hu Hid. rewrite update_session_steps.
  erewrite bind_ok by (rewrite _load_session_run, Hs; reflexivity).
  rewrite preceded_nil, Hu. mlift.
  erewrite bind_ok by (by apply (_save_session_run _ sid')).
  mstep _log_event_run. reflexivity.
Qed.

Lemma update_session_missing e sid req v :
  sessions v !! (sid +:+ ".json") = None →
  update_session e sid req v
  = Result (Raise (NotFound ("Session " +:+ sid +:+ " not found"))) v [].
Proof.
  intros Hs. rewrite update_session_steps.
  erewrite bind_raise by (rewrite _load_session_run, Hs; reflexivity).
  reflexivity.
Qed.

Lemma delete_session_run e sid v x :
  sessions v !! (sid +:+ ".json") = Some (Doc x) →
  delete_session e sid v
  = Result (Ok (jsonify (JObj [("status", JStr "deleted"); ("id", JStr sid)])))
      (FS.append_line (Row (deleted_entry e sid))
         (FS.store (_session_path sid) None v))
      [FS.Unlink (_session_path sid); FS.AppendLine (deleted_entry e sid)].
Proof.
  intros Hs. unfold delete_session.
  erewrite bind_ok by (rewrite _load_session_run, Hs; reflexivity).
  rewrite preceded_nil.
  assert (Hun : syscall (FS.Unlink (_session_path sid)) v
                = Result (Ok tt) (FS.store (_session_path sid) None v)
                    [FS.Unlink (_session_path sid)]).
  { unfold syscall. cbn [FS.apply FS.read _session_path]. by rewrite Hs. }
  mstep Hun. mstep _log_event_run. reflexivity.
Qed.

Lemma delete_session_fails e sid v :
  (∀ x, sessions v !! (sid +:+ ".json") ≠ Some (Doc x)) →
  delete_session e sid v
  = Result (match sessions v !! (sid +:+ ".json") with
            | Some _ => Raise JSONDecodeError
            | None => Raise (NotFound ("Session " +:+ sid +:+ " not found"))
            end) v [].
Proof.
  intros Hs. unfold delete_session. rewrite bind_run, _load_session_run.
  destruct (sessions v !! (sid +:+ ".json")) as [[x|x]|]; try done.
  by destruct (Hs x).
Qed.

(** ** C3, C10: the records on disk and the log *)

Lemma elem_session_ids sid v :
  sid ∈ session_ids v ↔ is_Some (sessions v !! (sid +:+ ".json")).
Proof.
  unfold session_ids. rewrite elem_of_list_to_set, list_elem_of_omap. split.
  - intros ([name t] & Hin & Hst). apply elem_of_map_to_list in Hin.
    apply stem_json_Some in Hst. simpl in Hst. subst name. eauto.
  - intros [t Ht]. exists (sid +:+ ".json", t). split.
    + by apply elem_of_map_to_list.
    + apply stem_json_session.
Qed.

Lemma sessions_published sid x v name :
  sessions (published (session_tmp sid) (_session_path sid) x v) !! name
  = if decide (name = sid +:+ ".json") then Some (Doc x)
    else if decide (name = Path.with_suffix_name (sid +:+ ".json") ".tmp")
         then None
         else sessions v !! name.
Proof.
  change (sessions ?w !! name) with (FS.read (InSessions name) w).
  unfold published. case_decide as H1; [subst; apply read_store_eq |].
  rewrite read_store_ne by (unfold _session_path; congruence).
  case_decide as H2; [subst; apply read_store_eq |].
  rewrite !read_store_ne; [done | |]; unfold session_tmp, _session_path;
    simpl; congruence.
Qed.

Lemma session_ids_published sid x v :
  session_ids (published (session_tmp sid) (_session_path sid) x v)
  = {[sid]} ∪ session_ids v.
Proof.
  apply set_eq. intros s.
  rewrite elem_of_union, elem_of_singleton, !elem_session_ids,
    sessions_published.
  case_decide as H1.
  - apply session_name_inj in H1 as ->. split; eauto.
  - rewrite decide_False by (intros H; symmetry in H;
                            by apply with_suffix_session_ne in H).
    split; [by right | intros [->|]; done].
Qed.

Lemma session_ids_unlink sid v :
  session_ids (FS.store (_session_path sid) None v) = session_ids v ∖ {[sid]}.
Proof.
  apply set_eq. intros s.
  rewrite elem_of_difference, elem_of_singleton, !elem_session_ids.
  change (sessions ?w !! ?n) with (FS.read (InSessions n) w).
  destruct (decide (s = sid)) as [->|Hne].
  - unfold _session_path. rewrite read_store_eq. split.
    + by intros [? ?].
    + by intros [_ ?].
  - rewrite read_store_ne.
    + split; [done | by intros [? _]].
    + unfold _session_path. intros [= H%session_name_inj]. done.
Qed.

Lemma session_ids_sessions v w : sessions w = sessions v → session_ids w = session_ids v.
Proof. unfold session_ids. by intros ->. Qed.

Lemma committed_sessions v w : sessions w = sessions v → committed v → committed w.
Proof. unfold committed. by intros ->. Qed.

Lemma committed_published sid d v :
  Py.dict_get "id" d = Some (JStr sid) →
  committed v →
  committed (published (session_tmp sid) (_session_path sid) (JObj d) v).
Proof.
  intros Hid Hc name t. rewrite sessions_published.
  repeat case_decide; try done.
  - intros [= <-] _. subst. eauto.
  - apply Hc.
Qed.

(** A file that does not match ["*.json"] may hold anything. *)
Lemma committed_store_other name o v :
  Path.glob_json name = false →
  committed v → committed (FS.store (InSessions name) o v).
Proof.
  intros Hg Hc name' t. simpl.
  destruct (decide (name = name')) as [->|Hne].
  - intros _ Hg'. congruence.
  - rewrite lookup_partial_alter_ne by done. apply Hc.
Qed.

Lemma committed_unlink p v : committed v → committed (FS.store p None v).
Proof.
  intros Hc. destruct p as [n|n]; [done |]. intros name t. simpl.
  destruct (decide (n = name)) as [->|Hne].
  - by rewrite lookup_partial_alter_eq.
  - rewrite lookup_partial_alter_ne by done. apply Hc.
Qed.

Lemma committed_fresh : committed fresh_volume.
Proof. intros name t H. simpl in H. by rewrite lookup_empty in H. Qed.

Lemma replay_log_snoc log l :
  replay_log (log ++ [l]) = replay_line (replay_log log) l.
Proof. unfold replay_log. by rewrite fold_left_app. Qed.

Lemma replay_created e b s :
  replay_line s (Row (created_entry e b)) = {[uuid4 e]} ∪ s.
Proof. reflexivity. Qed.

Lemma replay_updated e sid s : replay_line s (Row (updated_entry e sid)) = s.
Proof. reflexivity. Qed.

Lemma replay_deleted e sid s :
  replay_line s (Row (deleted_entry e sid)) = s ∖ {[sid]}.
Proof. reflexivity. Qed.

(** *** Calls that leave the session files alone *)

Lemma replay_app ops ops' v :
  replay (ops ++ ops') v = replay ops v ≫= replay ops'.
Proof.
  revert v. induction ops as [|o ops IH]; intros v; simpl; [done |].
  destruct (FS.apply o v); simpl; [apply IH | done].
Qed.

Lemma replay_stopped ops v v' : replay ops v = Some v' → FS.stopped v ops v'.
Proof.
  revert v. induction ops as [|o ops IH]; intros v; simpl.
  - intros [= <-]. constructor.
  - destruct (FS.apply o v) as [v1|] eqn:E; simpl; [| done].
    intros H. eapply FS.stopped_after; eauto.
Qed.

Lemma neutral_sessions o v v' :
  neutral o → FS.apply o v = Some v' → sessions v' = sessions v.
Proof.
  destruct o as [[n|n] x|[a|a] [b|b]|p|en]; simpl; try done.
  - by intros _ [= <-].
  - intros _. case_match; [| done]. by intros [= <-].
  - by intros _ [= <-].
Qed.

Lemma stopped_neutral ops v v' :
  Forall neutral ops → FS.stopped v ops v' → sessions v' = sessions v.
Proof.
  intros Hn Hst. induction Hst as [| v p x ops v' Hw | | v o ops v1 v' Hap Hst IH].
  - done.
  - apply Forall_cons in Hn as [Hp _]. destruct p; [| done].
    by destruct Hw.
  - done.
  - apply Forall_cons in Hn as [Ho Hn]. rewrite IH by done.
    by eapply neutral_sessions.
Qed.

Section quiet.

Lemma quiet_ret {A} (a : A) : quiet (mret a).
Proof. intros v. split; [constructor | done]. Qed.

Lemma quiet_lift {A} (o : outcome A) : quiet (lift o).
Proof. intros v. split; [constructor | done]. Qed.

Lemma quiet_bind {A B} (m : M A) (k : A → M B) :
  quiet m → (∀ a, quiet (k a)) → quiet (m ≫= k).
Proof.
  intros Hm Hk v. rewrite bind_run. unfold continue.
  destruct (Hm v) as [Hn Hr].
  destruct (m v) as [[a|e|c] v1 tr]; cbn [value after trace preceded] in *;
    try done.
  destruct (Hk a v1) as [Hn' Hr']. split.
  - by apply Forall_app.
  - by rewrite replay_app, Hr.
Qed.

Lemma quiet_syscall o : neutral o → quiet (syscall o).
Proof.
  intros Ho v. unfold syscall. destruct (FS.apply o v) eqn:E; simpl.
  - split; [by repeat constructor | by rewrite E].
  - split; [constructor | done].
Qed.

Lemma quiet_pure {A} (m : M A) :
  (∀ v, after (m v) = v ∧ trace (m v) = []) → quiet m.
Proof. intros H v. destruct (H v) as [-> ->]. split; [constructor | done]. Qed.

End quiet.

Lemma quiet_discard {A} (m : M A) : quiet m → quiet (discard m).
Proof. intros H v. apply H. Qed.

Lemma quiet_load_stats : quiet _load_stats.
Proof. apply quiet_pure. intros v. by rewrite _load_stats_run. Qed.

Lemma quiet_load_session sid : quiet (_load_session sid).
Proof. apply quiet_pure. intros v. by rewrite _load_session_run. Qed.

Lemma quiet_save_stats s : quiet (_save_stats s).
Proof.
  unfold _save_stats. apply quiet_bind; [| intros _]; by apply quiet_syscall.
Qed.

Lemma quiet_log_event e kind extra : quiet (_log_event e kind extra).
Proof. by apply quiet_syscall. Qed.

Ltac quiet_step :=
  first
    [ apply quiet_ret | apply quiet_lift | apply quiet_load_stats
    | apply quiet_load_session | apply quiet_save_stats
    | apply quiet_log_event
    | apply quiet_bind; [| intros ?] ].

Lemma quiet_bootstrap e : quiet (bootstrap e).
Proof. unfold bootstrap. repeat quiet_step. Qed.

Lemma quiet_crash e : quiet (crash e).
Proof. unfold crash. repeat quiet_step. Qed.

Lemma quiet_list_sessions : quiet list_sessions.
Proof.
  unfold list_sessions. repeat quiet_step. by apply quiet_pure.
Qed.

Lemma quiet_get_session sid : quiet (get_session sid).
Proof. unfold get_session. repeat quiet_step. Qed.

Lemma quiet_list_events limit : quiet (list_events limit).
Proof.
  unfold list_events. apply quiet_bind; [by apply quiet_pure |]. intros b.
  destruct (negb b); [apply quiet_ret |].
  apply quiet_bind; [| intros ?; repeat quiet_step].
  apply quiet_pure. intros v. unfold read_lines. by destruct (events v).
Qed.

Lemma create_session_split e req b v :
  body_or_empty req = JObj b →
  let sid := uuid4 e in
  let sess := new_session e b in
  create_session e req v
  = preceded
      [FS.WriteText (session_tmp sid) sess;
       FS.Rename (session_tmp sid) (_session_path sid);
       FS.AppendLine (created_entry e b)]
      (stats_tail sess
         (FS.append_line (Row (created_entry e b))
            (published (session_tmp sid) (_session_path sid) sess v))).
Proof.
  intros Hb sid sess. unfold create_session. rewrite Hb. mlift. mlift.
  erewrite bind_ok by (by apply (_save_session_run _ sid)); cbv beta.
  mlift. mstep _log_event_run. by rewrite preceded_preceded.
Qed.

Lemma quiet_stats_tail sess : quiet (stats_tail sess).
Proof. unfold stats_tail. repeat quiet_step. Qed.

Lemma keeps_save_stats_sessions {X} (f : volume → X) s :
  (∀ n o v, f (FS.store (InData n) o v) = f v) → keeps f (_save_stats s).
Proof.
  intros Hf v. rewrite _save_stats_run. cbn [after].
  unfold published, STATS_FILE, STATS_TMP. by rewrite !Hf.
Qed.

Lemma keeps_lines_stats_tail sess : keeps lines (stats_tail sess).
Proof.
  unfold stats_tail.
  repeat first [ by apply keeps_save_stats_sessions | keeps_step ].
Qed.

Lemma keeps_replayed_log_event e kind extra :
  (∀ s, replay_line s (Row (log_entry e kind extra)) = s) →
  keeps replayed (_log_event e kind extra).
Proof.
  intros H v. rewrite _log_event_run. cbn [after]. unfold replayed.
  by rewrite lines_append, replay_log_snoc.
Qed.

Lemma keeps_replayed_bootstrap e : keeps replayed (bootstrap e).
Proof.
  unfold bootstrap.
  repeat first
    [ by apply keeps_save_stats_sessions
    | by apply keeps_replayed_log_event
    | keeps_step ].
Qed.

Lemma keeps_replayed_crash e : keeps replayed (crash e).
Proof.
  unfold crash.
  repeat first
    [ by apply keeps_save_stats_sessions
    | by apply keeps_replayed_log_event
    | keeps_step ].
Qed.

Lemma well_served_unchanged v (o : outcome unit) :
  committed v → well_served v (Result o v []).
Proof. intros H. repeat split; try done. by constructor. Qed.

Lemma well_served_quiet (m : M unit) v :
  quiet m → keeps replayed m → committed v → well_served v (m v).
Proof.
  intros Hq Hk Hc. destruct (Hq v) as [Hn Hr].
  assert (Hs : sessions (after (m v)) = sessions v)
    by (eapply stopped_neutral; [done | by apply replay_stopped]).
  repeat split; try done.
  - by eapply committed_sessions.
  - intros Hids. rewrite (session_ids_sessions _ _ Hs), Hids. symmetry.
    apply Hk.
  - by constructor.
Qed.

Lemma well_served_discard {A} (m : M A) v :
  quiet m → keeps replayed m → committed v → well_served v (discard m v).
Proof.
  intros Hq Hk. apply well_served_quiet.
  - by apply quiet_discard.
  - by apply keeps_discard.
Qed.

Lemma replay_save tmp p x rest v :
  replay (FS.WriteText tmp x :: FS.Rename tmp p :: rest) v
  = replay rest (published tmp p x v).
Proof. simpl. by rewrite read_store_eq. Qed.

Lemma update_session_stops e sid req v d :
  sessions v !! (sid +:+ ".json") = Some (Doc (JObj d)) →
  (∀ s, updated_session e (body_or_empty req) (JObj d) ≠ Ok s) →
  ∃ o, update_session e sid req v = Result o v [].
Proof.
  intros Hs Hu. rewrite update_session_steps.
  erewrite bind_ok by (rewrite _load_session_run, Hs; reflexivity).
  rewrite preceded_nil, bind_lift.
  destruct (updated_session e (body_or_empty req) (JObj d)) as [s| |];
    [by destruct (Hu s) | eauto | eauto].
Qed.

Lemma discard_Result {A} (m : M A) v o w tr :
  m v = Result o w tr → ∃ o', discard m v = Result o' w tr.
Proof. intros H. unfold discard. rewrite H. eauto. Qed.

Lemma serve_well e r v : committed v → well_served v (serve e r v).
Proof.
  intros Hc.
  destruct r as [| | req | | sid | sid req | sid | limit]; cbn [serve].
  - apply well_served_quiet;
      auto using quiet_bootstrap, keeps_replayed_bootstrap.
  - apply well_served_discard; auto using quiet_crash, keeps_replayed_crash.
  - destruct (body_or_empty req) as [| | | | | |b] eqn:Hb;
      try (destruct (discard_Result _ _ _ _ _
                       (create_session_not_dict e req v
                          ltac:(by rewrite Hb))) as [o ->];
           by apply well_served_unchanged).
    unfold discard. rewrite (create_session_split e req b v Hb).
    set (sess := new_session e b).
    set (v1 := published _ _ sess v).
    set (v2 := FS.append_line _ v1).
    destruct (quiet_stats_tail sess v2) as [Hn Hr].
    assert (Hs : sessions (after (stats_tail sess v2)) = sessions v1)
      by (eapply (stopped_neutral _ v2); [done | by apply replay_stopped]).
    unfold well_served, preceded. cbn [value after trace].
    split; [| split; [| split]].
    + eapply committed_sessions; [exact Hs |].
      by apply committed_published.
    + intros Hids. rewrite (session_ids_sessions _ _ Hs). unfold v1, replayed.
      rewrite session_ids_published, keeps_lines_stats_tail.
      unfold v2, v1. rewrite lines_append, replay_log_snoc, replay_created.
      unfold published. rewrite !lines_store. by rewrite Hids.
    + cbn [app]. apply (shape_save v (uuid4 e)); [done |].
      by constructor.
    + cbn [app]. rewrite replay_save. exact Hr.
  - apply well_served_discard; auto using quiet_list_sessions.
    intros w. apply keeps_list_sessions.
  - apply well_served_discard; auto using quiet_get_session.
    intros w. apply keeps_get_session.
  - destruct (sessions v !! (sid +:+ ".json")) as [t|] eqn:Hs.
    2: { unfold discard. rewrite update_session_missing by done.
         by apply well_served_unchanged. }
    destruct (Hc _ _ Hs (glob_json_session sid))
      as (sid' & d & Hname & -> & Hid).
    apply session_name_inj in Hname as <-.
    destruct (updated_session e (body_or_empty req) (JObj d)) as [s'| |] eqn:Hu.
    2,3: destruct (update_session_stops e sid req v d Hs) as [o Ho];
         [by rewrite Hu |];
         destruct (discard_Result _ _ _ _ _ Ho) as [o' ->];
         by apply well_served_unchanged.
    destruct (updated_session_frame _ _ _ _ Hu) as (d' & -> & Hid' & _).
    rewrite Hid in Hid'. unfold discard.
    rewrite (update_session_run e sid req v (JObj d) d' sid) by done.
    unfold well_served. cbn [value after trace].
    split; [| split; [| split]].
    + eapply committed_sessions; [| by apply (committed_published sid d')].
      done.
    + intros Hids. unfold replayed in Hids |- *.
      rewrite lines_append, replay_log_snoc, replay_updated.
      unfold published at 2. rewrite !lines_store.
      erewrite session_ids_sessions
        by (instantiate (1 := published _ _ _ v); done).
      rewrite session_ids_published, <- Hids.
      assert (sid ∈ session_ids v) by (apply elem_session_ids; eauto).
      apply set_eq. intros s. rewrite elem_of_union, elem_of_singleton.
      split; [intros [->|?]; done | by right].
    + apply shape_save; [done | by repeat constructor].
    + by rewrite replay_save.
  - destruct (sessions v !! (sid +:+ ".json")) as [[x|x]|] eqn:Hs.
    + unfold discard. rewrite (delete_session_run e sid v x Hs).
      unfold well_served. cbn [value after trace].
      split; [| split; [| split]].
      * eapply committed_sessions;
          [| by apply (committed_unlink (_session_path sid))].
        done.
      * intros Hids. unfold replayed in Hids |- *.
        rewrite lines_append, replay_log_snoc, replay_deleted.
        rewrite lines_store.
        erewrite session_ids_sessions
          by (instantiate (1 := FS.store (_session_path sid) None v); done).
        by rewrite session_ids_unlink, Hids.
      * apply shape_unlink; [by rewrite Hs | by repeat constructor].
      * simpl. by rewrite Hs.
    + unfold discard. rewrite delete_session_fails by (rewrite Hs; congruence).
      by apply well_served_unchanged.
    + unfold discard. rewrite delete_session_fails by (rewrite Hs; congruence).
      by apply well_served_unchanged.
  - apply well_served_discard; auto using quiet_list_events.
    intros w. apply keeps_list_events.
Qed.

Lemma consistent_fresh : consistent fresh_volume.
Proof. split; [apply committed_fresh | reflexivity]. Qed.

Lemma run_consistent h : ∀ v, consistent v → consistent (run h v).
Proof.
  induction h as [|[e r] h IH]; intros v [Hc Hids]; [done |].
  apply IH. destruct (serve_well e r v Hc) as (? & ? & _). split; auto.
Qed.

Lemma elem_replay_line s l sid :
  sid ∈ replay_line s l
  ↔ entry_is "session_created" sid l
    ∨ (sid ∈ s ∧ ¬ entry_is "session_deleted" sid l).
Proof.
  unfold replay_line, entry_is.
  destruct (session_event l) as [[kind sid']|]; [| intuition congruence].
  repeat case_decide; subst.
  - rewrite elem_of_union, elem_of_singleton. split.
    + intros [->|Hin]; [by left | right]. split; [done | congruence].
    + intros [[= ->]|[Hin _]]; [by left | by right].
  - rewrite elem_of_difference, elem_of_singleton. split.
    + intros [Hin Hne]. right. split; [done | congruence].
    + intros [[=]|[Hin Hnd]]. split; [done |]. intros ->. by apply Hnd.
  - split.
    + intros Hin. right. split; [done | congruence].
    + intros [[=]|[Hin _]]; [congruence | done].
Qed.

Lemma elem_replay_log log sid :
  sid ∈ replay_log log ↔ created_not_deleted log sid.
Proof.
  induction log as [|l log IH] using rev_ind.
  - split; [by intros ?%not_elem_of_empty |].
    by intros (i & l & Hi & _).
  - rewrite replay_log_snoc, elem_replay_line, IH. split.
    + intros [Hc | [(i & l0 & Hi & Hc & Hlater) Hnd]].
      * exists (length log), l. split; [by apply list_lookup_middle |].
        split; [done |]. intros j l' Hj Hl'.
        apply lookup_lt_Some in Hl'. rewrite length_app in Hl'. simpl in Hl'.
        lia.
      * exists i, l0. split.
        { apply lookup_app_l_Some. done. }
        split; [done |]. intros j l' Hj Hl'.
        apply lookup_app_Some in Hl' as [Hl' | [Hge Hl']]; [by eapply Hlater |].
        apply list_lookup_singleton_Some in Hl' as [_ <-]. done.
    + intros (i & l0 & Hi & Hc & Hlater).
      apply lookup_app_Some in Hi as [Hi | [Hge Hi]].
      * right. split.
        -- exists i, l0. split; [done |]. split; [done |].
           intros j l' Hj Hl'. apply (Hlater j); [done |].
           by apply lookup_app_l_Some.
        -- apply (Hlater (length log)).
           ++ by apply lookup_lt_Some in Hi.
           ++ by apply list_lookup_middle.
      * apply list_lookup_singleton_Some in Hi as [_ <-]. by left.
Qed.

(** C3. Whatever sequence of starts, crashes and requests (creations,
    updates, deletions and reads among them) the service goes through from
    an empty volume, a start or a crash coming between two requests as the
    crash request of the service does, the identifiers of the session
    records on disk are those obtained by replaying the log; and an
    identifier is obtained by the replay exactly when the log has a
    [session_created] entry for it that no [session_deleted] entry for it
    follows. *)
Theorem sessions_match_log (h : list (env * request)) :
  let v := run h fresh_volume in
  session_ids v = replay_log (lines v)
  ∧ (∀ sid, sid ∈ session_ids v
            ↔ is_Some (sessions v !! (sid +:+ ".json")))
  ∧ (∀ sid, sid ∈ session_ids v ↔ created_not_deleted (lines v) sid).
Proof.
  intros v. destruct (run_consistent h fresh_volume consistent_fresh) as [_ H].
  fold v in H. split; [exact H |]. split.
  - intros sid. apply elem_session_ids.
  - intros sid. rewrite H. apply elem_replay_log.
Qed.

(** ** C10: what a listing shows *)

Lemma glob_json_session_tmp sid :
  ∃ n, session_tmp sid = InSessions n ∧ Path.glob_json n = false.
Proof. eexists. split; [reflexivity | apply glob_json_with_suffix]. Qed.

Lemma shape_stopped_committed v ops v' :
  committed v → shape v ops → FS.stopped v ops v' → committed v'.
Proof.
  intros Hc Hsh Hst. destruct Hsh as [ops Hn | sid d rest Hid Hn | sid rest _ Hn].
  - eapply committed_sessions; [| exact Hc]. by eapply stopped_neutral.
  - destruct (glob_json_session_tmp sid) as (n & Htmp & Hg).
    inversion Hst as [| ? ? ? ? ? Hw | | ? ? ? v1 ? Hap Hst1]; subst.
    + done.
    + rewrite Htmp in Hw.
      destruct Hw; [done | by apply committed_store_other].
    + simpl in Hap. injection Hap as <-.
      assert (Hc1 : committed (FS.store (session_tmp sid) (Some (Doc (JObj d))) v))
        by (rewrite Htmp; by apply committed_store_other).
      inversion Hst1 as [| | | ? ? ? v2 ? Hap2 Hst2]; subst; [done |].
      simpl in Hap2. rewrite lookup_partial_alter_eq in Hap2.
      injection Hap2 as <-.
      eapply committed_sessions; [by eapply stopped_neutral |].
      by apply (committed_published sid d).
  - inversion Hst as [| | | ? ? ? v1 ? Hap Hst1]; subst; [done |].
    simpl in Hap. destruct (sessions v !! _); [| done]. injection Hap as <-.
    eapply committed_sessions; [by eapply stopped_neutral |].
    by apply (committed_unlink (_session_path sid)).
Qed.

Lemma mapM_Ok {A B} (f : A → outcome B) (l : list A) :
  (∀ a, a ∈ l → ∃ b, f a = Ok b) →
  ∃ bs, mapM f l = Ok bs ∧ ∀ b, b ∈ bs ↔ ∃ a, a ∈ l ∧ f a = Ok b.
Proof.
  induction l as [|a l IH]; intros Hf.
  - exists []. split; [done |]. intros b. split.
    + by intros ?%not_elem_of_nil.
    + by intros (a & ?%not_elem_of_nil & _).
  - destruct (Hf a) as [b Hb]; [by left |].
    destruct IH as (bs & Hbs & Hin); [intros; apply Hf; by right |].
    exists (b :: bs). split.
    + simpl. fold (mapM f). by rewrite Hb, Hbs.
    + intros b'. rewrite elem_of_cons, Hin. split.
      * intros [->|(a' & Ha' & Hfa')]; [exists a | exists a'];
          rewrite elem_of_cons; auto.
      * intros (a' & [->|Ha']%elem_of_cons & Hfa').
        -- left. congruence.
        -- right. eauto.
Qed.

Lemma elem_glob_sorted name t v :
  (name, t) ∈ glob_sorted v
  ↔ Path.glob_json name = true ∧ sessions v !! name = Some t.
Proof.
  unfold glob_sorted. rewrite merge_sort_Permutation, list_elem_of_filter.
  simpl. by rewrite elem_of_map_to_list.
Qed.

Lemma list_sessions_committed v :
  committed v →
  ∃ l, lists v l
       ∧ ∀ x, x ∈ l ↔ ∃ sid, sessions v !! (sid +:+ ".json") = Some (Doc x).
Proof.
  intros Hc.
  destruct (mapM_Ok (fun nt : string * text => json_loads nt.2) (glob_sorted v))
    as (l & Hl & Hin).
  { intros [name t] [Hg Hs]%elem_glob_sorted.
    destruct (Hc _ _ Hs Hg) as (sid & d & _ & -> & _). by eexists. }
  exists l. split.
  - unfold lists, list_sessions.
    erewrite bind_ok by reflexivity. rewrite preceded_nil, Hl. by mlift.
  - intros x. rewrite Hin. split.
    + intros ([name t] & [Hg Hs]%elem_glob_sorted & Hx).
      destruct (Hc _ _ Hs Hg) as (sid & d & -> & -> & _).
      simpl in Hx. injection Hx as <-. eauto.
    + intros (sid & Hs). exists (sid +:+ ".json", Doc x). split; [| done].
      apply elem_glob_sorted. split; [apply glob_json_session | done].
Qed.

(** C10. In a volume where every file of the sessions directory matching
    ["*.json"] holds a complete record whose ["id"] is the file name without
    its extension, this remains so after any start or request, and also at
    every point where the calls of that start or request can be cut short,
    a write in flight included.  At each such point the listing succeeds and
    shows exactly the records held by the files named after an identifier;
    no file it reads is the temporary file of a record. *)
Theorem records_committed (e : env) (r : request) (v : volume) :
  committed v →
  committed (after (serve e r v))
  ∧ ∀ v', FS.stopped v (trace (serve e r v)) v' →
      committed v'
      ∧ (∃ l, lists v' l
              ∧ ∀ x, x ∈ l
                     ↔ ∃ sid, sessions v' !! (sid +:+ ".json") = Some (Doc x))
      ∧ (∀ name t sid,
           (name, t) ∈ glob_sorted v' → InSessions name ≠ session_tmp sid).
Proof.
  intros Hc. destruct (serve_well e r v Hc) as (Hafter & _ & Hsh & _).
  split; [done |]. intros v' Hst.
  pose proof (shape_stopped_committed _ _ _ Hc Hsh Hst) as Hc'.
  split; [done |]. split; [by apply list_sessions_committed |].
  intros name t sid [Hg _]%elem_glob_sorted Heq.
  destruct (glob_json_session_tmp sid) as (n & Htmp & Hn).
  rewrite Htmp in Heq. injection Heq as ->. congruence.
Qed.

Lemma committed_example : committed example_volume.
Proof.
  intros name t H _. cbn [example_volume sessions] in H.
  apply lookup_singleton_Some in H as [<- <-].
  by exists "7f3c", example_record.
Qed.

Lemma records_committed_witness :
  committed example_volume
  ∧ committed
      (after (serve example_env
                (Update "7f3c" (Some (JObj [("name", JStr "beta")])))
                example_volume)).
Proof.
  split; [exact committed_example |].
  exact (proj1 (records_committed example_env
                  (Update "7f3c" (Some (JObj [("name", JStr "beta")])))
                  example_volume committed_example)).
Defined.

(** ** C4: updates *)

Lemma sessions_after_save sid x l v :
  sessions (FS.append_line l (published (session_tmp sid) (_session_path sid) x v))
    !! (sid +:+ ".json") = Some (Doc x).
Proof.
  change (sessions (FS.append_line l ?w)) with (sessions w).
  rewrite sessions_published. by rewrite decide_True.
Qed.

(** C4. An update of a stored session whose body is a dict returns and
    stores a record in which a field of ["name"] and ["data"] that the body
    supplies has the supplied value and one that it does not supply has the
    stored value (so a body with a name only leaves the payload as it was,
    and a body with a payload only leaves the name as it was);
    ["created_at"] is as stored, ["last_active"] is the instant of the
    update, and ["access_count"] is one more than stored. *)
Theorem update_session_fields
  (e : env) (sid : string) (req : option json) (b d : dict) (n : Z)
  (v : volume) :
  sessions v !! (sid +:+ ".json") = Some (Doc (JObj d)) →
  Py.dict_get "id" d = Some (JStr sid) →
  default (JInt 0) (Py.dict_get "access_count" d) = JInt n →
  body_or_empty req = JObj b →
  ∃ d',
    value (update_session e sid req v) = Ok (jsonify (JObj d'))
    ∧ sessions (after (update_session e sid req v)) !! (sid +:+ ".json")
      = Some (Doc (JObj d'))
    ∧ (∀ x, Py.dict_get "name" b = Some x → Py.dict_get "name" d' = Some x)
    ∧ (Py.dict_get "name" b = None →
       Py.dict_get "name" d' = Py.dict_get "name" d)
    ∧ (∀ x, Py.dict_get "data" b = Some x → Py.dict_get "data" d' = Some x)
    ∧ (Py.dict_get "data" b = None →
       Py.dict_get "data" d' = Py.dict_get "data" d)
    ∧ Py.dict_get "created_at" d' = Py.dict_get "created_at" d
    ∧ Py.dict_get "last_active" d' = Some (JStr (now e))
    ∧ Py.dict_get "access_count" d' = Some (JInt (n + 1)).
Proof.
  intros Hs Hid Hn Hb.
  pose proof (updated_session_obj e b d) as Hu. cbv zeta in Hu.
  rewrite dict_get_set_ne in Hu by done.
  assert (Hcount :
    default (JInt 0)
      (Py.dict_get "access_count"
         match Py.dict_get "data" b with
         | Some x =>
             Py.dict_set "data" x
               match Py.dict_get "name" b with
               | Some x0 => Py.dict_set "name" x0 d
               | None => d
               end
         | None =>
             match Py.dict_get "name" b with
             | Some x0 => Py.dict_set "name" x0 d
             | None => d
             end
         end) = JInt n).
  { destruct (Py.dict_get "data" b), (Py.dict_get "name" b);
      rewrite ?dict_get_set_ne by done; done. }
  rewrite Hcount in Hu. cbn [Py.add1] in Hu. rewrite obind_ok in Hu.
  rewrite <- Hb in Hu.
  eexists. erewrite update_session_run; [| exact Hs | exact Hu |].
  2: { rewrite !dict_get_set_ne by done.
       destruct (Py.dict_get "data" b), (Py.dict_get "name" b);
         rewrite ?dict_get_set_ne by done; exact Hid. }
  cbn [value after]. split; [reflexivity |].
  split; [apply sessions_after_save |].
  repeat split.
  - intros x Hx. rewrite Hx, !dict_get_set_ne by done.
    destruct (Py.dict_get "data" b);
      rewrite ?dict_get_set_ne by done; apply dict_get_set_eq.
  - intros Hx. rewrite Hx, !dict_get_set_ne by done.
    destruct (Py.dict_get "data" b); rewrite ?dict_get_set_ne by done; done.
  - intros x Hx. rewrite Hx, !dict_get_set_ne by done. apply dict_get_set_eq.
  - intros Hx. rewrite Hx, !dict_get_set_ne by done.
    destruct (Py.dict_get "name" b); rewrite ?dict_get_set_ne by done; done.
  - rewrite !dict_get_set_ne by done.
    destruct (Py.dict_get "data" b), (Py.dict_get "name" b);
      rewrite ?dict_get_set_ne by done; done.
  - rewrite dict_get_set_ne by done. apply dict_get_set_eq.
  - apply dict_get_set_eq.
Qed.

Lemma update_session_fields_witness :
  sessions example_volume !! ("7f3c" +:+ ".json")
  = Some (Doc (JObj example_record))
  ∧ Py.dict_get "id" example_record = Some (JStr "7f3c")
  ∧ default (JInt 0) (Py.dict_get "access_count" example_record) = JInt 0
  ∧ body_or_empty (Some (JObj [("name", JStr "beta")]))
    = JObj [("name", JStr "beta")]
  ∧ ∃ d',
      value (update_session example_env "7f3c"
               (Some (JObj [("name", JStr "beta")])) example_volume)
      = Ok (jsonify (JObj d'))
      ∧ Py.dict_get "data" d' = Py.dict_get "data" example_record
      ∧ Py.dict_get "access_count" d' = Some (JInt 1).
Proof.
  repeat (split; [reflexivity |]).
  destruct (update_session_fields example_env "7f3c"
              (Some (JObj [("name", JStr "beta")]))
              [("name", JStr "beta")] example_record 0 example_volume
              eq_refl eq_refl eq_refl eq_refl)
    as (d' & Hv & _ & _ & _ & _ & Hd & _ & _ & Hc).
  exists d'. split; [exact Hv |]. split; [exact (Hd eq_refl) | exact Hc].
Defined.

(** ** C5, C9: creation *)

Lemma created_entry_is e b :
  entry_is "session_created" (uuid4 e) (Row (created_entry e b)).
Proof. reflexivity. Qed.

Lemma updated_entry_is e sid :
  entry_is "session_updated" sid (Row (updated_entry e sid)).
Proof. reflexivity. Qed.

Lemma deleted_entry_is e sid :
  entry_is "session_deleted" sid (Row (deleted_entry e sid)).
Proof. reflexivity. Qed.




(** C9. A creation whose body is a dict without ["name"] stores the name
    ["unnamed"], one without ["data"] stores the empty dict as payload, and
    so does a request without body for both; in a volume whose counter
    record can be read the creation returns the record with status 201 and
    the record is on disk. *)
Theorem create_session_defaults
  (e : env) (req : option json) (b s : dict) (t : Z) (v : volume) :
  body_or_empty req = JObj b →
  value (_load_stats v) = Ok (JObj s) →
  Py.dict_get "total_sessions" s = Some (JInt t) →
  let r := create_session e req v in
  ∃ d,
    value r = Ok (JObj d, 201)
    ∧ sessions (after r) !! (uuid4 e +:+ ".json") = Some (Doc (JObj d))
    ∧ (Py.dict_get "name" b = None →
       Py.dict_get "name" d = Some (JStr "unnamed"))
    ∧ (Py.dict_get "data" b = None → Py.dict_get "data" d = Some (JObj []))
    ∧ (∀ x, Py.dict_get "name" b = Some x → Py.dict_get "name" d = Some x)
    ∧ (∀ x, Py.dict_get "data" b = Some x → Py.dict_get "data" d = Some x)
    ∧ body_or_empty None = JObj [].
Proof.
  intros Hb Hload Ht r.
  exists [("id", JStr (uuid4 e));
          ("name", default (JStr "unnamed") (Py.dict_get "name" b));
          ("data", default (JObj []) (Py.dict_get "data" b));
          ("created_at", JStr (now e)); ("last_active", JStr (now e));
          ("access_count", JInt 0)].
  unfold r. rewrite (create_session_run e req b v s t Hb Hload Ht).
  cbn [value after].
  split; [reflexivity |].
  change (sessions (published STATS_TMP STATS_FILE ?x ?w)) with (sessions w).
  split; [apply sessions_after_save |].
  repeat split.
  - by intros ->.
  - by intros ->.
  - by intros x ->.
  - by intros x ->.
Qed.

Lemma create_session_defaults_witness :
  body_or_empty None = JObj []
  ∧ value (_load_stats fresh_volume)
    = Ok (JObj [("startup_count", JInt 0); ("crash_count", JInt 0);
                ("total_sessions", JInt 0); ("total_requests", JInt 0)])
  ∧ Py.dict_get "total_sessions"
      [("startup_count", JInt 0); ("crash_count", JInt 0);
       ("total_sessions", JInt 0); ("total_requests", JInt 0)]
    = Some (JInt 0)
  ∧ ∃ d, value (create_session example_env None fresh_volume)
         = Ok (JObj d, 201)
         ∧ Py.dict_get "name" d = Some (JStr "unnamed")
         ∧ Py.dict_get "data" d = Some (JObj []).
Proof.
  split; [reflexivity |]. split; [reflexivity |]. split; [reflexivity |].
  destruct (create_session_defaults example_env None []
              [("startup_count", JInt 0); ("crash_count", JInt 0);
               ("total_sessions", JInt 0); ("total_requests", JInt 0)]
              0 fresh_volume eq_refl eq_refl eq_refl)
    as (d & Hv & _ & Hn & Hd & _).
  exists d. split; [exact Hv |]. split; [exact (Hn eq_refl) | exact (Hd eq_refl)].
Defined.

(** ** C6: deletion *)

(** C6. What a deletion does, by what the file of the identifier holds.
    When it holds a record: the deletion returns, the file is removed from
    the sessions directory and nothing else in it or in the data directory
    changes (no tombstone), the two calls are the unlinking and then the
    appending of one [session_deleted] entry for the identifier, and
    [get_session] on the identifier then signals that it is not found.
    When there is no such file: the deletion signals that the session is
    not found, the volume is as it was and no call was made, so nothing
    was removed or logged. *)
Theorem delete_session_spec (e : env) (sid : string) (v : volume) :
  let r := delete_session e sid v in
  let missing := NotFound ("Session " +:+ sid +:+ " not found") in
  match sessions v !! (sid +:+ ".json") with
  | Some (Doc x) =>
      value r
      = Ok (jsonify (JObj [("status", JStr "deleted"); ("id", JStr sid)]))
      ∧ sessions (after r) = delete (sid +:+ ".json") (sessions v)
      ∧ data (after r) = data v
      ∧ trace r
        = [FS.Unlink (_session_path sid); FS.AppendLine (deleted_entry e sid)]
      ∧ lines (after r) = lines v ++ [Row (deleted_entry e sid)]
      ∧ entry_is "session_deleted" sid (Row (deleted_entry e sid))
      ∧ get_session sid (after r) = Result (Raise missing) (after r) []
  | Some (Torn _) => r = Result (Raise JSONDecodeError) v []
  | None => r = Result (Raise missing) v []
  end.
Proof.
  intros r missing. unfold r.
  destruct (sessions v !! (sid +:+ ".json")) as [[x|x]|] eqn:Hs.
  - rewrite (delete_session_run e sid v x Hs). cbn [value after trace].
    repeat split.
    unfold get_session. erewrite bind_raise; [reflexivity |].
    rewrite _load_session_run.
    change (sessions (FS.append_line ?l ?w)) with (sessions w).
    change (sessions ?w !! ?n) with (FS.read (InSessions n) w).
    unfold _session_path. by rewrite read_store_eq.
  - rewrite delete_session_fails by (rewrite Hs; congruence). by rewrite Hs.
  - rewrite delete_session_fails by (rewrite Hs; congruence). by rewrite Hs.
Qed.

(** ** C7: reading the log *)

Lemma list_events_missing limit v :
  events v = None →
  list_events limit v
  = Result (Ok (jsonify (JObj [("events", JArr []); ("count", JInt 0)]))) v [].
Proof.
  intros H. unfold list_events.
  erewrite bind_ok by (unfold events_exist; rewrite H; reflexivity).
  reflexivity.
Qed.

Lemma list_events_run limit v log evs n :
  events v = Some log →
  mapM line_loads (List.filter line_nonblank log) = Ok evs →
  match limit with
  | Some s => Py.int s
  | None => Ok 50
  end = Ok n →
  list_events limit v
  = Result (Ok (jsonify (JObj [("events", JArr (Py.slice_from (- n) evs));
                               ("count", JInt (Z.of_nat (length evs)))])))
      v [].
Proof.
  intros H Hevs Hn. unfold list_events.
  erewrite bind_ok by (unfold events_exist; rewrite H; reflexivity).
  rewrite preceded_nil. cbn [negb bool_decide decide_rel is_Some_dec decide].
  erewrite bind_ok by (unfold read_lines; rewrite H; reflexivity).
  rewrite preceded_nil, Hevs. mlift. rewrite Hn. mlift. reflexivity.
Qed.

(** For a limit of at least 1 the slice is the tail of that length, the
    whole list when it is shorter. *)
Lemma slice_from_recent {A} (n : Z) (l : list A) :
  1 ≤ n → Py.slice_from (- n) l = drop (length l - Z.to_nat n) l.
Proof.
  intros Hn. unfold Py.slice_from.
  destruct (Z.ltb_spec (- n) 0) as [_|]; [| lia]. f_equal. lia.
Qed.

(** For a limit of 0 the slice is the whole list. *)
Lemma slice_from_zero {A} (l : list A) : Py.slice_from (- 0) l = l.
Proof. unfold Py.slice_from. simpl. by rewrite Z.min_l by lia. Qed.

(** With a limit of at least 1, given or by default, the handler returns the
    most recent entries up to that number, and the count of all of them. *)
Lemma list_events_recent limit v log evs n :
  events v = Some log →
  mapM line_loads (List.filter line_nonblank log) = Ok evs →
  match limit with
  | Some s => Py.int s
  | None => Ok 50
  end = Ok n →
  1 ≤ n →
  value (list_events limit v)
  = Ok (jsonify (JObj [("events", JArr (drop (length evs - Z.to_nat n) evs));
                       ("count", JInt (Z.of_nat (length evs)))])).
Proof.
  intros H Hevs Hn Hle. rewrite (list_events_run limit v log evs n) by done.
  cbn [value]. by rewrite slice_from_recent.
Qed.

(** With the limit 0 it returns all of them. *)
Lemma list_events_zero s v log evs :
  events v = Some log →
  mapM line_loads (List.filter line_nonblank log) = Ok evs →
  Py.int s = Ok 0 →
  value (list_events (Some s) v)
  = Ok (jsonify (JObj [("events", JArr evs);
                       ("count", JInt (Z.of_nat (length evs)))])).
Proof.
  intros H Hevs Hn. rewrite (list_events_run (Some s) v log evs 0) by done.
  cbn [value]. by rewrite slice_from_zero.
Qed.

(** C7. The handler is to return the most recent [limit] entries of the
    log, for every limit.  At the limit 0 it does not: on the example
    volume, whose log has two entries, [list_events] with the limit 0
    returns both, where the most recent 0 entries are none.  (Limits of at
    least 1, the default of 50 and a missing file are
    [list_events_recent] and [list_events_missing].) *)
Theorem list_events_limit_zero :
  ∃ e1 e2,
    value (list_events (Some "0") example_volume)
    = Ok (jsonify (JObj [("events", JArr [e1; e2]); ("count", JInt 2)]))
    ∧ lines example_volume = [Row e1; Row e2].
Proof. do 2 eexists. split; reflexivity. Qed.

Example list_events_limit_negative :
  ∃ e1 e2,
    lines example_volume = [Row e1; Row e2]
    ∧ value (list_events (Some "-1") example_volume)
      = Ok (jsonify (JObj [("events", JArr [e2]); ("count", JInt 2)])).
Proof. do 2 eexists. split; reflexivity. Qed.

Example list_events_default_limit :
  ∃ e1 e2,
    lines example_volume = [Row e1; Row e2]
    ∧ value (list_events None example_volume)
      = Ok (jsonify (JObj [("events", JArr [e1; e2]); ("count", JInt 2)])).
Proof. do 2 eexists. split; reflexivity. Qed.

(** ** C8: the record first, then the log *)

Lemma grows_pure {A} (m : M A) : (∀ v, lines (after (m v)) = lines v) → grows m.
Proof. intros H v. exists []. by rewrite H, app_nil_r. Qed.

Lemma grows_bind {A B} (m : M A) (k : A → M B) :
  grows m → (∀ a, grows (k a)) → grows (m ≫= k).
Proof.
  intros Hm Hk v. rewrite bind_run. unfold continue.
  destruct (Hm v) as [n1 H1].
  destruct (m v) as [[a|e|c] v1 tr]; cbn [value after trace preceded] in *;
    eauto.
  destruct (Hk a v1) as [n2 H2]. exists (n1 ++ n2).
  by rewrite H2, H1, app_assoc.
Qed.

Lemma grows_syscall o : grows (syscall o).
Proof.
  intros v. unfold syscall.
  destruct (FS.apply o v) as [v'|] eqn:E; cbn [after].
  - destruct o as [p x|src dst|p|en]; cbn [FS.apply] in E.
    + injection E as <-. exists []. by rewrite lines_store, app_nil_r.
    + destruct (FS.read src v); [| done]. injection E as <-. exists [].
      by rewrite !lines_store, app_nil_r.
    + destruct (FS.read p v); [| done]. injection E as <-. exists [].
      by rewrite lines_store, app_nil_r.
    + injection E as <-. by eexists.
  - exists []. by rewrite app_nil_r.
Qed.

Lemma grows_discard {A} (m : M A) : grows m → grows (discard m).
Proof. intros H v. apply H. Qed.

Lemma grows_save_session sess : grows (_save_session sess).
Proof.
  unfold _save_session. apply grows_bind; [by apply grows_pure |].
  intros [| | | | sid | |]; try (by apply grows_pure).
  apply grows_bind; [| intros _]; apply grows_syscall.
Qed.

Lemma grows_load_stats : grows _load_stats.
Proof. apply grows_pure, keeps_load_stats. Qed.

Lemma grows_load_session sid : grows (_load_session sid).
Proof. apply grows_pure, keeps_load_session. Qed.

Lemma grows_lift {A} (o : outcome A) : grows (lift o).
Proof. by apply grows_pure. Qed.

Lemma grows_ret {A} (a : A) : grows (mret a).
Proof. by apply grows_pure. Qed.

Ltac grows_step :=
  first
    [ apply grows_syscall | apply grows_save_session
    | apply grows_load_stats | apply grows_load_session
    | apply grows_lift | apply grows_ret
    | apply grows_bind; [| intros ?] ].

Lemma serve_grows e r : grows (serve e r).
Proof.
  destruct r as [| | req | | sid | sid req | sid | limit]; cbn [serve];
    try apply grows_discard.
  - unfold bootstrap, _save_stats, _log_event. repeat grows_step.
  - unfold crash, _save_stats, _log_event. repeat grows_step.
  - unfold create_session, _save_stats, _log_event. repeat grows_step.
  - apply grows_pure. apply keeps_list_sessions.
  - apply grows_pure. apply keeps_get_session.
  - intros v. rewrite update_session_steps. revert v.
    change (grows (sess ← _load_session sid;
                   sess' ← lift (updated_session e (body_or_empty req) sess);
                   _save_session sess';;
                   _log_event e "session_updated" [("session_id", JStr sid)];;
                   mret (jsonify sess'))).
    unfold _log_event. repeat grows_step.
  - unfold delete_session, _log_event. repeat grows_step.
  - apply grows_pure. apply keeps_list_events.
Qed.

Lemma run_grows h : ∀ v, ∃ new, lines (run h v) = lines v ++ new.
Proof.
  induction h as [|[e r] h IH]; intros v.
  - exists []. by rewrite app_nil_r.
  - simpl. destruct (serve_grows e r v) as [n1 H1].
    destruct (IH (after (serve e r v))) as [n2 H2].
    exists (n1 ++ n2). by rewrite H2, H1, app_assoc.
Qed.

Lemma bind_value_ok {A B} (m : M A) (k : A → M B) v b :
  value ((m ≫= k) v) = Ok b →
  ∃ a, value (m v) = Ok a ∧ value (k a (after (m v))) = Ok b.
Proof.
  rewrite bind_run. unfold continue.
  destruct (value (m v)) as [a| |]; cbn [value preceded]; [eauto | done..].
Qed.

Lemma save_session_ok sess v :
  value (_save_session sess v) = Ok tt →
  ∃ d sid, sess = JObj d ∧ Py.dict_get "id" d = Some (JStr sid).
Proof.
  unfold _save_session. rewrite bind_lift.
  destruct sess as [| | | | | |d]; cbn [Py.getitem value]; try done.
  destruct (Py.dict_get "id" d) as [[| | | |sid| |]|] eqn:Hid;
    cbn [value lift]; try done.
  eauto.
Qed.

Lemma stats_tail_ok sess v r :
  value (stats_tail sess v) = Ok r →
  ∃ s, trace (stats_tail sess v)
       = [FS.WriteText STATS_TMP s; FS.Rename STATS_TMP STATS_FILE].
Proof.
  unfold stats_tail. intros H.
  destruct (value (_load_stats v)) as [s| |] eqn:Hl.
  2,3: rewrite bind_run, (load_stats_eq _ _ Hl) in H; done.
  rewrite (bind_ok _ _ _ _ _ _ (load_stats_eq _ _ Hl)), preceded_nil in H |- *.
  rewrite bind_lift in H |- *.
  destruct (Py.get s "total_sessions" (JInt 0)) as [c| |]; try done.
  rewrite bind_lift in H |- *. destruct (Py.add1 c) as [c'| |]; try done.
  rewrite bind_lift in H |- *.
  destruct (Py.setitem s "total_sessions" c') as [s'| |]; try done.
  exists s'. by rewrite (bind_ok _ _ _ _ _ _ (_save_stats_run s' v)).
Qed.

Lemma create_session_ok e req v r :
  value (create_session e req v) = Ok r →
  ∃ b s,
    body_or_empty req = JObj b
    ∧ trace (create_session e req v)
      = [FS.WriteText (session_tmp (uuid4 e)) (new_session e b);
         FS.Rename (session_tmp (uuid4 e)) (_session_path (uuid4 e));
         FS.AppendLine (created_entry e b);
         FS.WriteText STATS_TMP s; FS.Rename STATS_TMP STATS_FILE]
    ∧ lines (after (create_session e req v))
      = lines v ++ [Row (created_entry e b)].
Proof.
  intros H.
  destruct (body_or_empty req) as [| | | | | |b] eqn:Hb;
    try (rewrite create_session_not_dict in H by (by rewrite Hb); done).
  rewrite (create_session_split e req b v Hb) in H |- *.
  unfold preceded in H |- *. cbn [value after trace] in H |- *.
  destruct (stats_tail_ok _ _ _ H) as [s Hs]. exists b, s.
  split; [done |]. split; [by rewrite Hs |].
  by rewrite keeps_lines_stats_tail.
Qed.

Lemma update_session_ok e sid req v r :
  value (update_session e sid req v) = Ok r →
  ∃ d sid',
    Py.dict_get "id" d = Some (JStr sid')
    ∧ trace (update_session e sid req v)
      = [FS.WriteText (session_tmp sid') (JObj d);
         FS.Rename (session_tmp sid') (_session_path sid');
         FS.AppendLine (updated_entry e sid)]
    ∧ lines (after (update_session e sid req v))
      = lines v ++ [Row (updated_entry e sid)].
Proof.
  intros H. pose proof H as H0. rewrite update_session_steps in H0.
  apply bind_value_ok in H0 as (sess & Hload & H0).
  rewrite _load_session_run in Hload, H0. cbn [value after] in Hload, H0.
  destruct (sessions v !! (sid +:+ ".json")) as [[x|x]|] eqn:Hs; try done.
  injection Hload as ->.
  apply bind_value_ok in H0 as (s' & Hu & H0). cbn [lift value after] in Hu, H0.
  apply bind_value_ok in H0 as ([] & Hsave & _).
  apply save_session_ok in Hsave as (d & sid' & -> & Hid).
  exists d, sid'. split; [done |].
  rewrite (update_session_run e sid req v sess d sid') by done.
  split; [done |]. cbn [after]. rewrite lines_append.
  unfold published. by rewrite !lines_store.
Qed.

Lemma delete_session_ok e sid v r :
  value (delete_session e sid v) = Ok r →
  trace (delete_session e sid v)
  = [FS.Unlink (_session_path sid); FS.AppendLine (deleted_entry e sid)]
  ∧ lines (after (delete_session e sid v))
    = lines v ++ [Row (deleted_entry e sid)].
Proof.
  intros H.
  destruct (sessions v !! (sid +:+ ".json")) as [[x|x]|] eqn:Hs.
  - by rewrite (delete_session_run e sid v x Hs).
  - rewrite delete_session_fails in H by (rewrite Hs; congruence).
    by rewrite Hs in H.
  - rewrite delete_session_fails in H by (rewrite Hs; congruence).
    by rewrite Hs in H.
Qed.

(** C8. A creation, an update and a deletion that return have made their
    calls in this order: the change of the session file first (the record
    written to its temporary file and renamed, or the file unlinked), then
    the appending of one log entry of the matching kind for the
    identifier, and no other appending (a creation ends with the write of
    the counter record).  So when an identifier is created, later updated
    and later deleted, whatever else the service does before, between and
    after, the log has a [session_created], a [session_updated] and a
    [session_deleted] entry for the identifier, in that order. *)
Theorem registry_writes_then_logs :
  (∀ e req v r, value (create_session e req v) = Ok r →
     ∃ b s,
       trace (create_session e req v)
       = [FS.WriteText (session_tmp (uuid4 e)) (new_session e b);
          FS.Rename (session_tmp (uuid4 e)) (_session_path (uuid4 e));
          FS.AppendLine (created_entry e b);
          FS.WriteText STATS_TMP s; FS.Rename STATS_TMP STATS_FILE]
       ∧ entry_is "session_created" (uuid4 e) (Row (created_entry e b)))
  ∧ (∀ e sid req v r, value (update_session e sid req v) = Ok r →
       ∃ d sid',
         trace (update_session e sid req v)
         = [FS.WriteText (session_tmp sid') (JObj d);
            FS.Rename (session_tmp sid') (_session_path sid');
            FS.AppendLine (updated_entry e sid)]
         ∧ entry_is "session_updated" sid (Row (updated_entry e sid)))
  ∧ (∀ e sid v r, value (delete_session e sid v) = Ok r →
       trace (delete_session e sid v)
       = [FS.Unlink (_session_path sid); FS.AppendLine (deleted_entry e sid)]
       ∧ entry_is "session_deleted" sid (Row (deleted_entry e sid)))
  ∧ (∀ e1 e2 e3 req1 req2 h0 h1 h2 h3 v r1 r2 r3,
       let sid := uuid4 e1 in
       let c := create_session e1 req1 (run h0 v) in
       let u := update_session e2 sid req2 (run h1 (after c)) in
       let d := delete_session e3 sid (run h2 (after u)) in
       value c = Ok r1 → value u = Ok r2 → value d = Ok r3 →
       ∃ i j k l1 l2 l3,
         (i < j < k)%nat
         ∧ lines (run h3 (after d)) !! i = Some l1
         ∧ entry_is "session_created" sid l1
         ∧ lines (run h3 (after d)) !! j = Some l2
         ∧ entry_is "session_updated" sid l2
         ∧ lines (run h3 (after d)) !! k = Some l3
         ∧ entry_is "session_deleted" sid l3).
Proof.
  split; [| split; [| split]].
  - intros e req v r H.
    destruct (create_session_ok e req v r H) as (b & s & _ & Htr & _).
    exists b, s. split; [done | apply created_entry_is].
  - intros e sid req v r H.
    destruct (update_session_ok e sid req v r H) as (d & sid' & _ & Htr & _).
    exists d, sid'. split; [done | apply updated_entry_is].
  - intros e sid v r H.
    destruct (delete_session_ok e sid v r H) as [Htr _].
    split; [done | apply deleted_entry_is].
  - intros e1 e2 e3 req1 req2 h0 h1 h2 h3 v r1 r2 r3 sid c u d Hc Hu Hd.
    destruct (create_session_ok _ _ _ _ Hc) as (b & s & _ & _ & Lc).
    destruct (update_session_ok _ _ _ _ _ Hu) as (d' & sid' & _ & _ & Lu).
    destruct (delete_session_ok _ _ _ _ Hd) as [_ Ld].
    fold c in Lc. fold u in Lu. fold d in Ld.
    destruct (run_grows h1 (after c)) as [n1 L1].
    destruct (run_grows h2 (after u)) as [n2 L2].
    destruct (run_grows h3 (after d)) as [n3 L3].
    set (l0 := lines (run h0 v)) in *.
    assert (HL : lines (run h3 (after d))
                 = l0 ++ Row (created_entry e1 b)
                      :: (n1 ++ Row (updated_entry e2 sid)
                            :: (n2 ++ Row (deleted_entry e3 sid) :: n3))).
    { rewrite L3, Ld, L2, Lu, L1, Lc. rewrite <- !app_assoc. done. }
    exists (length l0), (length l0 + S (length n1))%nat,
           (length l0 + S (length n1 + S (length n2)))%nat.
    exists (Row (created_entry e1 b)), (Row (updated_entry e2 sid)),
           (Row (deleted_entry e3 sid)).
    rewrite HL. split; [lia |].
    split; [by apply list_lookup_middle |]. split; [apply created_entry_is |].
    split.
    { rewrite lookup_app_r by lia.
      replace (length l0 + S (length n1) - length l0)%nat
        with (S (length n1)) by lia.
      simpl. by apply list_lookup_middle. }
    split; [apply updated_entry_is |]. split; [| apply deleted_entry_is].
    rewrite lookup_app_r by lia.
    replace (length l0 + S (length n1 + S (length n2)) - length l0)%nat
      with (S (length n1 + S (length n2))) by lia.
    simpl. rewrite lookup_app_r by lia.
    replace (length n1 + S (length n2) - length n1)%nat
      with (S (length n2)) by lia.
    simpl. by apply list_lookup_middle.
Qed.

Lemma registry_writes_then_logs_witness :
  let sid := uuid4 example_env' in
  let c := create_session example_env' None (run [] example_volume) in
  let u := update_session example_env sid
             (Some (JObj [("data", JInt 2)])) (run [] (after c)) in
  let d := delete_session example_env sid (run [] (after u)) in
  ∃ r1 r2 r3,
    value c = Ok r1 ∧ value u = Ok r2 ∧ value d = Ok r3
    ∧ ∃ i j k l1 l2 l3,
        (i < j < k)%nat
        ∧ lines (run [] (after d)) !! i = Some l1
        ∧ entry_is "session_created" sid l1
        ∧ lines (run [] (after d)) !! j = Some l2
        ∧ entry_is "session_updated" sid l2
        ∧ lines (run [] (after d)) !! k = Some l3
        ∧ entry_is "session_deleted" sid l3.
Proof.
  intros sid c u d.
  assert (H1 : ∃ r, value c = Ok r) by (eexists; vm_compute; reflexivity).
  assert (H2 : ∃ r, value u = Ok r) by (eexists; vm_compute; reflexivity).
  assert (H3 : ∃ r, value d = Ok r) by (eexists; vm_compute; reflexivity).
  destruct H1 as [r1 H1], H2 as [r2 H2], H3 as [r3 H3].
  exists r1, r2, r3. split; [exact H1 |]. split; [exact H2 |].
  split; [exact H3 |].
  exact (proj2 (proj2 (proj2 registry_writes_then_logs))
           example_env' example_env example_env None
           (Some (JObj [("data", JInt 2)])) [] [] [] [] example_volume
           r1 r2 r3 H1 H2 H3).
Defined.

(** ** A session from creation to deletion

    A session named alpha is created with a payload, its payload is
    replaced, and it is deleted: the access count goes from 0 to 1, the
    name stays, the listing ends empty and the log tells the story. *)
Example alpha_lifecycle :
  let v0 := after (bootstrap example_env fresh_volume) in
  let c :=
    create_session example_env
      (Some (JObj [("name", JStr "alpha"); ("data", JObj [("k", JInt 1)])]))
      v0 in
  let u :=
    update_session example_env "7f3c"
      (Some (JObj [("data", JObj [("k", JInt 2)])])) (after c) in
  let d := delete_session example_env "7f3c" (after u) in
  value c = Ok (JObj example_record, 201)
  ∧ value u
    = Ok (jsonify
            (JObj [("id", JStr "7f3c"); ("name", JStr "alpha");
                   ("data", JObj [("k", JInt 2)]);
                   ("created_at", JStr "2024-05-01T10:00:00Z");
                   ("last_active", JStr "2024-05-01T10:00:00Z");
                   ("access_count", JInt 1)]))
  ∧ value (list_sessions (after d))
    = Ok (jsonify (JObj [("sessions", JArr []); ("count", JInt 0)]))
  ∧ event_kind <$> lines (after d)
    = [Some (JStr "startup"); Some (JStr "session_created");
       Some (JStr "session_updated"); Some (JStr "session_deleted")].
Proof. vm_compute. repeat split. Qed.

(** * Further properties *)

(** ** The record store: what was saved is what is loaded *)

Lemma read_published_other tmp p x v q :
  q ≠ p → q ≠ tmp → FS.read q (published tmp p x v) = FS.read q v.
Proof. intros Hp Htmp. unfold published. by rewrite !read_store_ne. Qed.

Lemma read_published_tmp tmp p x v :
  tmp ≠ p → FS.read tmp (published tmp p x v) = None.
Proof.
  intros Hne. unfold published. rewrite read_store_ne by done.
  apply read_store_eq.
Qed.

Lemma events_published tmp p x v : events (published tmp p x v) = events v.
Proof. by destruct tmp, p. Qed.

(** X1. A record saved is the record loaded, and the save touches nothing
    else: after [_save_session] of a record whose ["id"] is [sid],
    [_load_session sid] returns that record; after [_save_stats] of any
    value, [_load_stats] returns that value; in both cases the temporary
    file is gone, every other file reads as before and the log is as it
    was. *)
Theorem saved_then_loaded (d : dict) (sid : string) (s : json) (v : volume) :
  Py.dict_get "id" d = Some (JStr sid) →
  let v1 := after (_save_session (JObj d) v) in
  let v2 := after (_save_stats s v) in
  (_load_session sid v1 = Result (Ok (JObj d)) v1 []
   ∧ FS.read (session_tmp sid) v1 = None
   ∧ (∀ p, p ≠ _session_path sid → p ≠ session_tmp sid →
        FS.read p v1 = FS.read p v)
   ∧ events v1 = events v)
  ∧ (_load_stats v2 = Result (Ok s) v2 []
     ∧ FS.read STATS_TMP v2 = None
     ∧ (∀ p, p ≠ STATS_FILE → p ≠ STATS_TMP → FS.read p v2 = FS.read p v)
     ∧ events v2 = events v).
Proof.
  intros Hid v1 v2. unfold v1, v2.
  rewrite (_save_session_run d sid v Hid), _save_stats_run. cbn [after].
  split; (split; [| split; [| split]]).
  - rewrite _load_session_run.
    change (sessions ?w !! (sid +:+ ".json"))
      with (FS.read (_session_path sid) w).
    by rewrite published_read.
  - apply read_published_tmp, with_suffix_ne_session.
  - intros p Hp Htmp. by apply read_published_other.
  - apply events_published.
  - apply load_stats_eq. by apply load_stats_published.
  - by apply read_published_tmp.
  - intros p Hp Htmp. by apply read_published_other.
  - apply events_published.
Qed.

Lemma saved_then_loaded_witness :
  Py.dict_get "id" example_record = Some (JStr "7f3c")
  ∧ value (_load_session "7f3c"
             (after (_save_session (JObj example_record) fresh_volume)))
    = Ok (JObj example_record)
  ∧ value (_load_stats (after (_save_stats (JObj example_stats) fresh_volume)))
    = Ok (JObj example_stats).
Proof.
  split; [reflexivity |].
  destruct (saved_then_loaded example_record "7f3c" (JObj example_stats)
              fresh_volume eq_refl) as [(H1 & _) (H2 & _)].
  split.
  - exact (f_equal value H1).
  - exact (f_equal value H2).
Defined.

(** ** Updates: all or nothing *)

Lemma add1_cases c : (∃ c', Py.add1 c = Ok c') ∨ Py.add1 c = Raise TypeError.
Proof. destruct c; simpl; eauto. Qed.

(** The steps of an update between the loading and the saving can only
    fail with a [TypeError]: the body is no container, or the stored
    count is no number. *)
Lemma updated_session_fails e body d :
  (∃ s', updated_session e body (JObj d) = Ok s')
  ∨ updated_session e body (JObj d) = Raise TypeError.
Proof.
  destruct body as [| b | z | q | s | l | b]; try (by right).
  - unfold updated_session, mbind, outcome_bind. cbn [Py.contains].
    destruct (Py.substring_of "name" s); cbn [Py.getitem]; [by right |].
    destruct (Py.substring_of "data" s); cbn [Py.getitem]; [by right |].
    cbn [Py.setitem Py.get].
    match goal with
    | |- context [Py.add1 ?c] => destruct (add1_cases c) as [[c' ->] | ->]
    end; eauto.
  - unfold updated_session, mbind, outcome_bind. cbn [Py.contains].
    destruct (existsb (Py.is_str "name") l); cbn [Py.getitem]; [by right |].
    destruct (existsb (Py.is_str "data") l); cbn [Py.getitem]; [by right |].
    cbn [Py.setitem Py.get].
    match goal with
    | |- context [Py.add1 ?c] => destruct (add1_cases c) as [[c' ->] | ->]
    end; eauto.
  - rewrite updated_session_obj.
    match goal with
    | |- context [Py.add1 ?c] => destruct (add1_cases c) as [[c' ->] | ->]
    end; [left | right]; rewrite ?obind_ok, ?obind_raise; eauto.
Qed.

(** An update of a session that has a file, in a volume whose session
    files hold complete records. *)
Lemma update_session_committed e sid req v t :
  committed v →
  sessions v !! (sid +:+ ".json") = Some t →
  (∃ d',
     Py.dict_get "id" d' = Some (JStr sid)
     ∧ update_session e sid req v
       = Result (Ok (jsonify (JObj d')))
           (FS.append_line (Row (updated_entry e sid))
              (published (session_tmp sid) (_session_path sid) (JObj d') v))
           [FS.WriteText (session_tmp sid) (JObj d');
            FS.Rename (session_tmp sid) (_session_path sid);
            FS.AppendLine (updated_entry e sid)])
  ∨ update_session e sid req v = Result (Raise TypeError) v [].
Proof.
  intros Hc Hs.
  destruct (Hc _ _ Hs (glob_json_session sid)) as (sid' & d & Hname & -> & Hid).
  apply session_name_inj in Hname as <-.
  destruct (updated_session_fails e (body_or_empty req) d) as [[s' Hu] | Hu].
  - left. destruct (updated_session_frame _ _ _ _ Hu) as (d' & -> & Hid' & _).
    rewrite Hid in Hid'. exists d'. split; [done |].
    by apply (update_session_run e sid req v (JObj d) d' sid).
  - right. rewrite update_session_steps.
    erewrite bind_ok by (rewrite _load_session_run, Hs; reflexivity).
    by rewrite preceded_nil, bind_lift, Hu.
Qed.

(** Saving the record of a session that has a file adds no identifier. *)
Lemma session_ids_resaved sid x l v :
  is_Some (sessions v !! (sid +:+ ".json")) →
  session_ids
    (FS.append_line l (published (session_tmp sid) (_session_path sid) x v))
  = session_ids v.
Proof.
  intros Hs.
  erewrite session_ids_sessions
    by (instantiate (1 := published _ _ _ v); done).
  rewrite session_ids_published.
  assert (sid ∈ session_ids v) by (by apply elem_session_ids).
  apply set_eq. intros s. rewrite elem_of_union, elem_of_singleton.
  split; [intros [->|?]; done | by right].
Qed.

(** X2. An update is all or nothing.  In a volume whose session files hold
    complete records, [update_session] either returns, having written the
    record under the identifier of the request and appended one entry, the
    set of identifiers on disk being as before; or it raises, the session
    is not found when there is no file for the identifier and a
    [TypeError] otherwise, and then the volume is as it was and no call
    was made. *)
Theorem update_session_all_or_nothing
  (e : env) (sid : string) (req : option json) (v : volume) :
  committed v →
  let r := update_session e sid req v in
  (∃ d',
     value r = Ok (jsonify (JObj d'))
     ∧ Py.dict_get "id" d' = Some (JStr sid)
     ∧ trace r
       = [FS.WriteText (session_tmp sid) (JObj d');
          FS.Rename (session_tmp sid) (_session_path sid);
          FS.AppendLine (updated_entry e sid)]
     ∧ sessions (after r) !! (sid +:+ ".json") = Some (Doc (JObj d'))
     ∧ session_ids (after r) = session_ids v)
  ∨ (sessions v !! (sid +:+ ".json") = None
     ∧ r = Result (Raise (NotFound ("Session " +:+ sid +:+ " not found"))) v [])
  ∨ (is_Some (sessions v !! (sid +:+ ".json"))
     ∧ r = Result (Raise TypeError) v []).
Proof.
  intros Hc r. unfold r.
  destruct (sessions v !! (sid +:+ ".json")) as [t|] eqn:Hs.
  2: { right; left. split; [done |]. by apply update_session_missing. }
  destruct (update_session_committed e sid req v t Hc Hs)
    as [(d' & Hid & ->) | ->].
  - left. exists d'. cbn [value after trace]. split; [done |].
    split; [done |]. split; [done |]. split; [apply sessions_after_save |].
    apply session_ids_resaved. by rewrite Hs.
  - right; right. split; [eauto | done].
Qed.

Lemma update_session_all_or_nothing_witness :
  committed example_volume
  ∧ update_session example_env "7f3c" (Some (JInt 5)) example_volume
    = Result (Raise TypeError) example_volume []
  ∧ update_session example_env "a1b2" None example_volume
    = Result (Raise (NotFound ("Session " +:+ "a1b2" +:+ " not found")))
        example_volume [].
Proof.
  split; [exact committed_example |].
  split.
  - destruct (update_session_all_or_nothing example_env "7f3c" (Some (JInt 5))
                example_volume committed_example)
      as [(d' & Hv & _) | [[Hs _] | [_ Hr]]].
    + vm_compute in Hv. discriminate Hv.
    + vm_compute in Hs. discriminate Hs.
    + exact Hr.
  - destruct (update_session_all_or_nothing example_env "a1b2" None
                example_volume committed_example)
      as [(d' & Hv & _) | [[_ Hr] | [Hs _]]].
    + vm_compute in Hv. discriminate Hv.
    + exact Hr.
    + vm_compute in Hs. destruct Hs as [x Hx]. discriminate Hx.
Defined.

(** ** The counter record: where an increment can fail *)

Lemma load_stats_cases v :
  (∃ s, _load_stats v = Result (Ok s) v [])
  ∨ _load_stats v = Result (Raise JSONDecodeError) v [].
Proof.
  rewrite _load_stats_run.
  destruct (data v !! "stats.json") as [[x|x]|]; simpl; eauto.
Qed.

Lemma get_cases s k dflt :
  (∃ d, s = JObj d ∧ Py.get s k dflt = Ok (default dflt (Py.dict_get k d)))
  ∨ Py.get s k dflt = Raise AttributeError.
Proof. destruct s; simpl; eauto. Qed.

(** The counter [k] of the record [s], one higher: the three steps
    [s[k] = s.get(k, 0) + 1] is made of. *)
Lemma increment_cases {A} k s (rest : json → M A) v :
  (∃ d z, s = JObj d
          ∧ Py.add1 (default (JInt 0) (Py.dict_get k d)) = Ok z
          ∧ (c ← lift (Py.get s k (JInt 0));
             c' ← lift (Py.add1 c);
             s' ← lift (Py.setitem s k c');
             rest s') v
            = rest (JObj (Py.dict_set k z d)) v)
  ∨ (∃ ex, (ex = AttributeError ∨ ex = TypeError)
           ∧ (c ← lift (Py.get s k (JInt 0));
              c' ← lift (Py.add1 c);
              s' ← lift (Py.setitem s k c');
              rest s') v
             = Result (Raise ex) v []).
Proof.
  destruct (get_cases s k (JInt 0)) as [(d & -> & Hg) | Hg].
  - rewrite bind_lift, Hg.
    destruct (add1_cases (default (JInt 0) (Py.dict_get k d)))
      as [[z Hz] | Hz].
    + left. exists d, z. split; [done |]. split; [done |].
      rewrite bind_lift, Hz. by rewrite bind_lift.
    + right. exists TypeError. split; [by right |].
      by rewrite bind_lift, Hz.
  - right. exists AttributeError. split; [by left |].
    by rewrite bind_lift, Hg.
Qed.

Lemma stats_tail_cases sess v :
  (∃ d z, value (_load_stats v) = Ok (JObj d)
          ∧ Py.add1 (default (JInt 0) (Py.dict_get "total_sessions" d)) = Ok z
          ∧ stats_tail sess v
            = Result (Ok (sess, 201))
                (published STATS_TMP STATS_FILE
                   (JObj (Py.dict_set "total_sessions" z d)) v)
                [FS.WriteText STATS_TMP (JObj (Py.dict_set "total_sessions" z d));
                 FS.Rename STATS_TMP STATS_FILE])
  ∨ (∃ ex, (ex = JSONDecodeError ∨ ex = AttributeError ∨ ex = TypeError)
           ∧ stats_tail sess v = Result (Raise ex) v []).
Proof.
  unfold stats_tail.
  destruct (load_stats_cases v) as [[s Hl] | Hl].
  2: { right. exists JSONDecodeError. split; [by left |].
       by erewrite bind_raise by exact Hl. }
  erewrite bind_ok by exact Hl. rewrite preceded_nil.
  destruct (increment_cases "total_sessions" s
              (fun s' => _save_stats s';; mret (sess, 201)) v)
    as [(d & z & -> & Hz & ->) | (ex & Hex & ->)].
  - left. exists d, z. split; [by rewrite Hl |]. split; [done |].
    by mstep _save_stats_run.
  - right. exists ex. split; [| done]. destruct Hex; auto.
Qed.

(** X3. A creation stores and logs the session before it touches the
    counter record, and does not take this back when the counter cannot be
    updated.  With a body that is a dict (or missing), whatever the volume
    holds, the record is on disk under the identifier drawn and the log has
    one more line, the [session_created] entry, when the handler ends; it
    ends either by returning the record with status 201 after writing the
    counter record, or by raising because the counter record does not
    parse, is no dict or holds a [total_sessions] that is no number, and
    then the counter record is as before while the session stays stored
    and logged. *)
Theorem create_session_before_counters
  (e : env) (req : option json) (b : dict) (v : volume) :
  body_or_empty req = JObj b →
  let r := create_session e req v in
  let sid := uuid4 e in
  let saved :=
    [FS.WriteText (session_tmp sid) (new_session e b);
     FS.Rename (session_tmp sid) (_session_path sid);
     FS.AppendLine (created_entry e b)] in
  sessions (after r) !! (sid +:+ ".json") = Some (Doc (new_session e b))
  ∧ lines (after r) = lines v ++ [Row (created_entry e b)]
  ∧ ((∃ s, value r = Ok (new_session e b, 201)
           ∧ trace r
             = saved ++ [FS.WriteText STATS_TMP s; FS.Rename STATS_TMP STATS_FILE]
           ∧ value (_load_stats (after r)) = Ok s)
     ∨ (∃ ex, (ex = JSONDecodeError ∨ ex = AttributeError ∨ ex = TypeError)
              ∧ value r = Raise ex
              ∧ trace r = saved
              ∧ data (after r) = data v)).
Proof.
  intros Hb r sid saved. unfold r.
  rewrite (create_session_split e req b v Hb).
  fold sid. set (sess := new_session e b).
  set (v1 := published (session_tmp sid) (_session_path sid) sess v).
  set (v2 := FS.append_line (Row (created_entry e b)) v1).
  unfold preceded. cbn [value after trace].
  assert (Hs : sessions (after (stats_tail sess v2)) = sessions v2).
  { destruct (quiet_stats_tail sess v2) as [Hn Hr].
    eapply stopped_neutral; [exact Hn | by apply replay_stopped]. }
  split; [| split].
  - rewrite Hs. apply sessions_after_save.
  - rewrite keeps_lines_stats_tail. unfold v2, v1.
    rewrite lines_append. unfold published. by rewrite !lines_store.
  - destruct (stats_tail_cases sess v2)
      as [(d & z & Hl & Hz & ->) | (ex & Hex & ->)]; cbn [value after trace].
    + left. eexists. split; [done |]. split; [done |].
      by apply load_stats_published.
    + right. exists ex. split; [done |]. split; [done |].
      split; [by rewrite app_nil_r |]. done.
Qed.

Lemma create_session_before_counters_witness :
  let v := Volume {["stats.json" := Torn (JObj example_stats)]} ∅ None in
  let r := create_session example_env None v in
  body_or_empty None = JObj []
  ∧ sessions (after r) !! ("7f3c" +:+ ".json")
    = Some (Doc (new_session example_env []))
  ∧ lines (after r) = [Row (created_entry example_env [])]
  ∧ value r = Raise JSONDecodeError.
Proof.
  intros v r.
  destruct (create_session_before_counters example_env None [] v eq_refl)
    as (Hs & Hl & Hr).
  split; [reflexivity |]. split; [exact Hs |]. split; [exact Hl |].
  vm_compute. reflexivity.
Defined.

(** X4. A crash request never returns.  Whatever the volume holds,
    [crash] either writes the counter record with its [crash_count] one
    higher, appends the [crash_triggered] entry carrying the new count and
    leaves the process with code 1; or it raises, because the counter
    record does not parse, is no dict or holds a [crash_count] that is no
    number, and then the volume is as it was, no call was made and the
    process goes on. *)
Theorem crash_exits_or_raises (e : env) (v : volume) :
  (∃ d z,
     value (_load_stats v) = Ok (JObj d)
     ∧ Py.add1 (default (JInt 0) (Py.dict_get "crash_count" d)) = Ok z
     ∧ crash e v
       = Result (Exit 1)
           (FS.append_line
              (Row (log_entry e "crash_triggered" [("crash_count", z)]))
              (published STATS_TMP STATS_FILE
                 (JObj (Py.dict_set "crash_count" z d)) v))
           [FS.WriteText STATS_TMP (JObj (Py.dict_set "crash_count" z d));
            FS.Rename STATS_TMP STATS_FILE;
            FS.AppendLine (log_entry e "crash_triggered" [("crash_count", z)])])
  ∨ (∃ ex, (ex = JSONDecodeError ∨ ex = AttributeError ∨ ex = TypeError)
           ∧ crash e v = Result (Raise ex) v []).
Proof.
  unfold crash.
  destruct (load_stats_cases v) as [[s Hl] | Hl].
  2: { right. exists JSONDecodeError. split; [by left |].
       by erewrite bind_raise by exact Hl. }
  erewrite bind_ok by exact Hl. rewrite preceded_nil.
  destruct (increment_cases "crash_count" s
              (fun s' =>
                 _save_stats s';;
                 cc ← lift (Py.getitem s' "crash_count");
                 _log_event e "crash_triggered" [("crash_count", cc)];;
                 (os_exit 1 : M response)) v)
    as [(d & z & -> & Hz & ->) | (ex & Hex & ->)].
  - left. exists d, z. split; [by rewrite Hl |]. split; [done |].
    mstep _save_stats_run.
    simpl Py.getitem. rewrite dict_get_set_eq. mlift.
    mstep _log_event_run. done.
  - right. exists ex. split; [| done]. destruct Hex; auto.
Qed.

(** X5. The three ways the code run at the start of the process ends.  It
    writes the counter record with [startup_count] one higher, appends the
    [startup] entry and returns, when the record it loaded is a dict with a
    numeric (or no) [startup_count] and with a [crash_count].  When that
    dict has no [crash_count], the record is written with the higher
    [startup_count] all the same, and only then the lookup of
    [crash_count] raises a [KeyError]: the start fails, nothing is logged,
    and the start is counted.  Otherwise it raises before any call, the
    volume as it was. *)
Theorem bootstrap_outcomes (e : env) (v : volume) :
  (∃ d z cc,
     value (_load_stats v) = Ok (JObj d)
     ∧ Py.add1 (default (JInt 0) (Py.dict_get "startup_count" d)) = Ok z
     ∧ Py.dict_get "crash_count" d = Some cc
     ∧ bootstrap e v
       = Result (Ok tt)
           (FS.append_line
              (Row (log_entry e "startup"
                      [("startup_count", z); ("crash_count", cc)]))
              (published STATS_TMP STATS_FILE
                 (JObj (Py.dict_set "startup_count" z d)) v))
           [FS.WriteText STATS_TMP (JObj (Py.dict_set "startup_count" z d));
            FS.Rename STATS_TMP STATS_FILE;
            FS.AppendLine
              (log_entry e "startup"
                 [("startup_count", z); ("crash_count", cc)])])
  ∨ (∃ d z,
       value (_load_stats v) = Ok (JObj d)
       ∧ Py.add1 (default (JInt 0) (Py.dict_get "startup_count" d)) = Ok z
       ∧ Py.dict_get "crash_count" d = None
       ∧ bootstrap e v
         = Result (Raise (KeyError "crash_count"))
             (published STATS_TMP STATS_FILE
                (JObj (Py.dict_set "startup_count" z d)) v)
             [FS.WriteText STATS_TMP (JObj (Py.dict_set "startup_count" z d));
              FS.Rename STATS_TMP STATS_FILE])
  ∨ (∃ ex, (ex = JSONDecodeError ∨ ex = AttributeError ∨ ex = TypeError)
           ∧ bootstrap e v = Result (Raise ex) v []).
Proof.
  unfold bootstrap.
  destruct (load_stats_cases v) as [[s Hl] | Hl].
  2: { right; right. exists JSONDecodeError. split; [by left |].
       by erewrite bind_raise by exact Hl. }
  erewrite bind_ok by exact Hl. rewrite preceded_nil.
  destruct (increment_cases "startup_count" s
              (fun s' =>
                 _save_stats s';;
                 sc ← lift (Py.getitem s' "startup_count");
                 cc ← lift (Py.getitem s' "crash_count");
                 _log_event e "startup"
                   [("startup_count", sc); ("crash_count", cc)]) v)
    as [(d & z & -> & Hz & ->) | (ex & Hex & ->)].
  2: { right; right. exists ex. split; [| done]. destruct Hex; auto. }
  mstep _save_stats_run.
  simpl Py.getitem. rewrite dict_get_set_eq, dict_get_set_ne by done. mlift.
  destruct (Py.dict_get "crash_count" d) as [cc|] eqn:Hcc.
  - left. exists d, z, cc. split; [by rewrite Hl |]. split; [done |].
    split; [done |]. mlift. rewrite _log_event_run. done.
  - right; left. exists d, z. split; [by rewrite Hl |]. split; [done |].
    split; [done |]. rewrite bind_lift. done.
Qed.

(** A counter record that lost its [crash_count]: each start adds one to
    [startup_count] on disk and fails. *)
Example bootstrap_without_crash_count :
  let v := Volume {["stats.json" := Doc (JObj [("startup_count", JInt 3)])]}
             ∅ None in
  value (bootstrap example_env v) = Raise (KeyError "crash_count")
  ∧ value (_load_stats (after (bootstrap example_env v)))
    = Ok (JObj [("startup_count", JInt 4)])
  ∧ lines (after (bootstrap example_env v)) = [].
Proof. vm_compute. repeat split. Qed.

(** ** The four counters along a history *)

Lemma stats_hold_data v v' n k t q :
  data v' = data v → stats_hold v n k t q → stats_hold v' n k t q.
Proof.
  intros H (d & Hd & ?). exists d. by rewrite (load_stats_data _ _ H).
Qed.

Lemma stats_hold_absent v :
  data v !! "stats.json" = None → stats_hold v 0 0 0 0.
Proof. intros H. eexists. rewrite _load_stats_run, H. simpl. done. Qed.

Lemma stats_hold_published w d n k t q :
  Py.dict_get "startup_count" d = Some (JInt n) →
  Py.dict_get "crash_count" d = Some (JInt k) →
  Py.dict_get "total_sessions" d = Some (JInt t) →
  Py.dict_get "total_requests" d = Some (JInt q) →
  stats_hold (published STATS_TMP STATS_FILE (JObj d) w) n k t q.
Proof. intros Hn Hk Ht Hq. exists d. by rewrite load_stats_published. Qed.

Lemma serve_stats e r v n k t q :
  stats_hold v n k t q →
  stats_hold (after (serve e r v))
    (n + if is_boot (e, r) then 1 else 0)
    (k + if is_crash (e, r) then 1 else 0)
    (t + if is_create (e, r) then 1 else 0) q.
Proof.
  intros (d & Hload & Hn & Hk & Ht & Hq).
  assert (Hc : stats_hold v n k t q) by (by exists d).
  destruct r as [| | req | | sid | sid req | sid | limit];
    cbn [serve is_boot is_crash is_create snd]; rewrite ?Z.add_0_r.
  - rewrite (bootstrap_run e v d n k) by done. cbn [after].
    eapply stats_hold_data; [| apply stats_hold_published]; [done | ..].
    + apply dict_get_set_eq.
    + by rewrite dict_get_set_ne.
    + by rewrite dict_get_set_ne.
    + by rewrite dict_get_set_ne.
  - unfold discard. rewrite (crash_run e v d k) by done. cbn [after].
    eapply stats_hold_data; [| apply stats_hold_published]; [done | ..].
    + by rewrite dict_get_set_ne.
    + apply dict_get_set_eq.
    + by rewrite dict_get_set_ne.
    + by rewrite dict_get_set_ne.
  - unfold discard.
    destruct (body_or_empty req) as [| | | | | |b] eqn:Hb;
      try (rewrite create_session_not_dict by (by rewrite Hb);
           by rewrite Z.add_0_r).
    rewrite (create_session_run e req b v d t) by done. cbn [after].
    apply stats_hold_published.
    + by rewrite dict_get_set_ne.
    + by rewrite dict_get_set_ne.
    + apply dict_get_set_eq.
    + by rewrite dict_get_set_ne.
  - eapply stats_hold_data; [| exact Hc]. apply keeps_list_sessions.
  - eapply stats_hold_data; [| exact Hc]. apply keeps_get_session.
  - eapply stats_hold_data; [| exact Hc]. apply keeps_data_update.
  - eapply stats_hold_data; [| exact Hc]. apply keeps_data_delete.
  - eapply stats_hold_data; [| exact Hc]. apply keeps_list_events.
Qed.

Lemma creates_cons er h :
  creates (er :: h) = (if is_create er then 1 else 0) + creates h.
Proof. unfold creates. simpl. destruct (is_create er); simpl; lia. Qed.

Lemma run_stats h : ∀ v n k t q,
  stats_hold v n k t q →
  stats_hold (run h v) (n + boots h) (k + crashes h) (t + creates h) q.
Proof.
  induction h as [|[e r] h IH]; intros v n k t q Hc.
  - unfold boots, crashes, creates. simpl. by rewrite !Z.add_0_r.
  - pose proof (serve_stats e r v n k t q Hc) as H1.
    apply IH in H1.
    rewrite boots_cons, crashes_cons, creates_cons, !Z.add_assoc. exact H1.
Qed.

(** X6. The four counters of the counter record along any history.  From a
    volume whose counter record holds four numbers, the record after the
    history holds: [startup_count] raised by the number of starts,
    [crash_count] by the number of crash requests, [total_sessions] by the
    number of creations whose body is a dict or missing, and
    [total_requests] unchanged.  So [total_sessions] counts creations and
    is never lowered, by a deletion or otherwise; and no request, of any
    kind, is counted in [total_requests]. *)
Theorem counters_along_history
  (h : list (env * request)) (v : volume) (n k t q : Z) :
  stats_hold v n k t q →
  stats_hold (run h v) (n + boots h) (k + crashes h) (t + creates h) q
  ∧ t ≤ t + creates h.
Proof.
  intros Hc. split; [by apply run_stats |]. unfold creates. lia.
Qed.

Lemma counters_along_history_witness :
  stats_hold example_volume 1 0 1 0
  ∧ stats_hold
      (run [(example_env', Create None); (example_env', Delete "a1b2");
            (example_env', ListEvents None); (example_env', Crash);
            (example_env', Boot)] example_volume)
      2 1 2 0.
Proof.
  assert (H : stats_hold example_volume 1 0 1 0)
    by (exists example_stats; repeat split; reflexivity).
  split; [exact H |].
  exact (proj1 (counters_along_history
                  [(example_env', Create None); (example_env', Delete "a1b2");
                   (example_env', ListEvents None); (example_env', Crash);
                   (example_env', Boot)] example_volume 1 0 1 0 H)).
Defined.

(** ** The report of [state] *)

Lemma quiet_sessions {A} (m : M A) v :
  quiet m → sessions (after (m v)) = sessions v.
Proof.
  intros Hq. destruct (Hq v) as [Hn Hr].
  eapply stopped_neutral; [exact Hn | by apply replay_stopped].
Qed.

(** What a start or a request does to the set of identifiers on disk. *)
Lemma serve_session_ids e r v :
  committed v →
  session_ids (after (serve e r v))
  = match r with
    | Create _ =>
        if is_create (e, r) then {[uuid4 e]} ∪ session_ids v
        else session_ids v
    | Delete sid => session_ids v ∖ {[sid]}
    | _ => session_ids v
    end.
Proof.
  intros Hc.
  destruct r as [| | req | | sid | sid req | sid | limit];
    cbn [serve is_create snd].
  - apply session_ids_sessions, quiet_sessions, quiet_bootstrap.
  - apply session_ids_sessions.
    apply (quiet_sessions (crash e)), quiet_crash.
  - unfold discard. cbn [after].
    destruct (body_or_empty req) as [| | | | | |b] eqn:Hb;
      try (by rewrite create_session_not_dict by (by rewrite Hb)).
    rewrite (create_session_split e req b v Hb).
    unfold preceded. cbn [after].
    erewrite session_ids_sessions
      by (apply quiet_sessions, quiet_stats_tail).
    erewrite session_ids_sessions
      by (instantiate (1 := published _ _ _ v); done).
    apply session_ids_published.
  - apply (keeps_list_sessions session_ids).
  - apply (keeps_get_session session_ids).
  - unfold discard. cbn [after].
    destruct (sessions v !! (sid +:+ ".json")) as [t|] eqn:Hs.
    2: { by rewrite update_session_missing. }
    destruct (update_session_committed e sid req v t Hc Hs)
      as [(d' & Hid & ->) | ->]; [| done].
    cbn [after]. apply session_ids_resaved. by rewrite Hs.
  - unfold discard. cbn [after].
    destruct (sessions v !! (sid +:+ ".json")) as [[x|x]|] eqn:Hs.
    + rewrite (delete_session_run e sid v x Hs). cbn [after].
      erewrite session_ids_sessions
        by (instantiate (1 := FS.store (_session_path sid) None v); done).
      apply session_ids_unlink.
    + destruct (Hc _ _ Hs (glob_json_session sid)) as (? & ? & _ & [=] & _).
    + rewrite delete_session_fails by (rewrite Hs; congruence). cbn [after].
      apply set_eq. intros s. rewrite elem_of_difference, elem_of_singleton.
      split; [| by intros [? _]]. intros Hin. split; [done |]. intros ->.
      apply elem_session_ids in Hin. rewrite Hs in Hin. by destruct Hin.
  - apply (keeps_list_events session_ids).
Qed.

Lemma serve_live e r v :
  committed v →
  (size (session_ids (after (serve e r v)))
   ≤ size (session_ids v) + if is_create (e, r) then 1 else 0)%nat.
Proof.
  intros Hc. rewrite serve_session_ids by done.
  destruct r as [| | req | | sid | sid req | sid | limit];
    cbn [is_create snd]; try lia.
  - destruct (match body_or_empty req with JObj _ => true | _ => false end);
      [| lia].
    rewrite size_union_alt, size_singleton.
    assert (H : session_ids v ∖ {[uuid4 e]} ⊆ session_ids v)
      by (intros s; rewrite elem_of_difference; tauto).
    apply subseteq_size in H. lia.
  - assert (H : session_ids v ∖ {[sid]} ⊆ session_ids v)
      by (intros s; rewrite elem_of_difference; tauto).
    apply subseteq_size in H. lia.
Qed.

Lemma run_live h : ∀ v,
  committed v →
  Z.of_nat (size (session_ids (run h v)))
  ≤ Z.of_nat (size (session_ids v)) + creates h.
Proof.
  induction h as [|[e r] h IH]; intros v Hc.
  - unfold creates. simpl. lia.
  - simpl. destruct (serve_well e r v Hc) as (Hc' & _).
    specialize (IH _ Hc'). pose proof (serve_live e r v Hc).
    rewrite creates_cons. destruct (is_create (e, r)); lia.
Qed.

(** The files [state] counts are as many as there are identifiers. *)
Lemma length_glob_json v :
  length (filter (fun nt : string * text => Path.glob_json nt.1 = true)
            (map_to_list (sessions v)))
  = size (session_ids v).
Proof.
  unfold session_ids.
  pose proof (NoDup_fst_map_to_list (sessions v)) as Hnd.
  induction (map_to_list (sessions v)) as [|[name t] l IH].
  - symmetry. apply size_empty.
  - apply NoDup_cons in Hnd as [Hname Hnd]. specialize (IH Hnd).
    rewrite filter_cons. cbn [omap list_omap fst].
    destruct (Path.glob_json name) eqn:Hg.
    + rewrite decide_True by done.
      apply glob_json_iff in Hg as [sid ->]. rewrite stem_json_session.
      cbn [length list_to_set]. rewrite size_union, size_singleton, IH; [done |].
      apply disjoint_singleton_l.
      rewrite elem_of_list_to_set, list_elem_of_omap.
      intros ([name' t'] & Hin & Hst). apply Hname.
      apply stem_json_Some in Hst. cbn [fst] in Hst. subst name'.
      apply list_elem_of_fmap. by exists (sid +:+ ".json", t').
    + rewrite decide_False by congruence.
      assert (Hst : stem_json name = None)
        by (unfold stem_json; by rewrite Hg).
      rewrite Hst. exact IH.
Qed.

Lemma state_run e i clock v n k t q :
  stats_hold v n k t q →
  state e i clock v
  = Result
      (Ok (jsonify
             (JObj [("container_id", JStr (CONTAINER_ID e));
                    ("uptime_seconds",
                     JFloat (round1 (clock - START_TIME i)%Qc));
                    ("requests_this_instance", JInt (req_count i));
                    ("startup_count", JInt n);
                    ("crash_count", JInt k);
                    ("total_sessions", JInt t);
                    ("total_requests", JInt q);
                    ("live_sessions",
                     JInt (Z.of_nat (size (session_ids v))))])))
      v [].
Proof.
  intros (d & Hload & Hn & Hk & Ht & Hq). unfold state.
  mstep (load_stats_eq _ _ Hload). rewrite preceded_nil.
  erewrite bind_ok by reflexivity. rewrite preceded_nil.
  simpl Py.getitem. rewrite Hn, Hk, Ht, Hq. mlift. mlift. mlift. mlift.
  by rewrite length_glob_json.
Qed.

(** X7. What [state] reports after any history from an empty volume, to a
    process with any memory: the number of starts of the history as
    [startup_count], the number of its crash requests as [crash_count], the
    number of its creations (those with a dict or no body) as
    [total_sessions], 0 as [total_requests] whatever was served, and the
    number of session identifiers on disk as [live_sessions], which is at
    most [total_sessions]; the memory of the process gives
    [requests_this_instance], and [uptime_seconds] is the time since its
    start rounded to a tenth.  The report changes nothing on the volume. *)
Theorem state_after_history
  (h : list (env * request)) (e : env) (i : instance) (clock : Qc) :
  let v := run h fresh_volume in
  let live := Z.of_nat (size (session_ids v)) in
  state e i clock v
  = Result
      (Ok (jsonify
             (JObj [("container_id", JStr (CONTAINER_ID e));
                    ("uptime_seconds",
                     JFloat (round1 (clock - START_TIME i)%Qc));
                    ("requests_this_instance", JInt (req_count i));
                    ("startup_count", JInt (boots h));
                    ("crash_count", JInt (crashes h));
                    ("total_sessions", JInt (creates h));
                    ("total_requests", JInt 0);
                    ("live_sessions", JInt live)])))
      v []
  ∧ 0 ≤ live ≤ creates h.
Proof.
  intros v live. split.
  - apply state_run.
    apply (run_stats h fresh_volume 0 0 0 0), stats_hold_absent. reflexivity.
  - pose proof (run_live h fresh_volume committed_fresh) as H.
    change (session_ids fresh_volume) with (∅ : gset string) in H.
    rewrite size_empty in H. fold v in H. fold live in H. lia.
Qed.

(** ** Handlers that only read *)

Lemma reads_only_ret {A} (a : A) : reads_only (mret a).
Proof. done. Qed.

Lemma reads_only_lift {A} (o : outcome A) : reads_only (lift o).
Proof. done. Qed.

Lemma reads_only_bind {A B} (m : M A) (k : A → M B) :
  reads_only m → (∀ a, reads_only (k a)) → reads_only (m ≫= k).
Proof.
  intros Hm Hk v. rewrite bind_run. unfold continue.
  destruct (Hm v) as [Ha Ht].
  destruct (m v) as [[a|ex|c] v1 tr]; cbn [value after trace preceded] in *;
    subst; try done.
  destruct (Hk a v) as [-> ->]. done.
Qed.

Lemma reads_only_load_stats : reads_only _load_stats.
Proof. intros v. by rewrite _load_stats_run. Qed.

Lemma reads_only_load_session sid : reads_only (_load_session sid).
Proof. intros v. by rewrite _load_session_run. Qed.

Lemma reads_only_read_lines : reads_only read_lines.
Proof. intros v. unfold read_lines. by destruct (events v). Qed.

Ltac reads_step :=
  first
    [ apply reads_only_ret | apply reads_only_lift
    | apply reads_only_load_stats | apply reads_only_load_session
    | apply reads_only_read_lines
    | apply reads_only_bind; [| intros ?] ].

Lemma reads_only_health e i clock : reads_only (health e i clock).
Proof. apply reads_only_ret. Qed.

Lemma reads_only_state e i clock : reads_only (state e i clock).
Proof. unfold state. repeat reads_step. done. Qed.

Lemma reads_only_list_sessions : reads_only list_sessions.
Proof. unfold list_sessions. repeat reads_step. done. Qed.

Lemma reads_only_get_session sid : reads_only (get_session sid).
Proof. unfold get_session. repeat reads_step. Qed.

Lemma reads_only_list_events limit : reads_only (list_events limit).
Proof.
  unfold list_events. apply reads_only_bind; [done |]. intros b.
  destruct (negb b); repeat reads_step.
Qed.

(** X8. The five handlers that answer a GET only read.  [health], [state],
    [list_sessions], [get_session] and [list_events] leave the volume as
    it was and make no call that changes it, on every volume and also when
    they raise: no report, listing or lookup is logged or counted, and
    none creates a file that is missing. *)
Theorem reports_only_read :
  (∀ e i clock, reads_only (health e i clock))
  ∧ (∀ e i clock, reads_only (state e i clock))
  ∧ reads_only list_sessions
  ∧ (∀ sid, reads_only (get_session sid))
  ∧ (∀ limit, reads_only (list_events limit)).
Proof.
  split; [exact reads_only_health |]. split; [exact reads_only_state |].
  split; [exact reads_only_list_sessions |].
  split; [exact reads_only_get_session | exact reads_only_list_events].
Qed.

(** ** The memory of the process and the volume *)

Lemma disk_process_step p x :
  disk (process_step p x)
  = match x.2 with
    | Step r => after (serve x.1.1 r (disk p))
    | _ => disk p
    end.
Proof.
  destruct x as [[e clock] [| | r]]; cbn [process_step disk dispatch fst snd].
  - apply reads_only_health.
  - apply reads_only_state.
  - done.
Qed.

(** The volume goes through the steps of the history that it sees. *)
Lemma disk_process_run h : ∀ p,
  disk (process_run h p) = run (volume_history h) (disk p).
Proof.
  induction h as [|x h IH]; intros p; [done |].
  cbn [process_run fold_left]. fold (process_run h (process_step p x)).
  rewrite IH, disk_process_step.
  destruct x as [[e clock] [| | r]]; done.
Qed.

(** Without a start, the memory keeps [START_TIME] and counts the
    requests. *)
Lemma memory_process_run h : ∀ p,
  Forall (fun x => is_start x = false) h →
  memory (process_run h p)
  = Inst (START_TIME (memory p))
      (req_count (memory p) + Z.of_nat (length h)).
Proof.
  induction h as [|x h IH]; intros p Hh.
  - destruct p as [[t0 n] d]. cbn. by rewrite Z.add_0_r.
  - apply Forall_cons in Hh as [Hx Hh].
    cbn [process_run fold_left]. fold (process_run h (process_step p x)).
    rewrite IH by done. cbn [process_step memory].
    destruct x as [[e clock] [| | [| | | | | | |]]]; try discriminate Hx;
      cbn [enter _count fst snd START_TIME req_count length]; f_equal; lia.
Qed.

Lemma process_run_app h1 h2 p :
  process_run (h1 ++ h2) p = process_run h2 (process_run h1 p).
Proof. apply fold_left_app. Qed.

Lemma volume_history_app h1 h2 :
  volume_history (h1 ++ h2) = volume_history h1 ++ volume_history h2.
Proof. apply omap_app. Qed.

Lemma boots_app h1 h2 : boots (h1 ++ h2) = boots h1 + boots h2.
Proof. unfold boots. rewrite List.filter_app, length_app. lia. Qed.

Lemma boots_no_start h :
  Forall (fun x => is_start x = false) h → boots (volume_history h) = 0.
Proof.
  induction h as [|x h IH]; intros Hh; [done |].
  apply Forall_cons in Hh as [Hx Hh].
  destruct x as [[e clock] [| | r]]; cbn [volume_history omap list_omap snd];
    try (by apply IH).
  fold (volume_history h). rewrite boots_cons, IH by done.
  destruct r; done.
Qed.

(** X9. What is kept in memory starts anew with the process, what is on
    the volume goes on.  Let a process be started in the course of a
    history and serve requests without another start; a [state] request
    that follows, itself passing through [_count], reports as
    [requests_this_instance] the number of requests served since that
    start, itself included, and as [uptime_seconds] the time since that
    start rounded to a tenth, whatever the process before it had counted;
    while [startup_count] is the count on the volume before the history
    plus one for every start of the history, the earlier ones included. *)
Theorem state_after_restart
  (h1 h2 : list (env * Qc * call)) (e0 e : env) (t0 clock : Qc)
  (p : process) (n k t q : Z) :
  stats_hold (disk p) n k t q →
  Forall (fun x => is_start x = false) h2 →
  let h := h1 ++ (e0, t0, Step Boot) :: h2 in
  let p' := process_run h p in
  ∃ crashed total live,
    state e (enter clock State (memory p')) clock (disk p')
    = Result
        (Ok (jsonify
               (JObj [("container_id", JStr (CONTAINER_ID e));
                      ("uptime_seconds", JFloat (round1 (clock - t0)%Qc));
                      ("requests_this_instance",
                       JInt (Z.of_nat (length h2) + 1));
                      ("startup_count",
                       JInt (n + boots (volume_history h1) + 1));
                      ("crash_count", JInt crashed);
                      ("total_sessions", JInt total);
                      ("total_requests", JInt q);
                      ("live_sessions", JInt live)])))
        (disk p') [].
Proof.
  intros Hst Hh2 h p'.
  assert (Hmem : enter clock State (memory p')
                 = Inst t0 (Z.of_nat (length h2) + 1)).
  { unfold p', h. rewrite process_run_app.
    cbn [process_run fold_left]. fold (process_run h2).
    rewrite memory_process_run by done. reflexivity. }
  assert (Hdisk : stats_hold (disk p')
                    (n + boots (volume_history h1) + 1)
                    (k + crashes (volume_history h))
                    (t + creates (volume_history h)) q).
  { unfold p'. rewrite disk_process_run.
    replace (n + boots (volume_history h1) + 1)
      with (n + boots (volume_history h)); [by apply run_stats |].
    unfold h. rewrite volume_history_app, boots_app.
    cbn [volume_history omap list_omap snd fst]. fold (volume_history h2).
    rewrite boots_cons, (boots_no_start h2) by done.
    cbn [is_boot snd]. lia. }
  do 3 eexists. rewrite (state_run _ _ _ _ _ _ _ _ Hdisk), Hmem. reflexivity.
Qed.

Lemma state_after_restart_witness :
  let p := Process (Inst (seconds 0) 41) example_volume in
  let h1 := [(example_env, seconds 1, Health);
             (example_env, seconds 2, Step Crash)] in
  let h2 := [(example_env', seconds 4, Health);
             (example_env', seconds 5, Step (GetSession "7f3c"))] in
  let p' := process_run (h1 ++ (example_env', seconds 3, Step Boot) :: h2) p in
  stats_hold (disk p) 1 0 1 0
  ∧ Forall (fun x => is_start x = false) h2
  ∧ ∃ crashed total live,
      value (state example_env' (enter (seconds 6) State (memory p'))
               (seconds 6) (disk p'))
      = Ok (jsonify
              (JObj [("container_id", JStr "c0ffee00");
                     ("uptime_seconds",
                      JFloat (round1 (seconds 6 - seconds 3)%Qc));
                     ("requests_this_instance", JInt 3);
                     ("startup_count", JInt 2);
                     ("crash_count", JInt crashed);
                     ("total_sessions", JInt total);
                     ("total_requests", JInt 0);
                     ("live_sessions", JInt live)])).
Proof.
  intros p h1 h2 p'.
  assert (H : stats_hold (disk p) 1 0 1 0)
    by (exists example_stats; repeat split; reflexivity).
  assert (H2 : Forall (fun x => is_start x = false) h2)
    by (repeat constructor).
  split; [exact H |]. split; [exact H2 |].
  destruct (state_after_restart h1 h2 example_env' example_env'
              (seconds 3) (seconds 6) p 1 0 1 0 H H2)
    as (c & tot & live & Hr).
  exists c, tot, live. exact (f_equal value Hr).
Defined.

(** ** The report of [health] *)

Lemma round_half_even_near (t : Q) :
  (Qabs (inject_Z (round_half_even t) - t) <= 1 # 2)%Q.
Proof.
  unfold round_half_even.
  pose proof (Qfloor_le t) as Hlo. pose proof (Qlt_floor t) as Hhi.
  rewrite inject_Z_plus in Hhi. change (inject_Z 1) with 1%Q in Hhi.
  apply Qabs_Qle_condition.
  destruct (t - inject_Z (Qfloor t) ?= 1 # 2)%Q eqn:Hcmp.
  - apply Qeq_alt in Hcmp.
    destruct (Z.even (Qfloor t)); rewrite ?inject_Z_plus;
      change (inject_Z 1) with 1%Q; lra.
  - apply Qlt_alt in Hcmp. lra.
  - apply Qgt_alt in Hcmp. rewrite inject_Z_plus.
    change (inject_Z 1) with 1%Q. lra.
Qed.

Lemma round_half_even_nonneg (t : Q) : (0 <= t)%Q → 0 ≤ round_half_even t.
Proof.
  intros Ht. unfold round_half_even.
  assert (0 ≤ Qfloor t).
  { change 0 with (Qfloor 0). by apply Qfloor_resp_le. }
  destruct (t - inject_Z (Qfloor t) ?= 1 # 2)%Q; [| lia | lia].
  destruct (Z.even (Qfloor t)); lia.
Qed.

(** X10. [health] answers on every volume, reads nothing and changes
    nothing; the uptime it reports is a whole number of tenths of a second
    that differs by at most a twentieth of a second from the time between
    the start of the process and the request, and is not negative when
    the clock did not go back. *)
Theorem health_uptime (e : env) (i : instance) (clock : Qc) (v : volume) :
  ∃ n : Z,
    health e i clock v
    = Result
        (Ok (jsonify (JObj [("status", JStr "ok");
                            ("container", JStr (CONTAINER_ID e));
                            ("uptime", JFloat (Q2Qc (inject_Z n / 10)%Q))])))
        v []
    ∧ (Qabs (inject_Z n - (clock - START_TIME i)%Qc * 10) <= 1 # 2)%Q
    ∧ ((START_TIME i <= clock)%Qc → 0 ≤ n).
Proof.
  exists (round_half_even ((clock - START_TIME i)%Qc * 10)%Q).
  split; [reflexivity |]. split; [apply round_half_even_near |].
  intros Hle. apply round_half_even_nonneg.
  apply Qcle_minus_iff in Hle.
  change (0 <= (clock + - START_TIME i)%Qc)%Q in Hle.
  change (clock - START_TIME i)%Qc with (clock + - START_TIME i)%Qc.
  apply Qmult_le_0_compat; [exact Hle | done].
Qed.

Example round1_ties :
  round1 (Q2Qc (1 # 4)) = Q2Qc (2 # 10) ∧ round1 (Q2Qc (3 # 4)) = Q2Qc (8 # 10)
  ∧ round1 (Q2Qc (-1 # 4)) = Q2Qc (-2 # 10).
Proof. repeat split; apply Qc_is_canon; reflexivity. Qed.

(** ** A session is touched only by requests for it *)

Lemma sessions_published_other sid sid' x v :
  sid' ≠ sid →
  sessions (published (session_tmp sid) (_session_path sid) x v)
    !! (sid' +:+ ".json")
  = sessions v !! (sid' +:+ ".json").
Proof.
  intros Hne. rewrite sessions_published.
  rewrite decide_False by (by intros ?%session_name_inj).
  rewrite decide_False; [done |].
  intros H. symmetry in H. by apply with_suffix_session_ne in H.
Qed.

Lemma get_session_run sid v :
  get_session sid v
  = Result (match sessions v !! (sid +:+ ".json") with
            | Some (Doc x) => Ok (jsonify x)
            | Some (Torn _) => Raise JSONDecodeError
            | None => Raise (NotFound ("Session " +:+ sid +:+ " not found"))
            end) v [].
Proof.
  unfold get_session. rewrite bind_run, _load_session_run.
  by destruct (sessions v !! (sid +:+ ".json")) as [[x|x]|].
Qed.

Lemma serve_other_session e r v sid :
  committed v → untouched sid (e, r) →
  sessions (after (serve e r v)) !! (sid +:+ ".json")
  = sessions v !! (sid +:+ ".json").
Proof.
  intros Hc Hu.
  destruct r as [| | req | | s | s req | s | limit];
    cbn [serve untouched fst snd] in *.
  - by rewrite (quiet_sessions (bootstrap e)) by apply quiet_bootstrap.
  - unfold discard. cbn [after].
    by rewrite (quiet_sessions (crash e)) by apply quiet_crash.
  - unfold discard. cbn [after].
    destruct (body_or_empty req) as [| | | | | |b] eqn:Hb;
      try (by rewrite create_session_not_dict by (by rewrite Hb)).
    rewrite (create_session_split e req b v Hb).
    unfold preceded. cbn [after].
    rewrite quiet_sessions by apply quiet_stats_tail.
    change (sessions (FS.append_line ?l ?w)) with (sessions w).
    by apply sessions_published_other.
  - unfold discard. cbn [after]. by rewrite (keeps_list_sessions sessions).
  - unfold discard. cbn [after]. by rewrite (keeps_get_session sessions).
  - unfold discard. cbn [after].
    destruct (sessions v !! (s +:+ ".json")) as [t|] eqn:Hs.
    2: { by rewrite update_session_missing. }
    destruct (update_session_committed e s req v t Hc Hs)
      as [(d' & Hid & ->) | ->]; [| done].
    cbn [after]. change (sessions (FS.append_line ?l ?w)) with (sessions w).
    by apply sessions_published_other.
  - unfold discard. cbn [after].
    destruct (sessions v !! (s +:+ ".json")) as [[x|x]|] eqn:Hs.
    + rewrite (delete_session_run e s v x Hs). cbn [after].
      change (sessions (FS.append_line ?l ?w)) with (sessions w).
      change (sessions ?w !! ?n) with (FS.read (InSessions n) w).
      apply read_store_ne. unfold _session_path.
      intros [= H%session_name_inj]. done.
    + by rewrite delete_session_fails by (rewrite Hs; congruence).
    + by rewrite delete_session_fails by (rewrite Hs; congruence).
  - unfold discard. cbn [after]. by rewrite (keeps_list_events sessions).
Qed.

(** X11. A session is changed only by the requests that name it.  From a
    volume whose session files hold complete records, through any history
    of starts, crashes, reads, creations drawing other identifiers, and
    updates and deletions of other sessions, the file of a session holds
    what it held, and [get_session] answers for it as it did before: the
    same record, or not found as before. *)
Theorem session_survives
  (h : list (env * request)) (v : volume) (sid : string) :
  committed v →
  Forall (untouched sid) h →
  sessions (run h v) !! (sid +:+ ".json") = sessions v !! (sid +:+ ".json")
  ∧ value (get_session sid (run h v)) = value (get_session sid v).
Proof.
  intros Hc Hh.
  assert (Hs : sessions (run h v) !! (sid +:+ ".json")
               = sessions v !! (sid +:+ ".json")).
  { revert v Hc. induction Hh as [|[e r] h Hu Hh IH]; intros v Hc; [done |].
    simpl. destruct (serve_well e r v Hc) as (Hc' & _).
    rewrite IH by done. by apply serve_other_session. }
  split; [exact Hs |]. by rewrite !get_session_run, Hs.
Qed.

Lemma session_survives_witness :
  let h := [(example_env', Create (Some (JObj [("name", JStr "beta")])));
            (example_env, Crash); (example_env, Boot);
            (example_env, Update "a1b2" None); (example_env, Delete "a1b2");
            (example_env, ListSessions)] in
  committed example_volume
  ∧ Forall (untouched "7f3c") h
  ∧ value (get_session "7f3c" (run h example_volume))
    = Ok (jsonify (JObj example_record)).
Proof.
  intros h.
  assert (Hh : Forall (untouched "7f3c") h)
    by (repeat constructor; discriminate).
  split; [exact committed_example |]. split; [exact Hh |].
  rewrite (proj2 (session_survives h example_volume "7f3c"
                    committed_example Hh)).
  reflexivity.
Defined.

(** X12. What a creation or an update returned is what a lookup then
    returns.  After a [create_session] that returned a record,
    [get_session] on the identifier drawn returns that record, and the
    status of the creation was 201; after an [update_session] that
    returned, in a volume whose session files hold complete records,
    [get_session] on the identifier of the request returns what the
    update returned. *)
Theorem read_your_writes :
  (∀ e req v sess code,
     value (create_session e req v) = Ok (sess, code) →
     code = 201
     ∧ value (get_session (uuid4 e) (after (create_session e req v)))
       = Ok (jsonify sess))
  ∧ (∀ e sid req v r,
       committed v →
       value (update_session e sid req v) = Ok r →
       value (get_session sid (after (update_session e sid req v))) = Ok r).
Proof.
  split.
  - intros e req v sess code H.
    destruct (body_or_empty req) as [| | | | | |b] eqn:Hb;
      try (rewrite create_session_not_dict in H by (by rewrite Hb); done).
    rewrite (create_session_split e req b v Hb) in H |- *.
    unfold preceded in H |- *. cbn [value after] in H |- *.
    rewrite get_session_run. cbn [value].
    rewrite quiet_sessions by apply quiet_stats_tail.
    rewrite sessions_after_save.
    match type of H with
    | value (stats_tail ?s ?w) = _ =>
        destruct (stats_tail_cases s w) as [(d & z & _ & _ & Hr) | (ex & _ & Hr)];
        rewrite Hr in H
    end; [| done].
    cbn [value] in H. injection H as <- <-. done.
  - intros e sid req v r Hc H.
    destruct (sessions v !! (sid +:+ ".json")) as [t|] eqn:Hs.
    2: { by rewrite update_session_missing in H. }
    destruct (update_session_committed e sid req v t Hc Hs)
      as [(d' & Hid & Hr) | Hr]; rewrite Hr in H |- *; [| done].
    cbn [value after] in H |- *. rewrite get_session_run. cbn [value].
    rewrite sessions_after_save. exact H.
Qed.

Lemma read_your_writes_witness :
  let c := create_session example_env'
             (Some (JObj [("name", JStr "beta")])) example_volume in
  let u := update_session example_env "7f3c"
             (Some (JObj [("data", JInt 2)])) example_volume in
  committed example_volume
  ∧ (∃ sess, value c = Ok (sess, 201)
             ∧ value (get_session "a1b2" (after c)) = Ok (jsonify sess))
  ∧ (∃ r, value u = Ok r ∧ value (get_session "7f3c" (after u)) = Ok r).
Proof.
  intros c u. split; [exact committed_example |]. split.
  - assert (H : ∃ sess, value c = Ok (sess, 201))
      by (eexists; vm_compute; reflexivity).
    destruct H as [sess H]. exists sess. split; [exact H |].
    exact (proj2 (proj1 read_your_writes example_env' _ example_volume
                    sess 201 H)).
  - assert (H : ∃ r, value u = Ok r) by (eexists; vm_compute; reflexivity).
    destruct H as [r H]. exists r. split; [exact H |].
    exact (proj2 read_your_writes example_env "7f3c" _ example_volume r
             committed_example H).
Defined.

(** ** The order and the length of a listing *)

Lemma record_file_inj : Inj (=) (=) record_file.
Proof.
  intros [s x] [s' x'] [= H%session_name_inj ->]. by subst.
Qed.

Lemma name_le_trans : Transitive name_le.
Proof. intros a b c. apply (@transitivity _ String.le _). Qed.

Lemma name_le_total : Total name_le.
Proof. intros a b. apply (String.le_total a.1 b.1). Qed.

Lemma record_files (L : list (string * text)) :
  (∀ nt, nt ∈ L → ∃ r, nt = record_file r) →
  ∃ recs, L = record_file <$> recs.
Proof.
  induction L as [|nt L IH]; intros H.
  - by exists [].
  - destruct (H nt) as [r ->]; [by left |].
    destruct IH as [recs ->]; [intros; apply H; by right |].
    by exists (r :: recs).
Qed.

Lemma mapM_record_files recs :
  mapM (fun nt : string * text => json_loads nt.2) (record_file <$> recs)
  = Ok recs.*2.
Proof.
  induction recs as [|[sid x] recs IH]; [done |].
  cbn [fmap list_fmap]. simpl mapM.
  fold (mapM (fun nt : string * text => json_loads nt.2)).
  change (list_fmap _ _ record_file recs) with (record_file <$> recs).
  by rewrite IH.
Qed.

Lemma sorted_record_files recs :
  StronglySorted name_le (record_file <$> recs) →
  StronglySorted
    (fun a b : string * json => String.le (a.1 +:+ ".json") (b.1 +:+ ".json"))
    recs.
Proof.
  induction recs as [|r recs IH]; [constructor |].
  cbn [fmap list_fmap]. intros [Hs Hall]%StronglySorted_inv.
  constructor; [by apply IH |].
  change (list_fmap _ _ record_file recs) with (record_file <$> recs) in Hall.
  rewrite Forall_fmap in Hall. exact Hall.
Qed.

Lemma glob_sorted_sorted v : StronglySorted name_le (glob_sorted v).
Proof.
  apply (@StronglySorted_merge_sort _ name_le _ name_le_trans name_le_total).
Qed.

(** X13. The listing of a volume whose session files hold complete
    records.  [list_sessions] returns one record for each session
    identifier on disk and no other, so its count is the number of
    identifiers; no identifier comes twice; and the records come in the
    ascending order of their file names, the identifier followed by
    [.json], whatever the order of creation. *)
Theorem list_sessions_sorted (v : volume) :
  committed v →
  ∃ recs : list (string * json),
    lists v recs.*2
    ∧ length recs = size (session_ids v)
    ∧ (∀ sid x,
         (sid, x) ∈ recs ↔ sessions v !! (sid +:+ ".json") = Some (Doc x))
    ∧ NoDup recs.*1
    ∧ StronglySorted
        (fun a b : string * json =>
           String.le (a.1 +:+ ".json") (b.1 +:+ ".json"))
        recs.
Proof.
  intros Hc.
  destruct (record_files (glob_sorted v)) as [recs Hrecs].
  { intros [name t] [Hg Hs]%elem_glob_sorted.
    destruct (Hc _ _ Hs Hg) as (sid & d & -> & -> & _).
    by exists (sid, JObj d). }
  assert (Hin : ∀ sid x,
            (sid, x) ∈ recs ↔ sessions v !! (sid +:+ ".json") = Some (Doc x)).
  { intros sid x.
    rewrite <- (@list_elem_of_fmap_inj _ _ record_file record_file_inj).
    rewrite <- Hrecs. unfold record_file. cbn [fst snd].
    rewrite elem_glob_sorted. split; [by intros [_ ?] |].
    intros H. split; [apply glob_json_session | done]. }
  exists recs. split; [| split; [| split; [| split]]].
  - unfold lists, list_sessions.
    erewrite bind_ok by reflexivity. rewrite preceded_nil, Hrecs.
    rewrite mapM_record_files. by mlift.
  - rewrite <- length_glob_json.
    rewrite <- (length_fmap record_file), <- Hrecs.
    unfold glob_sorted. by rewrite merge_sort_Permutation.
  - exact Hin.
  - apply NoDup_fmap_fst.
    + intros sid x y Hx%Hin Hy%Hin. congruence.
    + apply (NoDup_fmap_1 record_file). rewrite <- Hrecs.
      unfold glob_sorted. rewrite merge_sort_Permutation.
      apply NoDup_filter, NoDup_map_to_list.
  - apply sorted_record_files. rewrite <- Hrecs. apply glob_sorted_sorted.
Qed.

Lemma committed_listed : committed listed_volume.
Proof.
  intros name t H _. cbn [listed_volume sessions] in H.
  apply lookup_insert_Some in H as [[<- <-] | [_ H]].
  { by exists "b", [("id", JStr "b"); ("name", JStr "third")]. }
  apply lookup_insert_Some in H as [[<- <-] | [_ H]].
  { by exists "a", [("id", JStr "a"); ("name", JStr "second")]. }
  apply lookup_singleton_Some in H as [<- <-].
  by exists "a-b", [("id", JStr "a-b"); ("name", JStr "first")].
Qed.

Lemma list_sessions_sorted_witness :
  committed listed_volume
  ∧ ∃ recs : list (string * json),
      lists listed_volume recs.*2
      ∧ recs.*2
        = [JObj [("id", JStr "a-b"); ("name", JStr "first")];
           JObj [("id", JStr "a"); ("name", JStr "second")];
           JObj [("id", JStr "b"); ("name", JStr "third")]]
      ∧ length recs = 3%nat
      ∧ length recs = size (session_ids listed_volume)
      ∧ (∀ sid x,
           (sid, x) ∈ recs
           ↔ sessions listed_volume !! (sid +:+ ".json") = Some (Doc x))
      ∧ NoDup recs.*1
      ∧ StronglySorted
          (fun a b : string * json =>
             String.le (a.1 +:+ ".json") (b.1 +:+ ".json"))
          recs.
Proof.
  split; [exact committed_listed |].
  destruct (list_sessions_sorted listed_volume committed_listed)
    as (recs & Hl & Hn & Hin & Hnd & Hs).
  assert (H2 : recs.*2
               = [JObj [("id", JStr "a-b"); ("name", JStr "first")];
                  JObj [("id", JStr "a"); ("name", JStr "second")];
                  JObj [("id", JStr "b"); ("name", JStr "third")]]).
  { unfold lists in Hl.
    assert (Hv : value (list_sessions listed_volume)
                 = Ok (jsonify
                         (JObj [("sessions",
                                 JArr [JObj [("id", JStr "a-b");
                                             ("name", JStr "first")];
                                       JObj [("id", JStr "a");
                                             ("name", JStr "second")];
                                       JObj [("id", JStr "b");
                                             ("name", JStr "third")]]);
                                ("count", JInt 3)])))
      by (vm_compute; reflexivity).
    rewrite Hv in Hl. injection Hl as Hl _. symmetry. exact Hl. }
  exists recs. split; [exact Hl |]. split; [exact H2 |].
  split.
  { rewrite <- (length_fmap snd), H2. reflexivity. }
  split; [exact Hn |]. split; [exact Hin |]. split; [exact Hnd | exact Hs].
Defined.

(** The order is that of the file names, not that of the identifiers: a
    dot comes after a hyphen. *)
Example listing_order_by_file_name :
  String.le "a" "a-b" ∧ String.le ("a-b" +:+ ".json") ("a" +:+ ".json")
  ∧ ¬ String.le ("a" +:+ ".json") ("a-b" +:+ ".json").
Proof. split; [exact I |]. split; [exact I |]. intros H. exact H. Qed.

(** ** Files and lines that do not parse *)

Lemma mapM_json_loads_torn (L : list (string * text)) name x :
  (name, Torn x) ∈ L →
  mapM (fun nt : string * text => json_loads nt.2) L = Raise JSONDecodeError.
Proof.
  induction L as [|[n t] L IH]; intros Hin; [by apply not_elem_of_nil in Hin |].
  simpl mapM. fold (mapM (fun nt : string * text => json_loads nt.2)).
  destruct t as [y|y]; [| done]. cbn [json_loads snd]. rewrite obind_ok.
  apply elem_of_cons in Hin as [[=] | Hin]. by rewrite IH.
Qed.

(** X14. One session file that does not parse makes the whole listing
    fail.  When some file of the sessions directory matching ["*.json"]
    holds a text that does not parse, [list_sessions] raises the decoding
    error, whatever the other files hold, and changes nothing; a lookup of
    another session, whose file holds a record, still returns it. *)
Theorem list_sessions_corrupt
  (v : volume) (name : string) (x y : json) (sid : string) :
  sessions v !! name = Some (Torn x) →
  Path.glob_json name = true →
  sessions v !! (sid +:+ ".json") = Some (Doc y) →
  list_sessions v = Result (Raise JSONDecodeError) v []
  ∧ get_session sid v = Result (Ok (jsonify y)) v [].
Proof.
  intros Hs Hg Hsid. split; [| by rewrite get_session_run, Hsid].
  unfold list_sessions. erewrite bind_ok by reflexivity.
  rewrite preceded_nil, bind_lift.
  rewrite (mapM_json_loads_torn _ name x); [done |].
  by apply elem_glob_sorted.
Qed.

Lemma list_sessions_corrupt_witness :
  let v := Volume ∅ {["7f3c.json" := Doc (JObj example_record);
                     "a1b2.json" := Torn (JObj example_record)]} None in
  sessions v !! "a1b2.json" = Some (Torn (JObj example_record))
  ∧ Path.glob_json "a1b2.json" = true
  ∧ sessions v !! ("7f3c" +:+ ".json") = Some (Doc (JObj example_record))
  ∧ value (list_sessions v) = Raise JSONDecodeError.
Proof.
  intros v.
  assert (H1 : sessions v !! "a1b2.json" = Some (Torn (JObj example_record)))
    by reflexivity.
  assert (H2 : sessions v !! ("7f3c" +:+ ".json")
               = Some (Doc (JObj example_record))) by reflexivity.
  split; [exact H1 |]. split; [reflexivity |]. split; [exact H2 |].
  exact (f_equal value
           (proj1 (list_sessions_corrupt v "a1b2.json" _ _ "7f3c"
                     H1 eq_refl H2))).
Defined.

(** ** The answers of [list_events] *)

Lemma mapM_line_loads_partial log :
  Partial ∈ log →
  mapM line_loads (List.filter line_nonblank log) = Raise JSONDecodeError.
Proof.
  induction log as [|l log IH]; intros Hin; [by apply not_elem_of_nil in Hin |].
  apply elem_of_cons in Hin as [<- | Hin]; [done |].
  destruct l as [x| |]; cbn [List.filter line_nonblank]; [| by apply IH | done].
  simpl mapM. fold (mapM line_loads). by rewrite IH.
Qed.

Lemma mapM_line_loads_entries log :
  Partial ∉ log →
  mapM line_loads (List.filter line_nonblank log) = Ok (entries log).
Proof.
  induction log as [|l log IH]; intros Hin; [done |].
  apply not_elem_of_cons in Hin as [Hl Hin].
  destruct l as [x| |]; cbn [List.filter line_nonblank entries omap list_omap];
    [| by apply IH | done].
  simpl mapM. fold (mapM line_loads). fold (entries log). by rewrite IH.
Qed.

Lemma slice_from_nonpositive {A} (n : Z) (l : list A) :
  n ≤ 0 → Py.slice_from (- n) l = drop (Z.to_nat (- n)) l.
Proof.
  intros Hn. unfold Py.slice_from.
  destruct (Z.ltb_spec (- n) 0) as [|_]; [lia |].
  destruct (Z.min_spec (- n) (Z.of_nat (length l))) as [[_ ->] | [Hle ->]];
    [done |].
  rewrite Nat2Z.id, !drop_ge by lia. done.
Qed.

(** X15. The answers of [list_events].  Without a log file it returns no
    events and the count 0, the limit not being looked at, so also when
    the limit is no number.  With a log of which some line does not parse
    it raises the decoding error, whatever the limit.  With a log whose
    lines are entries or blank, blank lines are skipped; a limit of ASCII
    characters that is no decimal number ([int_covers] gives the strings
    meant) raises [ValueError]; for a limit [n] the count returned is
    the number of all entries, and the events returned are the last [n]
    entries (all when there are fewer) if [n] is at least 1, and all but
    the first [- n] entries if [n] is 0 or negative, which for 0 is all of
    them.  Nothing is changed in any case. *)
Theorem list_events_outcomes (limit : option string) (v : volume) :
  (events v = None →
   list_events limit v
   = Result (Ok (jsonify (JObj [("events", JArr []); ("count", JInt 0)])))
       v [])
  ∧ (∀ log, events v = Some log → Partial ∈ log →
       list_events limit v = Result (Raise JSONDecodeError) v [])
  ∧ (∀ log, events v = Some log → Partial ∉ log →
       match limit with
       | Some s => Py.int s
       | None => Ok 50
       end = Raise ValueError →
       list_events limit v = Result (Raise ValueError) v [])
  ∧ (∀ log n, events v = Some log → Partial ∉ log →
       match limit with
       | Some s => Py.int s
       | None => Ok 50
       end = Ok n →
       let evs := entries log in
       let shown :=
         if decide (1 ≤ n) then drop (length evs - Z.to_nat n) evs
         else drop (Z.to_nat (- n)) evs in
       list_events limit v
       = Result (Ok (jsonify (JObj [("events", JArr shown);
                                    ("count", JInt (Z.of_nat (length evs)))])))
           v []).
Proof.
  split; [apply list_events_missing |]. split; [| split].
  - intros log Hlog Hp. unfold list_events.
    erewrite bind_ok by (unfold events_exist; rewrite Hlog; reflexivity).
    rewrite preceded_nil. cbn [negb bool_decide decide_rel is_Some_dec decide].
    erewrite bind_ok by (unfold read_lines; rewrite Hlog; reflexivity).
    by rewrite preceded_nil, bind_lift, mapM_line_loads_partial.
  - intros log Hlog Hp Hn. unfold list_events.
    erewrite bind_ok by (unfold events_exist; rewrite Hlog; reflexivity).
    rewrite preceded_nil. cbn [negb bool_decide decide_rel is_Some_dec decide].
    erewrite bind_ok by (unfold read_lines; rewrite Hlog; reflexivity).
    rewrite preceded_nil, bind_lift, mapM_line_loads_entries by done.
    by rewrite bind_lift, Hn.
  - intros log n Hlog Hp Hn evs shown.
    rewrite (list_events_run limit v log evs n Hlog) by
      (by try apply mapM_line_loads_entries).
    unfold shown. case_decide.
    + by rewrite slice_from_recent.
    + by rewrite slice_from_nonpositive by lia.
Qed.

Lemma list_events_outcomes_witness :
  let log := [Row (JInt 1); Blank; Row (JInt 2); Row (JInt 3)] in
  let v := Volume ∅ ∅ (Some log) in
  events fresh_volume = None
  ∧ value (list_events (Some "many") fresh_volume)
    = Ok (jsonify (JObj [("events", JArr []); ("count", JInt 0)]))
  ∧ (Partial ∉ log)
  ∧ Py.int "many" = Raise ValueError
  ∧ value (list_events (Some "many") v) = Raise ValueError
  ∧ Py.int "-1" = Ok (-1)
  ∧ value (list_events (Some "-1") v)
    = Ok (jsonify (JObj [("events", JArr [JInt 2; JInt 3]);
                         ("count", JInt 3)]))
  ∧ value (list_events (Some "2") (Volume ∅ ∅ (Some (log ++ [Partial]))))
    = Raise JSONDecodeError.
Proof.
  intros log v.
  assert (Hp : Partial ∉ log).
  { intros H. repeat (apply elem_of_cons in H as [H | H]; [discriminate H |]).
    by apply not_elem_of_nil in H. }
  split; [reflexivity |].
  split.
  { exact (f_equal value
             (proj1 (list_events_outcomes (Some "many") fresh_volume)
                eq_refl)). }
  split; [exact Hp |]. split; [reflexivity |].
  split.
  { exact (f_equal value
             (proj1 (proj2 (proj2 (list_events_outcomes (Some "many") v)))
                log eq_refl Hp eq_refl)). }
  split; [reflexivity |].
  split.
  { exact (f_equal value
             (proj2 (proj2 (proj2 (list_events_outcomes (Some "-1") v)))
                log (-1) eq_refl Hp eq_refl)). }
  exact (f_equal value
           (proj1 (proj2 (list_events_outcomes (Some "2")
                            (Volume ∅ ∅ (Some (log ++ [Partial])))))
              (log ++ [Partial]) eq_refl
              ltac:(apply elem_of_app; right; apply list_elem_of_here))).
Defined.

(** ** What a request appends to the log *)

Lemma appended_app tr tr' : appended (tr ++ tr') = appended tr ++ appended tr'.
Proof. apply omap_app. Qed.

Lemma replay_lines tr : ∀ v v',
  replay tr v = Some v' → lines v' = lines v ++ appended tr.
Proof.
  induction tr as [|o tr IH]; intros v v'; simpl.
  - intros [= <-]. by rewrite app_nil_r.
  - destruct (FS.apply o v) as [v1|] eqn:E; simpl; [| done].
    intros H%IH. rewrite H.
    destruct o as [p x|src dst|p|en]; cbn [FS.apply] in E.
    + injection E as <-. by rewrite lines_store.
    + destruct (FS.read src v); [| done]. injection E as <-.
      by rewrite !lines_store.
    + destruct (FS.read p v); [| done]. injection E as <-.
      by rewrite lines_store.
    + injection E as <-. rewrite lines_append, <- app_assoc. done.
Qed.

Lemma accounted_reads_only {A} (m : M A) : reads_only m → accounted m.
Proof. intros H v. by destruct (H v) as [-> ->]. Qed.

Lemma accounted_bind {A B} (m : M A) (k : A → M B) :
  accounted m → (∀ a, accounted (k a)) → accounted (m ≫= k).
Proof.
  intros Hm Hk v. rewrite bind_run. unfold continue. specialize (Hm v).
  destruct (m v) as [[a|ex|c] v1 tr]; cbn [value after trace preceded] in *;
    try done.
  rewrite replay_app, Hm. apply Hk.
Qed.

Lemma accounted_syscall o : accounted (syscall o).
Proof.
  intros v. unfold syscall. destruct (FS.apply o v) eqn:E; simpl; [| done].
  by rewrite E.
Qed.

Lemma accounted_discard {A} (m : M A) : accounted m → accounted (discard m).
Proof. intros H v. apply H. Qed.

Lemma accounted_os_exit {A} c : accounted (@os_exit A c).
Proof. done. Qed.

Ltac accounted_step :=
  first
    [ apply accounted_syscall | apply accounted_os_exit
    | apply accounted_reads_only;
      first [ apply reads_only_ret | apply reads_only_lift
            | apply reads_only_load_stats | apply reads_only_load_session ]
    | apply accounted_bind; [| intros ?]
    | match goal with
      | |- accounted (if ?b then _ else _) => destruct b
      | |- accounted (match ?x with _ => _ end) => destruct x
      end ].

Lemma accounted_serve e r : accounted (serve e r).
Proof.
  destruct r as [| | req | | sid | sid req | sid | limit]; cbn [serve];
    try apply accounted_discard.
  - unfold bootstrap, _save_stats, _log_event. repeat accounted_step.
  - unfold crash, _save_stats, _log_event. repeat accounted_step.
  - unfold create_session, _save_session, _save_stats, _log_event.
    repeat accounted_step.
  - apply accounted_reads_only, reads_only_list_sessions.
  - apply accounted_reads_only, reads_only_get_session.
  - unfold update_session, _save_session, _log_event. repeat accounted_step.
  - unfold delete_session, _log_event. repeat accounted_step.
  - apply accounted_reads_only, reads_only_list_events.
Qed.

Lemma silent_reads_only {A} (m : M A) : reads_only m → silent m.
Proof. intros H v. by destruct (H v) as [_ ->]. Qed.

Lemma silent_bind {A B} (m : M A) (k : A → M B) :
  silent m → (∀ a, silent (k a)) → silent (m ≫= k).
Proof.
  intros Hm Hk v. rewrite bind_run. unfold continue. specialize (Hm v).
  destruct (m v) as [[a|ex|c] v1 tr]; cbn [value after trace preceded] in *;
    try done.
  by rewrite appended_app, Hm, Hk.
Qed.

Lemma silent_syscall o :
  match o with
  | FS.AppendLine _ => False
  | _ => True
  end → silent (syscall o).
Proof.
  intros Ho v. unfold syscall. destruct (FS.apply o v); [| done].
  by destruct o.
Qed.

Lemma silent_os_exit {A} c : silent (@os_exit A c).
Proof. done. Qed.

Ltac silent_step :=
  first
    [ apply silent_os_exit
    | apply silent_syscall; exact I
    | apply silent_reads_only;
      first [ apply reads_only_ret | apply reads_only_lift
            | apply reads_only_load_stats | apply reads_only_load_session ]
    | apply silent_bind; [| intros ?]
    | match goal with
      | |- silent (if ?b then _ else _) => destruct b
      | |- silent (match ?x with _ => _ end) => destruct x
      end ].

Lemma silent_save_stats s : silent (_save_stats s).
Proof. unfold _save_stats. repeat silent_step. Qed.

Lemma silent_save_session sess : silent (_save_session sess).
Proof. unfold _save_session. repeat silent_step. Qed.

Lemma logs_silent {A} e kind (m : M A) : silent m → logs e kind m.
Proof. intros H v. left. apply H. Qed.

Lemma logs_bind_l {A B} e kind (m : M A) (k : A → M B) :
  silent m → (∀ a, logs e kind (k a)) → logs e kind (m ≫= k).
Proof.
  intros Hm Hk v. rewrite bind_run. unfold continue. specialize (Hm v).
  destruct (m v) as [[a|ex|c] v1 tr]; cbn [value after trace preceded] in *;
    try (by left).
  rewrite appended_app, Hm. apply Hk.
Qed.

Lemma logs_bind_r {A B} e kind (m : M A) (k : A → M B) :
  logs e kind m → (∀ a, silent (k a)) → logs e kind (m ≫= k).
Proof.
  intros Hm Hk v. rewrite bind_run. unfold continue. specialize (Hm v).
  destruct (m v) as [[a|ex|c] v1 tr]; cbn [value after trace preceded] in *;
    try done.
  assert (Hs : appended (trace (k a v1)) = []) by apply Hk.
  rewrite appended_app, Hs, app_nil_r. exact Hm.
Qed.

Lemma logs_log_event {A} e kind extra (k : unit → M A) :
  entry_of e kind (Row (log_entry e kind extra)) →
  (∀ a, silent (k a)) →
  logs e kind (_log_event e kind extra ≫= k).
Proof.
  intros He Hk. apply logs_bind_r; [| done].
  intros v. right. exists (Row (log_entry e kind extra)). by split.
Qed.

Lemma logs_log_event_last e kind extra :
  entry_of e kind (Row (log_entry e kind extra)) →
  logs e kind (_log_event e kind extra).
Proof.
  intros He v. right. exists (Row (log_entry e kind extra)). by split.
Qed.

Lemma logs_discard {A} e kind (m : M A) : logs e kind m → logs e kind (discard m).
Proof. intros H v. apply H. Qed.

Lemma silent_discard {A} (m : M A) : silent m → silent (discard m).
Proof. intros H v. apply H. Qed.

Ltac silent_solve :=
  repeat first [ apply silent_save_stats | apply silent_save_session
               | silent_step ].

Ltac entry_solve :=
  eexists; split; [reflexivity |]; repeat split; reflexivity.

Ltac logs_step :=
  first
    [ apply logs_log_event; [entry_solve | intros ?; solve [silent_solve]]
    | apply logs_log_event_last; entry_solve
    | apply logs_bind_l; [solve [silent_solve] | intros ?] ].

Lemma logs_serve e r :
  match logged_kind r with
  | Some kind => logs e kind (serve e r)
  | None => silent (serve e r)
  end.
Proof.
  destruct r as [| | req | | sid | sid req | sid | limit];
    cbn [serve logged_kind];
    try apply logs_discard; try apply silent_discard.
  - unfold bootstrap. repeat logs_step.
  - unfold crash. repeat logs_step.
  - unfold create_session. repeat logs_step.
  - apply silent_reads_only, reads_only_list_sessions.
  - apply silent_reads_only, reads_only_get_session.
  - unfold update_session. repeat logs_step.
  - unfold delete_session. repeat logs_step.
  - apply silent_reads_only, reads_only_list_events.
Qed.

(** X16. The log is written one entry per request at most, by the handler
    of the matching kind.  After a start or a request, served on any
    volume and whether it returned, raised or left the process, the log
    is as before or has exactly one more line; that line is a complete
    entry carrying the two clock readings, the identity of the process
    and the kind that goes with the request: [startup] for a start,
    [crash_triggered] for a crash request, [session_created],
    [session_updated], [session_deleted] for a creation, an update, a
    deletion.  The listing of sessions, the lookup of a session and the
    reading of the log append nothing. *)
Theorem serve_logs_one_entry (e : env) (r : request) (v : volume) :
  let v' := after (serve e r v) in
  lines v' = lines v
  ∨ ∃ kind l,
      logged_kind r = Some kind ∧ entry_of e kind l ∧ lines v' = lines v ++ [l].
Proof.
  intros v'.
  pose proof (replay_lines _ _ _ (accounted_serve e r v)) as Hl.
  fold v' in Hl. pose proof (logs_serve e r) as Hk.
  destruct (logged_kind r) as [kind|].
  - destruct (Hk v) as [Hn | (l & Hone & He)].
    + left. by rewrite Hl, Hn, app_nil_r.
    + right. exists kind, l. by rewrite Hl, Hone.
  - left. by rewrite Hl, (Hk v), app_nil_r.
Qed.

(** ** Bodies that are no dict *)

(** X17. A body that is JSON but no dict.  When it is falsy in Python
    ([null], [false], 0, the empty string, the empty list), [or {}] puts
    the empty dict in its place, and both [create_session] and
    [update_session] do what they do without a body.  When it is truthy, a
    creation raises [AttributeError] at the first [body.get], before it
    wrote or logged anything; and an update of a session that has a
    record raises [TypeError] if the body is a number or [true], again
    with nothing written. *)
Theorem body_not_a_dict
  (e : env) (sid : string) (x sess : json) (v : volume) :
  (∀ b, x ≠ JObj b) →
  (Py.truthy x = false →
   create_session e (Some x) v = create_session e None v
   ∧ update_session e sid (Some x) v = update_session e sid None v)
  ∧ (Py.truthy x = true →
     create_session e (Some x) v = Result (Raise AttributeError) v []
     ∧ (sessions v !! (sid +:+ ".json") = Some (Doc sess) →
        (∃ z, x = JInt z) ∨ (∃ q, x = JFloat q) ∨ x = JBool true →
        update_session e sid (Some x) v = Result (Raise TypeError) v [])).
Proof.
  intros Hx. split.
  - intros Hf. unfold create_session, update_session, body_or_empty.
    by rewrite Hf.
  - intros Ht. split.
    + apply create_session_not_dict. intros b. unfold body_or_empty.
      rewrite Ht. apply Hx.
    + intros Hs Hnum. unfold update_session.
      erewrite bind_ok by (rewrite _load_session_run, Hs; reflexivity).
      rewrite preceded_nil. unfold body_or_empty. rewrite Ht.
      by destruct Hnum as [[z ->] | [[q ->] | ->]].
Qed.

Lemma body_not_a_dict_witness :
  (∀ b, JArr [] ≠ JObj b) ∧ (∀ b, JInt 5 ≠ JObj b)
  ∧ Py.truthy (JArr []) = false ∧ Py.truthy (JInt 5) = true
  ∧ create_session example_env (Some (JArr [])) example_volume
    = create_session example_env None example_volume
  ∧ create_session example_env (Some (JInt 5)) example_volume
    = Result (Raise AttributeError) example_volume [].
Proof.
  assert (H1 : ∀ b, JArr [] ≠ JObj b) by (intros b; discriminate).
  assert (H2 : ∀ b, JInt 5 ≠ JObj b) by (intros b; discriminate).
  split; [exact H1 |]. split; [exact H2 |].
  split; [reflexivity |]. split; [reflexivity |]. split.
  - exact (proj1 (proj1 (body_not_a_dict example_env "7f3c" (JArr []) JNull
                           example_volume H1) eq_refl)).
  - exact (proj1 (proj2 (body_not_a_dict example_env "7f3c" (JInt 5) JNull
                           example_volume H2) eq_refl)).
Defined.

(** ** A request cut short *)

Lemma elem_session_ids_store_tmp sid o v s :
  s ∈ session_ids (FS.store (session_tmp sid) o v) ↔ s ∈ session_ids v.
Proof.
  rewrite !elem_session_ids.
  change (sessions ?w !! ?n) with (FS.read (InSessions n) w).
  rewrite read_store_ne; [done |].
  unfold session_tmp, _session_path. cbn [Path.with_suffix].
  intros [= H]. by apply with_suffix_session_ne in H.
Qed.

Lemma elem_session_ids_store_other sid o v s :
  s ≠ sid →
  s ∈ session_ids (FS.store (_session_path sid) o v) ↔ s ∈ session_ids v.
Proof.
  intros Hne. rewrite !elem_session_ids.
  change (sessions ?w !! ?n) with (FS.read (InSessions n) w).
  rewrite read_store_ne; [done |].
  unfold _session_path. intros [= H%session_name_inj]. done.
Qed.

Lemma replayed_store p o v : replayed (FS.store p o v) = replayed v.
Proof. unfold replayed. by rewrite lines_store. Qed.

Lemma session_ids_store_data n o v :
  session_ids (FS.store (InData n) o v) = session_ids v.
Proof. done. Qed.

Lemma about_apply who o v v1 s :
  about who o → FS.apply o v = Some v1 → who ≠ Some s →
  (s ∈ session_ids v1 ↔ s ∈ session_ids v)
  ∧ (s ∈ replayed v1 ↔ s ∈ replayed v).
Proof.
  intros Ho Hap Hs.
  destruct o as [[n|n] x | [a|a] [b|b] | p | en]; cbn [about] in Ho;
    unfold FS.apply in Hap.
  - apply (inj Some) in Hap; subst v1. by rewrite replayed_store.
  - destruct Ho as (sid & -> & Hp). apply (inj Some) in Hap; subst v1.
    rewrite Hp, replayed_store. split; [apply elem_session_ids_store_tmp | done].
  - destruct (FS.read (InData a) v); [| done]. apply (inj Some) in Hap; subst v1.
    by rewrite !replayed_store.
  - destruct Ho as (sid & _ & [=] & _).
  - destruct Ho as (sid & _ & _ & [=]).
  - destruct Ho as (sid & -> & Hsrc & Hdst).
    destruct (FS.read (InSessions a) v); [| done]. apply (inj Some) in Hap; subst v1.
    rewrite Hsrc, Hdst, !replayed_store. split; [| done].
    rewrite elem_session_ids_store_other by congruence.
    apply elem_session_ids_store_tmp.
  - destruct Ho as (sid & -> & ->).
    destruct (FS.read (_session_path sid) v); [| done]. apply (inj Some) in Hap; subst v1.
    rewrite replayed_store. split; [| done].
    apply elem_session_ids_store_other. congruence.
  - apply (inj Some) in Hap; subst v1. split; [done |].
    unfold replayed. rewrite lines_append, replay_log_snoc. by apply Ho.
Qed.

Lemma about_stopped who ops v v' s :
  Forall (about who) ops → FS.stopped v ops v' → who ≠ Some s →
  (s ∈ session_ids v' ↔ s ∈ session_ids v)
  ∧ (s ∈ replayed v' ↔ s ∈ replayed v).
Proof.
  intros Hops Hst Hs.
  induction Hst as [| v p x ops v' Hw | v en ops | v o ops v1 v' Hap Hst IH].
  - done.
  - apply Forall_cons in Hops as [Ho _]. destruct Hw; [done |].
    rewrite replayed_store. split; [| done].
    destruct p as [n|n]; [done |]. cbn [about] in Ho.
    destruct Ho as (sid & _ & ->). apply elem_session_ids_store_tmp.
  - split; [done |]. unfold replayed.
    by rewrite lines_append, replay_log_snoc.
  - apply Forall_cons in Hops as [Ho Hops].
    destruct (about_apply who o v v1 s Ho Hap Hs) as [H1 H2].
    destruct (IH Hops) as [H3 H4]. by rewrite H3, H4.
Qed.

(** An entry that is no [session_created] and no [session_deleted]. *)
Lemma entry_of_harmless who e kind l :
  entry_of e kind l →
  kind ≠ "session_created" → kind ≠ "session_deleted" →
  harmless who l.
Proof.
  intros (d & -> & _ & _ & Hev & _) Hc Hd ids s _.
  unfold replay_line, session_event. rewrite Hev.
  destruct (Py.dict_get "session_id" d) as [[| | | | sid' | |]|]; try done.
  by rewrite !decide_False.
Qed.

Lemma neutral_about who tr :
  Forall neutral tr → Forall (harmless who) (appended tr) →
  Forall (about who) tr.
Proof.
  induction tr as [|o tr IH]; intros Hn Hh; [constructor |].
  apply Forall_cons in Hn as [Ho Hn].
  destruct o as [[n|n] x | [a|a] [b|b] | p | en]; try done;
    cbn [appended omap list_omap] in Hh; fold (appended tr) in Hh.
  - constructor; [done | by apply IH].
  - constructor; [done | by apply IH].
  - apply Forall_cons in Hh as [Hen Hh]. constructor; [done | by apply IH].
Qed.

Lemma logs_about who e kind {A} (m : M A) v :
  quiet m → logs e kind m →
  kind ≠ "session_created" → kind ≠ "session_deleted" →
  Forall (about who) (trace (m v)).
Proof.
  intros Hq Hl Hc Hd. apply neutral_about; [apply Hq |].
  destruct (Hl v) as [-> | (l & -> & He)]; [constructor |].
  constructor; [by eapply entry_of_harmless | constructor].
Qed.

Lemma harmless_created e b : harmless (Some (uuid4 e)) (Row (created_entry e b)).
Proof.
  intros ids s Hs. rewrite replay_created, elem_of_union, elem_of_singleton.
  split; [intros [->|?]; done | by right].
Qed.

Lemma harmless_updated who e sid : harmless who (Row (updated_entry e sid)).
Proof. intros ids s _. by rewrite replay_updated. Qed.

Lemma harmless_deleted e sid : harmless (Some sid) (Row (deleted_entry e sid)).
Proof.
  intros ids s Hs. rewrite replay_deleted, elem_of_difference, elem_of_singleton.
  split; [by intros [? _] |]. intros H. split; [done | congruence].
Qed.

Lemma about_save sid x :
  Forall (about (Some sid))
    [FS.WriteText (session_tmp sid) x;
     FS.Rename (session_tmp sid) (_session_path sid)].
Proof. repeat constructor; cbn; eauto. Qed.

Lemma silent_stats_tail sess : silent (stats_tail sess).
Proof. unfold stats_tail. silent_solve. Qed.

Lemma serve_about e r v :
  committed v → Forall (about (subject e r)) (trace (serve e r v)).
Proof.
  intros Hc.
  destruct r as [| | req | | sid | sid req | sid | limit];
    cbn [serve subject].
  - apply (logs_about _ e "startup");
      [apply quiet_bootstrap | apply (logs_serve e Boot) | done | done].
  - apply (logs_about _ e "crash_triggered" (discard (crash e)));
      [apply quiet_discard, quiet_crash | apply (logs_serve e Crash)
      | done | done].
  - unfold discard. cbn [trace].
    destruct (body_or_empty req) as [| | | | | |b] eqn:Hb;
      try (rewrite create_session_not_dict by (by rewrite Hb); constructor).
    rewrite (create_session_split e req b v Hb).
    unfold preceded. cbn [trace app].
    pose proof (about_save (uuid4 e) (new_session e b)) as H.
    apply Forall_cons in H as [H1 H]. apply Forall_cons in H as [H2 _].
    constructor; [done |]. constructor; [done |].
    constructor; [apply harmless_created |].
    apply neutral_about; [apply quiet_stats_tail |].
    rewrite silent_stats_tail. constructor.
  - destruct (reads_only_list_sessions v) as [_ Ht].
    unfold discard. cbn [trace]. rewrite Ht. constructor.
  - destruct (reads_only_get_session sid v) as [_ Ht].
    unfold discard. cbn [trace]. rewrite Ht. constructor.
  - unfold discard. cbn [trace].
    destruct (sessions v !! (sid +:+ ".json")) as [t|] eqn:Hs.
    2: { rewrite update_session_missing by done. constructor. }
    destruct (update_session_committed e sid req v t Hc Hs)
      as [(d' & Hid & ->) | ->]; [| constructor].
    cbn [trace].
    pose proof (about_save sid (JObj d')) as H.
    apply Forall_cons in H as [H1 H]. apply Forall_cons in H as [H2 _].
    constructor; [done |]. constructor; [done |].
    constructor; [apply harmless_updated | constructor].
  - unfold discard. cbn [trace].
    destruct (sessions v !! (sid +:+ ".json")) as [[x|x]|] eqn:Hs.
    + rewrite (delete_session_run e sid v x Hs). cbn [trace].
      constructor; [by exists sid |].
      constructor; [apply harmless_deleted | constructor].
    + rewrite delete_session_fails by (rewrite Hs; congruence). constructor.
    + rewrite delete_session_fails by (rewrite Hs; congruence). constructor.
  - destruct (reads_only_list_events limit v) as [_ Ht].
    unfold discard. cbn [trace]. rewrite Ht. constructor.
Qed.

(** A save cut short: either nothing shows yet, in the identifiers on disk
    and in the log, or the record is on disk. *)
Lemma stopped_save sid x rest v v' :
  Forall neutral rest →
  FS.stopped v
    (FS.WriteText (session_tmp sid) x
     :: FS.Rename (session_tmp sid) (_session_path sid) :: rest) v' →
  (session_ids v' = session_ids v ∧ replayed v' = replayed v)
  ∨ sid ∈ session_ids v'.
Proof.
  intros Hn Hst.
  assert (Htmp : ∀ o, session_ids (FS.store (session_tmp sid) o v)
                      = session_ids v).
  { intros o. apply set_eq. intros s. apply elem_session_ids_store_tmp. }
  inversion Hst as [| ? ? ? ? ? Hw | | ? ? ? v1 ? Hap Hst1]; subst.
  - by left.
  - left. destruct Hw; [done |]. by rewrite Htmp, replayed_store.
  - apply (inj Some) in Hap. subst v1.
    inversion Hst1 as [| | | ? ? ? v2 ? Hap2 Hst2]; subst.
    + left. by rewrite Htmp, replayed_store.
    + right. unfold FS.apply in Hap2. rewrite read_store_eq in Hap2.
      apply (inj Some) in Hap2. subst v2.
      erewrite session_ids_sessions by (by eapply stopped_neutral).
      fold (published (session_tmp sid) (_session_path sid) x v).
      rewrite session_ids_published. apply elem_of_union_l.
      by apply elem_of_singleton.
Qed.

(** An unlinking cut short: either nothing shows yet, or the file is
    gone. *)
Lemma stopped_unlink sid rest v v' :
  Forall neutral rest →
  FS.stopped v (FS.Unlink (_session_path sid) :: rest) v' →
  v' = v ∨ sid ∉ session_ids v'.
Proof.
  intros Hn Hst.
  inversion Hst as [| | | ? ? ? v1 ? Hap Hst1]; subst; [by left |].
  right. unfold FS.apply in Hap.
  destruct (FS.read (_session_path sid) v); [| done].
  apply (inj Some) in Hap. subst v1.
  erewrite session_ids_sessions by (by eapply stopped_neutral).
  rewrite session_ids_unlink, elem_of_difference, elem_of_singleton.
  by intros [_ ?].
Qed.

Lemma stopped_agree who ops v v' :
  consistent v → Forall (about who) ops → FS.stopped v ops v' →
  ∀ s, who ≠ Some s → (s ∈ session_ids v' ↔ s ∈ replayed v').
Proof.
  intros [_ Hids] Hab Hst s Hs.
  destruct (about_stopped _ _ _ _ s Hab Hst Hs) as [H1 H2].
  by rewrite H1, H2, Hids.
Qed.

(** When the record of [sid] is on disk at the point of the cut, the log
    is not ahead of the disk. *)
Lemma stopped_not_ahead sid ops v v' :
  consistent v → Forall (about (Some sid)) ops → FS.stopped v ops v' →
  (session_ids v' = session_ids v ∧ replayed v' = replayed v)
  ∨ sid ∈ session_ids v' →
  replayed v' ⊆ session_ids v'.
Proof.
  intros Hv Hab Hst [[H1 H2] | Hin] s Hs.
  - destruct Hv as [_ Hids]. by rewrite H1, Hids, <- H2.
  - destruct (decide (s = sid)) as [-> | Hne]; [done |].
    apply (stopped_agree (Some sid) ops v v'); [done.. | congruence | done].
Qed.

(** X18. A request cut short.  Take a volume whose session files hold
    complete records and are those the replay of the log gives, and a
    start or a request whose calls are cut at any point, a write or an
    append in flight included.  Then the records on disk and the replay of
    the log agree on every identifier other than the one the request is
    about (the one it draws, updates or deletes), and on all identifiers
    when it is about none.  On that one they differ in one direction
    only: the handlers change the session file before they append to the
    log, so after a cut creation or update every identifier the log gives
    is on disk, and after a cut deletion every identifier on disk is one
    the log gives. *)
Theorem interrupted_request
  (e : env) (r : request) (v v' : volume) :
  consistent v →
  FS.stopped v (trace (serve e r v)) v' →
  (∀ s, subject e r ≠ Some s → (s ∈ session_ids v' ↔ s ∈ replayed v'))
  ∧ match r with
    | Delete _ => session_ids v' ⊆ replayed v'
    | _ => replayed v' ⊆ session_ids v'
    end.
Proof.
  intros Hv Hst. pose proof Hv as [Hc Hids].
  pose proof (serve_about e r v Hc) as Hab.
  pose proof (stopped_agree _ _ _ _ Hv Hab Hst) as Hagree.
  split; [exact Hagree |].
  assert (Hnone : subject e r = None → replayed v' ⊆ session_ids v').
  { intros Hsub s Hs. apply Hagree; [by rewrite Hsub | done]. }
  assert (Hsame : v' = v → replayed v' ⊆ session_ids v').
  { intros -> s Hs. by rewrite Hids. }
  pose proof Hst as Hst0.
  destruct r as [| | req | | sid | sid req | sid | limit];
    cbn [subject] in *; try (by apply Hnone).
  - unfold serve, discard in Hst. cbn [trace] in Hst.
    destruct (body_or_empty req) as [| | | | | |b] eqn:Hb;
      try (rewrite create_session_not_dict in Hst by (by rewrite Hb);
           inversion Hst; subst; by apply Hsame).
    rewrite (create_session_split e req b v Hb) in Hst.
    unfold preceded in Hst. cbn [trace app] in Hst.
    apply (stopped_not_ahead (uuid4 e) _ v v' Hv Hab Hst0).
    eapply stopped_save; [| exact Hst].
    constructor; [done | apply quiet_stats_tail].
  - unfold serve, discard in Hst. cbn [trace] in Hst.
    destruct (sessions v !! (sid +:+ ".json")) as [t|] eqn:Hs.
    2: { rewrite update_session_missing in Hst by done.
         inversion Hst; subst. by apply Hsame. }
    destruct (update_session_committed e sid req v t Hc Hs)
      as [(d' & Hid & Hr) | Hr]; rewrite Hr in Hst; cbn [trace] in Hst.
    2: { inversion Hst; subst. by apply Hsame. }
    apply (stopped_not_ahead sid _ v v' Hv Hab Hst0).
    eapply stopped_save; [| exact Hst]. by repeat constructor.
  - unfold serve, discard in Hst. cbn [trace] in Hst.
    assert (Hsame' : v' = v → session_ids v' ⊆ replayed v').
    { intros -> s Hs. by rewrite <- Hids. }
    destruct (sessions v !! (sid +:+ ".json")) as [[x|x]|] eqn:Hs.
    2,3: rewrite delete_session_fails in Hst by (rewrite Hs; congruence);
         inversion Hst; subst; by apply Hsame'.
    rewrite (delete_session_run e sid v x Hs) in Hst. cbn [trace] in Hst.
    destruct (stopped_unlink sid [FS.AppendLine (deleted_entry e sid)] v v')
      as [Heq | Hgone]; [by repeat constructor | exact Hst
                        | by apply Hsame' |].
    intros s Hin. apply Hagree; [| done]. congruence.
Qed.

Lemma interrupted_request_witness :
  let sess := new_session example_env [] in
  let v' :=
    published (session_tmp "7f3c") (_session_path "7f3c") sess fresh_volume in
  consistent fresh_volume
  ∧ FS.stopped fresh_volume
      (trace (serve example_env (Create None) fresh_volume)) v'
  ∧ ("a1b2" ∈ session_ids v' ↔ "a1b2" ∈ replayed v')
  ∧ replayed v' ⊆ session_ids v'
  ∧ "7f3c" ∈ session_ids v' ∧ "7f3c" ∉ replayed v'.
Proof.
  intros sess v'.
  assert (Hst : FS.stopped fresh_volume
                  (trace (serve example_env (Create None) fresh_volume)) v').
  { unfold serve, discard. cbn [trace].
    rewrite (create_session_split example_env None [] fresh_volume eq_refl).
    unfold preceded. cbn [trace app].
    eapply FS.stopped_after; [reflexivity |].
    eapply FS.stopped_after; [| apply FS.stopped_before].
    unfold FS.apply. by rewrite read_store_eq. }
  destruct (interrupted_request example_env (Create None) fresh_volume v'
              consistent_fresh Hst) as [Hagree Hsub].
  split; [exact consistent_fresh |]. split; [exact Hst |].
  split; [apply Hagree; discriminate |]. split; [exact Hsub |].
  split.
  - unfold v'. rewrite session_ids_published. apply elem_of_union_l.
    by apply elem_of_singleton.
  - apply not_elem_of_empty.
Defined.

(** ** A creation that draws an identifier in use *)

(** X19. [create_session] does not look whether the identifier it draws
    is in use.  When the sessions directory already has a file for it,
    whatever that file holds, the creation returns with status 201 all the
    same: the file then holds the new record and what it held is lost,
    the set of identifiers on disk is as before, the log has a second
    [session_created] entry for the identifier, and [total_sessions] is
    one higher. *)
Theorem create_session_collision
  (e : env) (req : option json) (b s : dict) (t : Z) (old : text)
  (v : volume) :
  body_or_empty req = JObj b →
  value (_load_stats v) = Ok (JObj s) →
  Py.dict_get "total_sessions" s = Some (JInt t) →
  sessions v !! (uuid4 e +:+ ".json") = Some old →
  let r := create_session e req v in
  value r = Ok (new_session e b, 201)
  ∧ sessions (after r) !! (uuid4 e +:+ ".json")
    = Some (Doc (new_session e b))
  ∧ session_ids (after r) = session_ids v
  ∧ lines (after r) = lines v ++ [Row (created_entry e b)]
  ∧ ∃ s', value (_load_stats (after r)) = Ok (JObj s')
          ∧ Py.dict_get "total_sessions" s' = Some (JInt (t + 1)).
Proof.
  intros Hb Hload Ht Hold r. unfold r.
  rewrite (create_session_run e req b v s t Hb Hload Ht). cbn [value after].
  split; [done |].
  change (sessions (published STATS_TMP STATS_FILE ?x ?w)) with (sessions w).
  change (lines (published STATS_TMP STATS_FILE ?x ?w)) with (lines w).
  split; [apply sessions_after_save |]. split; [| split].
  - match goal with
    | |- session_ids (published STATS_TMP STATS_FILE ?x ?w) = _ =>
        rewrite (session_ids_sessions w (published STATS_TMP STATS_FILE x w))
          by done
    end.
    apply session_ids_resaved. by rewrite Hold.
  - reflexivity.
  - eexists. split; [by apply load_stats_published |]. apply dict_get_set_eq.
Qed.

Lemma create_session_collision_witness :
  let r := create_session example_env (Some (JObj [("name", JStr "beta")]))
             example_volume in
  body_or_empty (Some (JObj [("name", JStr "beta")]))
  = JObj [("name", JStr "beta")]
  ∧ value (_load_stats example_volume) = Ok (JObj example_stats)
  ∧ Py.dict_get "total_sessions" example_stats = Some (JInt 1)
  ∧ sessions example_volume !! (uuid4 example_env +:+ ".json")
    = Some (Doc (JObj example_record))
  ∧ sessions (after r) !! (uuid4 example_env +:+ ".json")
    = Some (Doc (new_session example_env [("name", JStr "beta")]))
  ∧ session_ids (after r) = session_ids example_volume.
Proof.
  intros r.
  destruct (create_session_collision example_env
              (Some (JObj [("name", JStr "beta")])) [("name", JStr "beta")]
              example_stats 1 (Doc (JObj example_record)) example_volume
              eq_refl eq_refl eq_refl eq_refl) as (_ & Hs & Hids & _).
  do 4 (split; [reflexivity |]). split; [exact Hs | exact Hids].
Defined.
